(** * bytehub: the feature store of [bytehub/store.py]

    A shallow embedding of [FeatureStore]: the identifier resolver
    ([_split_name], [_unpack_list]), the keyword validator
    ([_validate_kwargs]), the catalog operations ([_list], [_exists],
    [_create], [_update], [_delete]) with the namespace and feature life
    cycle built on them, and the read and write paths ([load_dataframe],
    [save_dataframe]).

    Python values are modelled as follows: [None] or a string is an
    [option string]; a keyword dictionary is an association list in insertion
    order; an exception is a constructor of [exn] carrying the message the
    code builds; a method that mutates the store is a function from the store
    to a result and the store afterwards.

    The physical backend ([feature.load], [feature.save], [feature.last]) is
    not part of the sources, and the rows [dd.merge] returns depend on the
    partitions dask works on: the read and write paths take them as
    parameters, and what is proved of these paths holds whatever they
    are. *)

From Stdlib Require Import List String Ascii Bool ZArith Lia Arith.
Import ListNotations.
Local Open Scope string_scope.
Local Open Scope list_scope.

Set Implicit Arguments.

(** ** Python strings *)

Module Py.

(** [s.split("/")]: the segments between separators, never empty. *)
Fixpoint split (s : string) : list string :=
  match s with
  | EmptyString => [EmptyString]
  | String c rest =>
      if Ascii.eqb c "/"%char then EmptyString :: split rest
      else match split rest with
           | seg :: segs => String c seg :: segs
           | [] => [String c EmptyString]
           end
  end.

(** ["/".join(parts)]. *)
Fixpoint join (parts : list string) : string :=
  match parts with
  | [] => EmptyString
  | [p] => p
  | p :: ps => p ++ "/" ++ join ps
  end.

(** ["/" in s]. *)
Fixpoint has_sep (s : string) : bool :=
  match s with
  | EmptyString => false
  | String c rest => Ascii.eqb c "/"%char || has_sep rest
  end.

(** Truth value of an optional string: [None] and [""] are false. *)
Definition truthy (o : option string) : bool :=
  match o with
  | Some (String _ _) => true
  | _ => false
  end.

(** [f"{o}"] for an optional string. *)
Definition fmt (o : option string) : string :=
  match o with
  | Some s => s
  | None => "None"
  end.

(** [k in d.keys()] and [d.get(k)] on a dictionary kept as an association
    list in insertion order. *)
Definition keys {V : Type} (d : list (string * V)) : list string :=
  map fst d.

Definition mem (k : string) (l : list string) : bool :=
  existsb (String.eqb k) l.

Fixpoint get {V : Type} (d : list (string * V)) (k : string) : option V :=
  match d with
  | [] => None
  | (k', v) :: d' => if String.eqb k' k then Some v else get d' k
  end.

(** [d.update({k: v})]: replace in place, or append a new key. *)
Fixpoint update {V : Type} (d : list (string * V)) (k : string) (v : V)
  : list (string * V) :=
  match d with
  | [] => [(k, v)]
  | (k', v') :: d' =>
      if String.eqb k' k then (k', v) :: d' else (k', v') :: update d' k v
  end.

End Py.

(** ** Exceptions and results *)

Inductive exn : Type :=
| ValueError (msg : string)
| RuntimeError (msg : string)
| TypeError (msg : string)
| NoResultFound
| MultipleResultsFound
| IntegrityError
| AssertionError
| RecursionError
| NotImplementedError (msg : string).

Inductive result (A : Type) : Type :=
| Ok (a : A)
| Raise (e : exn).

Arguments Ok {A} a.
Arguments Raise {A} e.

(** ** Identifier resolver *)

(** [FeatureStore._split_name(namespace, name)]. *)
Definition _split_name (namespace name : option string)
  : option string * option string :=
  match name with
  | Some n =>
      if negb (Py.truthy namespace) && Py.truthy name && Py.has_sep n then
        let parts := Py.split n in
        (Some (hd EmptyString parts), Some (Py.join (tl parts)))
      else (namespace, name)
  | None => (namespace, name)
  end.

(** An element of a list passed to the resolver: a string, a mapping, or
    anything else. *)
Inductive item : Type :=
| IStr (s : string)
| IDict (d : list (string * string))
| IOther.

(** A table of identifiers: its column names and, per row, the cells under
    those columns. *)
Record Table : Type := mkTable {
  t_columns : list string;
  t_rows : list (list (string * option string));
}.

(** The accepted shapes of the [features] argument. *)
Inductive ident : Type :=
| OStr (s : string)
| OFrame (df : Table)
| OList (l : list item)
| OOther.

Definition row_get (row : list (string * option string)) (k : string)
  (default : option string) : option string :=
  match Py.get row k with
  | Some cell => cell
  | None => default
  end.

(** The loop over the elements of a list input. *)
Fixpoint unpack_items (l : list item) (namespace : option string)
  : result (list (option string * option string)) :=
  match l with
  | [] => Ok []
  | it :: rest =>
      let one :=
        match it with
        | IStr s => Ok (_split_name namespace (Some s))
        | IDict d => Ok (_split_name (Py.get d "namespace") (Py.get d "name"))
        | IOther => Raise (ValueError "List must contain strings or dicts")
        end in
      match one with
      | Raise e => Raise e
      | Ok p =>
          match unpack_items rest namespace with
          | Ok r => Ok (p :: r)
          | Raise e => Raise e
          end
      end
  end.

(** [FeatureStore._unpack_list(obj, namespace)]. *)
Definition _unpack_list (obj : ident) (namespace : option string)
  : result (list (option string * option string)) :=
  match obj with
  | OStr s => Ok [_split_name namespace (Some s)]
  | OFrame df =>
      if Py.mem "name" (t_columns df) then
        Ok (map (fun row => (row_get row "namespace" namespace,
                             row_get row "name" None)) (t_rows df))
      else Raise (ValueError "DataFrame must have a name column")
  | OList l => unpack_items l namespace
  | OOther =>
      Raise (ValueError
        "Must supply a string, dataframe or list specifying namespace/name")
  end.

(** ** Keyword validator *)

Fixpoint check_valid (names valid : list string) : result unit :=
  match names with
  | [] => Ok tt
  | name :: rest =>
      if Py.mem name valid then check_valid rest valid
      else Raise (ValueError ("Invalid argument: " ++ name))
  end.

Fixpoint check_mandatory (mandatory names : list string) : result unit :=
  match mandatory with
  | [] => Ok tt
  | name :: rest =>
      if Py.mem name names then check_mandatory rest names
      else Raise (ValueError ("Missing mandatory argument: " ++ name))
  end.

(** [FeatureStore._validate_kwargs(args, valid, mandatory)]. *)
Definition _validate_kwargs {V : Type} (args : list (string * V))
  (valid mandatory : list string) : result unit :=
  match check_valid (Py.keys args) valid with
  | Raise e => Raise e
  | Ok _ => check_mandatory mandatory (Py.keys args)
  end.

(** ** Catalog records and the store *)

(** A keyword or column value: [None], a string, or a dictionary. *)
Inductive value : Type :=
| VNone
| VStr (s : string)
| VDict (d : list (string * string)).

Definition kwargs : Type := list (string * value).

Definition as_str (v : value) : option string :=
  match v with
  | VStr s => Some s
  | _ => None
  end.

Definition of_str (o : option string) : value :=
  match o with
  | Some s => VStr s
  | None => VNone
  end.

Definition kw_get (kw : kwargs) (k : string) : option string :=
  match Py.get kw k with
  | Some v => as_str v
  | None => None
  end.

(** Modelled from the spec: [model.Namespace] is not part of the sources;
    the record has the attributes the data model lists for a namespace. *)
Record Namespace : Type := mkNamespace {
  ns_name : option string;
  ns_description : value;
  ns_url : value;
  ns_storage_options : value;
  ns_meta : value;
}.

(** Modelled from the spec: [model.Feature] is not part of the sources;
    the record has the attributes the data model lists for a feature. *)
Record Feature : Type := mkFeature {
  ft_namespace : option string;
  ft_name : option string;
  ft_description : value;
  ft_partition : value;
  ft_meta : value;
}.

(** A cell of a frame: a number, or [None] for a missing value (NaN).
    Numbers are modelled by their integer values. The code never computes on
    them; pandas converts them where a join turns an integer column into a
    float64 column ([Pd.float64] below). *)
Definition cell : Type := option Z.

(** A pandas frame: its index and its named columns, in column order. *)
Record DataFrame : Type := mkFrame {
  index : list Z;
  columns : list (string * list cell);
}.

(** The store: the two catalog tables and, for the physical backend, the
    frames handed to [feature.save], oldest first, whether the backend then
    wrote them or raised. *)
Record Store : Type := mkStore {
  namespaces : list Namespace;
  features : list Feature;
  backend : list (Feature * DataFrame);
}.

(** ** Stateful computations that may raise *)

Definition M (A : Type) : Type := Store -> result A * Store.

Definition ret {A : Type} (a : A) : M A := fun s => (Ok a, s).

Definition raise {A : Type} (e : exn) : M A := fun s => (Raise e, s).

Definition bind {A B : Type} (m : M A) (k : A -> M B) : M B :=
  fun s =>
    match m s with
    | (Ok a, s') => k a s'
    | (Raise e, s') => (Raise e, s')
    end.

Definition get_store : M Store := fun s => (Ok s, s).

Definition lift {A : Type} (r : result A) : M A := fun s => (r, s).

Declare Scope py_scope.
Delimit Scope py_scope with py.
Notation "x <- c ;; k" := (bind c (fun x => k))
  (at level 61, c at next level, right associativity) : py_scope.
Notation "c ;;; k" := (bind c (fun _ => k))
  (at level 61, right associativity) : py_scope.
Local Open Scope py_scope.

(** Modelled from the spec: [conn.session_scope] is not part of the
    sources; it is the unit of work that commits on success and rolls the
    catalog back when the body raises. What the body handed to the physical
    backend is outside the transaction and stays. *)
Definition session_scope {A : Type} (body : M A) : M A :=
  fun s =>
    match body s with
    | (Ok a, s') => (Ok a, s')
    | (Raise e, s') =>
        (Raise e, mkStore (namespaces s) (features s) (backend s'))
    end.

(** ** Catalog operations, generic in the entity class *)

Definition opt_eqb (a b : option string) : bool :=
  match a, b with
  | Some x, Some y => String.eqb x y
  | None, None => true
  | _, _ => false
  end.

(** The interface the two model classes share. *)
Class Entity (R : Type) : Type := {
  cls_name : string;
  is_namespace : bool;
  attr_namespace : R -> option string;
  attr_name : R -> option string;
  rows : Store -> list R;
  set_rows : list R -> Store -> Store;
  blank : R;
  update_from_dict : kwargs -> R -> R;
  same_key : R -> R -> bool;
}.

Section Catalog.

(** [re.search(pattern, subject)], used by the regex filter of [_list]. *)
Variable re_search : string -> string -> bool.

Context {R : Type} `{Entity R}.

(** [query.filter_by(namespace=...)] and [query.filter_by(name=...)],
    applied only when the filter value is true. *)
Definition filtered (namespace name : option string) (s : Store) : list R :=
  let r := rows s in
  let r := if Py.truthy namespace
           then filter (fun o => opt_eqb (attr_namespace o) namespace) r
           else r in
  if Py.truthy name
  then filter (fun o => opt_eqb (attr_name o) name) r
  else r.

Definition regex_filter (regex : option string) (l : list R) : list R :=
  match regex with
  | Some p =>
      if Py.truthy regex
      then filter (fun o => match attr_name o with
                            | Some n => re_search p n
                            | None => false
                            end) l
      else l
  | None => l
  end.

(** [FeatureStore._list(cls, namespace, name, regex)]: the rows of the
    resulting table (the code then only orders its columns). *)
Definition _list (namespace name regex : option string) : M (list R) :=
  let '(namespace, name) := _split_name namespace name in
  session_scope (
    s <- get_store ;;
    ret (regex_filter regex (filtered namespace name s))).

(** [FeatureStore._exists(cls, namespace, name)]. *)
Definition _exists (namespace name : option string) : M bool :=
  ls <- _list namespace name None ;;
  ret (negb (match ls with [] => true | _ => false end)).

(** [query.one_or_none()]. *)
Definition one_or_none (l : list R) : result (option R) :=
  match l with
  | [] => Ok None
  | [o] => Ok (Some o)
  | _ => Raise MultipleResultsFound
  end.

(** [query.one()]. *)
Definition one (l : list R) : result R :=
  match l with
  | [] => Raise NoResultFound
  | [o] => Ok o
  | _ => Raise MultipleResultsFound
  end.

Definition matches (namespace name : option string) (o : R) : bool :=
  (negb (Py.truthy namespace) || opt_eqb (attr_namespace o) namespace)
  && (negb (Py.truthy name) || opt_eqb (attr_name o) name).

Definition no_existing (namespace name : option string) : exn :=
  RuntimeError ("No existing " ++ cls_name ++ " named " ++ Py.fmt name
                ++ " in " ++ Py.fmt namespace).

(** [FeatureStore._delete(cls, namespace, name)]. *)
Definition _delete (namespace name : option string) : M unit :=
  let '(namespace, name) := _split_name namespace name in
  session_scope (
    s <- get_store ;;
    obj <- lift (one_or_none (filtered namespace name s)) ;;
    match obj with
    | None => raise (no_existing namespace name)
    | Some _ =>
        fun s => (Ok tt,
                  set_rows (filter (fun o => negb (matches namespace name o))
                                   (rows s)) s)
    end).

(** [FeatureStore._update(cls, namespace, name, payload)]. *)
Definition _update (namespace name : option string) (payload : kwargs)
  : M unit :=
  let '(namespace, name) := _split_name namespace name in
  session_scope (
    s <- get_store ;;
    obj <- lift (one_or_none (filtered namespace name s)) ;;
    match obj with
    | None => raise (no_existing namespace name)
    | Some _ =>
        fun s => (Ok tt,
                  set_rows (map (fun o => if matches namespace name o
                                          then update_from_dict payload o
                                          else o) (rows s)) s)
    end).

End Catalog.

(** ** The two entity classes *)

(** Modelled from the spec: [update_from_dict] of the model classes is not
    part of the sources; payload fields overwrite the corresponding row
    fields and unspecified fields stay as they are. *)
Definition ns_set (o : Namespace) (kv : string * value) : Namespace :=
  let '(k, v) := kv in
  if String.eqb k "name" then
    mkNamespace (as_str v) (ns_description o) (ns_url o)
                (ns_storage_options o) (ns_meta o)
  else if String.eqb k "description" then
    mkNamespace (ns_name o) v (ns_url o) (ns_storage_options o) (ns_meta o)
  else if String.eqb k "url" then
    mkNamespace (ns_name o) (ns_description o) v
                (ns_storage_options o) (ns_meta o)
  else if String.eqb k "storage_options" then
    mkNamespace (ns_name o) (ns_description o) (ns_url o) v (ns_meta o)
  else if String.eqb k "meta" then
    mkNamespace (ns_name o) (ns_description o) (ns_url o)
                (ns_storage_options o) v
  else o.

Definition ft_set (o : Feature) (kv : string * value) : Feature :=
  let '(k, v) := kv in
  if String.eqb k "namespace" then
    mkFeature (as_str v) (ft_name o) (ft_description o)
              (ft_partition o) (ft_meta o)
  else if String.eqb k "name" then
    mkFeature (ft_namespace o) (as_str v) (ft_description o)
              (ft_partition o) (ft_meta o)
  else if String.eqb k "description" then
    mkFeature (ft_namespace o) (ft_name o) v (ft_partition o) (ft_meta o)
  else if String.eqb k "partition" then
    mkFeature (ft_namespace o) (ft_name o) (ft_description o) v (ft_meta o)
  else if String.eqb k "meta" then
    mkFeature (ft_namespace o) (ft_name o) (ft_description o)
              (ft_partition o) v
  else o.

(** Modelled from the spec: the [namespace] attribute of [model.Namespace],
    which [_list] filters on for both classes, is not part of the sources; a
    namespace has no qualifier of its own, and [list_namespaces] documents
    its [namespace] keyword as the same as [name], so the attribute is the
    namespace's name. Rows are unique by name. *)
#[global] Instance Namespace_Entity : Entity Namespace := {|
  cls_name := "Namespace";
  is_namespace := true;
  attr_namespace := ns_name;
  attr_name := ns_name;
  rows := namespaces;
  set_rows := fun l s => mkStore l (features s) (backend s);
  blank := mkNamespace None VNone VNone VNone VNone;
  update_from_dict := fun payload o => fold_left ns_set payload o;
  same_key := fun a b => opt_eqb (ns_name a) (ns_name b);
|}.

(** Modelled from the spec: rows of [model.Feature] are unique by the pair
    of namespace and name, and the partition defaults to ["date"]. *)
#[global] Instance Feature_Entity : Entity Feature := {|
  cls_name := "Feature";
  is_namespace := false;
  attr_namespace := ft_namespace;
  attr_name := ft_name;
  rows := features;
  set_rows := fun l s => mkStore (namespaces s) l (backend s);
  blank := mkFeature None None VNone (VStr "date") VNone;
  update_from_dict := fun payload o => fold_left ft_set payload o;
  same_key := fun a b => opt_eqb (ft_namespace a) (ft_namespace b)
                         && opt_eqb (ft_name a) (ft_name b);
|}.

Section FeatureStore.

Variable re_search : string -> string -> bool.

(** [session.add(obj)] and the commit: the uniqueness constraint of the
    table rejects a second row with the same key. *)
Definition session_add {R : Type} `{Entity R} (obj : R) : M unit :=
  fun s =>
    if existsb (same_key obj) (rows s) then (Raise IntegrityError, s)
    else (Ok tt, set_rows (rows s ++ [obj]) s).

(** [FeatureStore._create(cls, namespace, name, payload)]. *)
Definition _create {R : Type} `{Entity R}
  (namespace name : option string) (payload : kwargs) : M unit :=
  payload <-
    (if is_namespace (R := R) then
       ret (Py.update payload "name" (of_str name))
     else
       let '(namespace, name) := _split_name namespace name in
       ex <- _exists (R := Namespace) re_search namespace None ;;
       if negb ex then
         raise (ValueError (Py.fmt namespace ++ " namespace does not exist"))
       else
         ret (Py.update (Py.update payload "name" (of_str name))
                        "namespace" (of_str namespace))) ;;
  session_scope (session_add (update_from_dict payload (blank (R := R)))).

(** [FeatureStore.list_namespaces with keywords]. *)
Definition list_namespaces (kw : kwargs) : M (list Namespace) :=
  lift (_validate_kwargs kw ["name"; "namespace"; "regex"] []) ;;;
  _list re_search None
    (match Py.get kw "name" with
     | Some v => as_str v
     | None => kw_get kw "namespace"
     end)
    (kw_get kw "regex").

(** [FeatureStore.create_namespace(name, keywords)]. *)
Definition create_namespace (name : string) (kw : kwargs) : M unit :=
  lift (_validate_kwargs kw
          ["description"; "url"; "storage_options"; "meta"] ["url"]) ;;;
  _create (R := Namespace) None (Some name) kw.

(** [FeatureStore.update_namespace(name, keywords)]. *)
Definition update_namespace (name : string) (kw : kwargs) : M unit :=
  lift (_validate_kwargs kw ["description"; "storage_options"; "meta"] []) ;;;
  _update (R := Namespace) None (Some name) kw.

(** [FeatureStore.list_features with keywords]. *)
Definition list_features (kw : kwargs) : M (list Feature) :=
  lift (_validate_kwargs kw ["name"; "namespace"; "regex"] []) ;;;
  _list re_search (kw_get kw "namespace") (kw_get kw "name")
        (kw_get kw "regex").

(** [FeatureStore.delete_namespace(name)]. *)
Definition delete_namespace (name : string) : M unit :=
  ls <- list_features [("namespace", VStr name)] ;;
  match ls with
  | _ :: _ =>
      raise (RuntimeError
               (name ++ " still contains features: these must be deleted first"))
  | [] => _delete (R := Namespace) None (Some name)
  end.

(** [FeatureStore.create_feature(name, namespace, keywords)]. *)
Definition create_feature (name : string) (namespace : option string)
  (kw : kwargs) : M unit :=
  lift (_validate_kwargs kw ["description"; "meta"; "partition"] []) ;;;
  _create (R := Feature) namespace (Some name) kw.

(** [FeatureStore.delete_feature(name, namespace)]. *)
Definition delete_feature (name : string) (namespace : option string)
  : M unit :=
  _delete (R := Feature) namespace (Some name).

(** [FeatureStore.update_feature(name, namespace, keywords)]. *)
Definition update_feature (name : string) (namespace : option string)
  (kw : kwargs) : M unit :=
  lift (_validate_kwargs kw ["description"; "meta"] []) ;;;
  _update (R := Feature) namespace (Some name) kw.

End FeatureStore.

(** ** pandas frames *)

Module Pd.

Section SortUnique.

Variable A : Type.
Variable cmp : A -> A -> comparison.

Fixpoint insert (x : A) (l : list A) : list A :=
  match l with
  | [] => [x]
  | y :: l' =>
      match cmp x y with
      | Lt => x :: l
      | Eq => l
      | Gt => y :: insert x l'
      end
  end.

(** The distinct elements of [l] in increasing order. *)
Definition sort_unique (l : list A) : list A :=
  fold_right insert [] l.

End SortUnique.

(** [Index.difference(other)] on column labels: the labels not in
    [other], unique and sorted. *)
Definition difference (labels other : list string) : list string :=
  sort_unique String.compare
    (filter (fun c => negb (Py.mem c other)) labels).

(** The union of time indexes in increasing order: the sorted union. *)
Definition union_all (l : list (list Z)) : list Z :=
  sort_unique Z.compare (List.concat l).

(** [df.columns]. *)
Definition labels (df : DataFrame) : list string :=
  map fst (columns df).

(** [df[names]]: the columns carrying each label, in the order asked. *)
Definition select (df : DataFrame) (names : list string) : DataFrame :=
  mkFrame (index df)
    (flat_map (fun n => filter (fun c => String.eqb (fst c) n) (columns df))
              names).

(** [df.rename(columns={old: new})]. *)
Definition rename (df : DataFrame) (old new : string) : DataFrame :=
  mkFrame (index df)
    (map (fun c => if String.eqb (fst c) old then (new, snd c) else c)
         (columns df)).

(** The cell of a column at index label [t]; missing when [t] is not in
    the index. *)
Fixpoint at_label (idx : list Z) (col : list cell) (t : Z) : cell :=
  match idx, col with
  | u :: idx', c :: col' => if Z.eqb u t then c else at_label idx' col' t
  | _, _ => None
  end.

(** The float64 nearest to the integer [z], ties going to the even
    mantissa, as an integer: up to [2^53] in magnitude every integer is a
    float64, and beyond that every float64 is an integer, [2^e] apart where
    the integer has [53 + e] bits. *)
Definition float64 (z : Z) : Z :=
  let a := Z.abs z in
  if Z.ltb a (2 ^ 53) then z
  else
    let e := (Z.log2 a - 52)%Z in
    let q := Z.shiftr a e in
    let r := (a - Z.shiftl q e)%Z in
    let half := Z.shiftl 1 (e - 1) in
    let q' := if Z.ltb half r || (Z.eqb r half && Z.odd q)
              then (q + 1)%Z else q in
    (Z.sgn z * Z.shiftl q' e)%Z.

(** Whether aligning a frame indexed by [own] on [idx] introduces missing
    cells: some label of [idx] is not in [own]. *)
Definition introduces (own idx : list Z) : bool :=
  existsb (fun t => negb (existsb (Z.eqb t) own)) idx.

(** The columns of [df] aligned on the index [idx]. Where the alignment
    introduces missing cells pandas holds the column as float64, and the
    numbers of an integer column are converted. *)
Definition reindex (df : DataFrame) (idx : list Z)
  : list (string * list cell) :=
  map (fun c =>
         let cells := map (at_label (index df) (snd c)) idx in
         (fst c,
          if introduces (index df) idx then map (option_map float64) cells
          else cells))
      (columns df).

(** [pd.concat(dfs, join="outer", axis=1)] for frames whose time index
    is in strictly increasing order: the frames side by side, each aligned
    on the sorted union of the indexes. *)
Definition concat_outer (dfs : list DataFrame) : result DataFrame :=
  match dfs with
  | [] => Raise (ValueError "No objects to concatenate")
  | _ =>
      let idx := union_all (map index dfs) in
      Ok (mkFrame idx (flat_map (fun df => reindex df idx) dfs))
  end.

(** [functools.reduce(f, dfs)] without an initial value. *)
Definition reduce (f : DataFrame -> DataFrame -> DataFrame)
  (dfs : list DataFrame) : result DataFrame :=
  match dfs with
  | [] =>
      Raise (TypeError "reduce() of empty iterable with no initial value")
  | df :: rest => Ok (fold_left f rest df)
  end.

(** Forward fill of one column, [last] being the last value seen. *)
Fixpoint ffill_col (last : cell) (col : list cell) : list cell :=
  match col with
  | [] => []
  | c :: rest =>
      let v := match c with Some _ => c | None => last end in
      v :: ffill_col v rest
  end.

(** [df.ffill()]: each column filled down the rows, in the order the frame
    has them. *)
Definition ffill (df : DataFrame) : DataFrame :=
  mkFrame (index df)
          (map (fun c => (fst c, ffill_col None (snd c))) (columns df)).

End Pd.

(** ** Read and write paths *)

(** A series as the physical backend returns it: time and value. *)
Definition Series : Type := list (Z * cell).

Section ReadWrite.

Variable re_search : string -> string -> bool.

(** [feature.load(from_date, to_date, freq, time_travel, mode)] of the
    physical backend, which is not part of the sources: a series of time
    and value read from what the store holds, or an exception. *)
Variable feature_load :
  Store -> Feature -> option Z -> option Z -> option string -> option Z ->
  string -> result Series.

(** [feature.save(df)] of the physical backend, which is not part of the
    sources: given what the store holds, it writes the frame and returns
    nothing, or raises (a frame without time values, a failing write). *)
Variable feature_save : Store -> Feature -> DataFrame -> result unit.

(** [dd.merge(left, right, left_index=True, right_index=True, how="outer")]
    of dask, once computed. It is not embedded: the rows of the outer join
    come back in the order of the partitions dask works on, which the
    library does not fix. *)
Variable dd_merge : DataFrame -> DataFrame -> DataFrame.

(** The call [feature.save(df)]: the store records the frame as handed to
    the backend for the feature, and the call returns or raises as the
    backend does. *)
Definition call_save (feature : Feature) (df : DataFrame) : M unit :=
  fun s => (feature_save s feature df,
            mkStore (namespaces s) (features s)
                    (backend s ++ [(feature, df)])).

(** [session.query(model.Feature).filter_by(name=name, namespace=namespace)]. *)
Definition query_feature (namespace name : option string) (s : Store)
  : list Feature :=
  filter (fun o => opt_eqb (ft_name o) name
                   && opt_eqb (ft_namespace o) namespace) (features s).

Fixpoint for_each {A : Type} (l : list A) (body : A -> M unit) : M unit :=
  match l with
  | [] => ret tt
  | x :: rest => body x ;;; for_each rest body
  end.

Definition does_not_exist (namespace name : option string) : exn :=
  ValueError ("Feature named " ++ Py.fmt name ++ " does not exist in "
              ++ Py.fmt namespace).

(** [FeatureStore.save_dataframe(df, name, namespace)], [depth] bounding
    the nesting of calls. *)
Fixpoint save_dataframe_rec (depth : nat) (df : DataFrame)
  (name namespace : option string) : M unit :=
  match depth with
  | O => raise RecursionError
  | S depth' =>
      let feature_columns :=
        Pd.difference (Pd.labels df) ["time"; "created_time"] in
      match feature_columns with
      | [c] =>
          nd <- (if String.eqb c "value" then
                   if negb (Py.truthy name)
                   then raise (ValueError "Must specify feature name")
                   else ret (name, df)
                 else ret (Some c, Pd.rename df c "value")) ;;
          let '(name, df) := nd in
          ex <- _exists (R := Feature) re_search namespace name ;;
          if negb ex then raise (does_not_exist namespace name)
          else
            let '(namespace, name) := _split_name namespace name in
            session_scope (
              s <- get_store ;;
              feature <- lift (one (query_feature namespace name s)) ;;
              call_save feature df)
      | _ =>
          for_each feature_columns (fun feature_name =>
            ex <- _exists (R := Feature) re_search namespace name ;;
            if negb ex then raise (does_not_exist namespace name)
            else ret tt) ;;;
          for_each feature_columns (fun feature_name =>
            let feature_df :=
              Pd.select df
                (Pd.difference (Pd.labels df) feature_columns
                 ++ [feature_name]) in
            save_dataframe_rec depth' feature_df None None)
      end
  end.

(** A nested call always has a single feature column and does not nest
    further ([save_dataframe_depth] below), so two levels are all the code
    ever uses. *)
Definition save_dataframe (df : DataFrame) (name namespace : option string)
  : M unit :=
  save_dataframe_rec 2 df name namespace.

(** [f"{namespace}/{name}"]. *)
Definition label (f : option string * option string) : string :=
  Py.fmt (fst f) ++ "/" ++ Py.fmt (snd f).

Definition to_frame (ser : Series) : DataFrame :=
  mkFrame (map fst ser) [("value", map snd ser)].

Section Load.

Variables (from_date to_date : option Z) (freq : option string)
          (time_travel : option Z) (mode : string).

(** The body of the loop of [load_dataframe] for one identifier. *)
Definition load_one (f : option string * option string) : M DataFrame :=
  let '(namespace, name) := f in
  session_scope (
    s <- get_store ;;
    feature <- lift (one_or_none (query_feature namespace name s)) ;;
    match feature with
    | None =>
        raise (ValueError ("No feature named " ++ Py.fmt name
                           ++ " exists in " ++ Py.fmt namespace))
    | Some feature =>
        ser <- lift (feature_load s feature from_date to_date freq
                                  time_travel mode) ;;
        ret (Pd.rename (to_frame ser) "value" (label f))
    end).

Fixpoint load_each (fs : list (option string * option string))
  : M (list DataFrame) :=
  match fs with
  | [] => ret []
  | f :: rest =>
      df <- load_one f ;;
      dfs <- load_each rest ;;
      ret (df :: dfs)
  end.

(** [FeatureStore.load_dataframe(features, from_date, to_date, freq,
    time_travel, mode)]. *)
Definition load_dataframe (features : ident) : M DataFrame :=
  if negb (Py.mem mode ["dask"; "pandas"]) then raise AssertionError
  else
    fs <- lift (_unpack_list features None) ;;
    dfs <- load_each fs ;;
    if String.eqb mode "pandas" then
      df <- lift (Pd.concat_outer dfs) ;;
      ret (Pd.ffill df)
    else if String.eqb mode "dask" then
      df <- lift (Pd.reduce dd_merge dfs) ;;
      ret (Pd.ffill df)
    else raise (NotImplementedError (mode ++ " has not been implemented")).

End Load.

End ReadWrite.

(** ** Last values and tasks *)

Section Last.

(** [feature.last()] of the physical backend, which is not part of the
    sources: the last value the store holds for the feature, or an
    exception. *)
Variable feature_last : Store -> Feature -> result cell.

(** The body of the loop of [last] for one identifier: the value that goes
    under the key of the identifier. *)
Definition last_one (f : option string * option string) : M cell :=
  let '(namespace, name) := f in
  session_scope (
    s <- get_store ;;
    feature <- lift (one_or_none (query_feature namespace name s)) ;;
    match feature with
    | None =>
        raise (ValueError ("No feature named " ++ Py.fmt name
                           ++ " exists in " ++ Py.fmt namespace))
    | Some feature => lift (feature_last s feature)
    end).

Fixpoint last_each (fs : list (option string * option string))
  (result : list (string * cell)) : M (list (string * cell)) :=
  match fs with
  | [] => ret result
  | f :: rest =>
      v <- last_one f ;;
      last_each rest (Py.update result (label f) v)
  end.

(** [FeatureStore.last(features)]: the dictionary of last values, in the
    order its keys were first set. *)
Definition last (features : ident) : M (list (string * cell)) :=
  fs <- lift (_unpack_list features None) ;;
  last_each fs [].

End Last.

(** [FeatureStore.create_task()], [update_task()] and [delete_task()]. *)
Definition create_task : M unit := raise (NotImplementedError EmptyString).

Definition update_task : M unit := raise (NotImplementedError EmptyString).

Definition delete_task : M unit := raise (NotImplementedError EmptyString).

(** ** Vocabulary of the properties *)

Definition is_mapping (it : item) : Prop :=
  match it with
  | IDict _ => True
  | _ => False
  end.

(** What a mapping without a namespace key resolves to. *)
Definition resolve_unqualified (d : list (string * string))
  : option string * option string :=
  match Py.get d "name" with
  | Some n =>
      if Py.has_sep n
      then (Some (hd EmptyString (Py.split n)),
            Some (Py.join (tl (Py.split n))))
      else (None, Some n)
  | None => (None, None)
  end.

(** A time index in strictly increasing order. *)
Fixpoint increasing (l : list Z) : bool :=
  match l with
  | a :: (b :: _) as rest => Z.ltb a b && increasing rest
  | _ => true
  end.

(** The frame [load_dataframe] makes of the series loaded for [f]: the
    times as index and the values under the label of [f]. *)
Definition series_frame (f : option string * option string) (ser : Series)
  : DataFrame :=
  mkFrame (map fst ser) [(label f, map snd ser)].

Section Loaded.

Variable feature_load :
  Store -> Feature -> option Z -> option Z -> option string -> option Z ->
  string -> result Series.
Variables (from_date to_date : option Z) (freq : option string)
          (time_travel : option Z) (mode : string).

(** [ser] is what the backend returns for the one feature row that the
    identifier [f] selects in the store [s]. *)
Definition loaded (s : Store) (f : option string * option string)
  (ser : Series) : Prop :=
  exists feature,
    one_or_none (query_feature (fst f) (snd f) s) = Ok (Some feature)
    /\ feature_load s feature from_date to_date freq time_travel mode
       = Ok ser.

End Loaded.

(** A frame as the loop of [load_dataframe] builds it: the index in
    strictly increasing order and every column as long as the index. *)
Definition time_indexed (df : DataFrame) : Prop :=
  increasing (index df) = true
  /\ Forall (fun c => List.length (snd c) = List.length (index df))
            (columns df).

(** The frames [dfs] side by side on the sorted union of their indexes. *)
Definition joined (dfs : list DataFrame) : DataFrame :=
  mkFrame (Pd.union_all (map index dfs))
    (flat_map (fun df => Pd.reindex df (Pd.union_all (map index dfs))) dfs).

(** [v] is the value of the latest observation of [ser] that is not missing
    and not after [t]. *)
Definition last_value (ser : Series) (t : Z) (v : Z) : Prop :=
  exists u,
    (u <= t)%Z /\ In (u, Some v) ser
    /\ forall u' v', In (u', Some v') ser -> (u' <= t)%Z -> (u' <= u)%Z.

(** The column pandas mode makes of a series joined on the index [idx]:
    its cells aligned on [idx], as float64 when the alignment introduces
    missing cells. *)
Definition aligned (ser : Series) (idx : list Z) : list cell :=
  let cells := map (Pd.at_label (map fst ser) (map snd ser)) idx in
  if Pd.introduces (map fst ser) idx then map (option_map Pd.float64) cells
  else cells.

(** The number that column holds for the number [v] of the series. *)
Definition held (ser : Series) (idx : list Z) (v : Z) : Z :=
  if Pd.introduces (map fst ser) idx then Pd.float64 v else v.

(** A small store and backend for the examples: the namespace [demo] with
    a feature sampled daily and a feature sampled weekly. *)
Definition example_store : Store :=
  mkStore
    [mkNamespace (Some "demo") VNone (VStr "file:///tmp/demo") VNone VNone]
    [mkFeature (Some "demo") (Some "daily") VNone (VStr "date") VNone;
     mkFeature (Some "demo") (Some "weekly") VNone (VStr "date") VNone]
    [].

Definition daily_series : Series :=
  [(1, Some 10); (2, Some 11); (3, Some 12); (8, Some 13)]%Z.

Definition weekly_series : Series := [(0, Some 100); (7, Some 200)]%Z.

Definition example_load (s : Store) (feature : Feature)
  (from_date to_date : option Z) (freq : option string)
  (time_travel : option Z) (mode : string) : result Series :=
  if opt_eqb (ft_name feature) (Some "daily")
  then Ok daily_series
  else Ok weekly_series.

(** The rows of the outer join of the two example series, in the order
    day 3, 0, 1, 2, 7, 8 rather than in time order, before any fill. *)
Definition merged_out_of_order : DataFrame :=
  mkFrame [3; 0; 1; 2; 7; 8]%Z
    [("demo/daily", [Some 12; None; Some 10; Some 11; None; Some 13]%Z);
     ("demo/weekly", [None; Some 100; None; None; Some 200; None]%Z)].

(** A merge for the examples, returning those rows. *)
Definition example_merge (left right : DataFrame) : DataFrame :=
  merged_out_of_order.

(** A backend that accepts every frame, and one that raises on the frames
    of the weekly feature. *)
Definition accepting (s : Store) (feature : Feature) (df : DataFrame)
  : result unit := Ok tt.

Definition rejecting_weekly (s : Store) (feature : Feature) (df : DataFrame)
  : result unit :=
  if opt_eqb (ft_name feature) (Some "weekly")
  then Raise (RuntimeError "write failed")
  else Ok tt.

(** The rows [_create] builds from a payload: a new object of the class
    updated with the payload and the name (and, for a feature, the
    namespace). *)
Definition namespace_row (name : option string) (kw : kwargs) : Namespace :=
  update_from_dict (Py.update kw "name" (of_str name)) blank.

Definition feature_row (namespace name : option string) (kw : kwargs)
  : Feature :=
  update_from_dict
    (Py.update (Py.update kw "name" (of_str name))
               "namespace" (of_str namespace))
    blank.

(** [s'] has the catalog of [s] and the backend of [s] with further
    frames handed over after those of [s]. *)
Definition extends (s s' : Store) : Prop :=
  namespaces s' = namespaces s
  /\ features s' = features s
  /\ exists written, backend s' = backend s ++ written.

(** The name and the frame that [save_dataframe] goes on with when the
    frame has the single feature column [c]. *)
Definition single_target (c : string) (name : option string)
  (df : DataFrame) : result (option string * DataFrame) :=
  if String.eqb c "value" then
    if negb (Py.truthy name)
    then Raise (ValueError "Must specify feature name")
    else Ok (name, df)
  else Ok (Some c, Pd.rename df c "value").

(** The frame the second loop of [save_dataframe] ends up handing over for
    the feature column [x]: the columns that are no feature columns, then
    [x] under the label [value]. *)
Definition column_frame (df : DataFrame) (feature_columns : list string)
  (x : string) : DataFrame :=
  Pd.rename
    (Pd.select df (Pd.difference (Pd.labels df) feature_columns ++ [x]))
    x "value".

(** [feature] is the one feature row found for the column label [x] when
    no name and no namespace are passed. *)
Definition column_feature (s : Store) (x : string) (feature : Feature)
  : Prop :=
  query_feature (fst (_split_name None (Some x)))
                (snd (_split_name None (Some x))) s = [feature].

(** The error [load_dataframe] and [last] raise for an identifier without
    a feature row. *)
Definition no_feature_named (f : option string * option string) : exn :=
  ValueError ("No feature named " ++ Py.fmt (snd f) ++ " exists in "
              ++ Py.fmt (fst f)).

(** * Properties *)

Unset Implicit Arguments.

(** ** Strings *)

Lemma split_nonempty (s : string) : Py.split s <> [].
Proof.
  induction s as [|c rest IH]; simpl; [discriminate|].
  destruct (Ascii.eqb c "/"); [discriminate|].
  destruct (Py.split rest); [contradiction|discriminate].
Qed.

Lemma join_split (s : string) : Py.join (Py.split s) = s.
Proof.
  induction s as [|c rest IH]; [reflexivity|].
  simpl. destruct (Ascii.eqb_spec c "/") as [->|Hc].
  - pose proof (split_nonempty rest) as Hne.
    destruct (Py.split rest) as [|a r]; [contradiction|].
    change (Py.join ("" :: a :: r)) with ("" ++ "/" ++ Py.join (a :: r))%string.
    rewrite IH. reflexivity.
  - pose proof (split_nonempty rest) as Hne.
    destruct (Py.split rest) as [|seg segs]; [contradiction|].
    destruct segs as [|b r].
    + simpl in *. now rewrite IH.
    + change (Py.join (String c seg :: b :: r))
        with (String c (seg ++ "/" ++ Py.join (b :: r))%string).
      change (Py.join (seg :: b :: r))
        with (seg ++ "/" ++ Py.join (b :: r))%string in IH.
      now rewrite IH.
Qed.

Lemma split_head_no_sep (s : string) :
  Py.has_sep (hd EmptyString (Py.split s)) = false.
Proof.
  induction s as [|c rest IH]; [reflexivity|].
  simpl. destruct (Ascii.eqb c "/") eqn:Hc; [reflexivity|].
  pose proof (split_nonempty rest) as Hne.
  destruct (Py.split rest) as [|seg segs]; [contradiction|].
  simpl in *. now rewrite Hc, IH.
Qed.

Lemma split_has_sep (s : string) :
  Py.has_sep s = true -> exists a b r, Py.split s = a :: b :: r.
Proof.
  induction s as [|c rest IH]; simpl; [discriminate|].
  destruct (Ascii.eqb c "/"); simpl; intros Hs.
  - pose proof (split_nonempty rest) as Hne.
    destruct (Py.split rest) as [|b r]; [contradiction|]. now eauto.
  - destruct (IH Hs) as (a & b & r & ->). now eauto.
Qed.

(** A string with a separator is its first segment, the separator, and the
    other segments rejoined. *)
Lemma split_first_rest (s : string) :
  Py.has_sep s = true ->
  s = (hd EmptyString (Py.split s) ++ "/" ++ Py.join (tl (Py.split s)))%string.
Proof.
  intros Hs. destruct (split_has_sep s Hs) as (a & b & r & E).
  rewrite <- (join_split s) at 1. rewrite E. reflexivity.
Qed.

Lemma truthy_false_cases (o : option string) :
  Py.truthy o = false -> o = None \/ o = Some EmptyString.
Proof. destruct o as [[|c s]|]; simpl; auto; discriminate. Qed.

Lemma split_name_no_default (ns : option string) (n : string) :
  Py.truthy ns = false -> Py.has_sep n = true ->
  _split_name ns (Some n)
  = (Some (hd EmptyString (Py.split n)), Some (Py.join (tl (Py.split n)))).
Proof.
  intros Hns Hn. unfold _split_name. rewrite Hns, Hn.
  destruct n; [discriminate|]. reflexivity.
Qed.

Lemma split_name_default (ns : option string) (n : option string) :
  Py.truthy ns = true -> _split_name ns n = (ns, n).
Proof.
  intros Hns. unfold _split_name. rewrite Hns. now destruct n.
Qed.

Lemma split_name_no_sep (ns : option string) (n : string) :
  Py.has_sep n = false -> _split_name ns (Some n) = (ns, Some n).
Proof.
  intros Hn. unfold _split_name. rewrite Hn.
  now rewrite andb_false_r.
Qed.

Lemma split_name_none (ns : option string) : _split_name ns None = (ns, None).
Proof. reflexivity. Qed.

(** ** Identifier resolver *)

(** C2, as amended: for a string with one or more separators, the first
    segment becomes the namespace and the rejoined rest the name exactly when
    no default namespace is supplied ([None] or the empty string), and the
    string is then that namespace, a separator and that name; a non-empty
    default namespace is kept and the whole string is the name. *)
Theorem resolve_qualified_string (s : string) (default : option string) :
  Py.has_sep s = true ->
  (Py.truthy default = false ->
   _unpack_list (OStr s) default
   = Ok [(Some (hd EmptyString (Py.split s)),
          Some (Py.join (tl (Py.split s))))]
   /\ s = (hd EmptyString (Py.split s) ++ "/"
            ++ Py.join (tl (Py.split s)))%string
   /\ Py.has_sep (hd EmptyString (Py.split s)) = false)
  /\ (Py.truthy default = true ->
      _unpack_list (OStr s) default = Ok [(default, Some s)]).
Proof.
  intros Hs. split; intros Hd; unfold _unpack_list.
  - rewrite (split_name_no_default default s Hd Hs).
    repeat split; auto using split_first_rest, split_head_no_sep.
  - now rewrite split_name_default.
Qed.

Lemma resolve_qualified_string_witness :
  _unpack_list (OStr "demo/price/eur") None
  = Ok [(Some "demo", Some "price/eur")]
  /\ _unpack_list (OStr "demo/price/eur") (Some "other")
     = Ok [(Some "other", Some "demo/price/eur")].
Proof.
  destruct (resolve_qualified_string "demo/price/eur" None eq_refl)
    as [H1 _].
  destruct (resolve_qualified_string "demo/price/eur" (Some "other") eq_refl)
    as [_ H2].
  split; [exact (proj1 (H1 eq_refl)) | exact (H2 eq_refl)].
Defined.

(** C2 as stated fails: a non-empty default namespace is not overridden by
    the first segment of the string. *)
Lemma resolve_qualified_string_default_kept :
  ~ (forall (s : string) (default : option string),
       Py.has_sep s = true ->
       _unpack_list (OStr s) default
       = Ok [(Some (hd EmptyString (Py.split s)),
              Some (Py.join (tl (Py.split s))))]).
Proof.
  intros H. specialize (H "a/b" (Some "ns") eq_refl). discriminate H.
Qed.

Lemma unpack_mappings (l : list item) (default : option string) :
  Forall is_mapping l ->
  unpack_items l default
  = Ok (map (fun it => match it with
                       | IDict d =>
                           _split_name (Py.get d "namespace") (Py.get d "name")
                       | _ => (None, None)
                       end) l).
Proof.
  induction 1 as [|it l Hit _ IH]; [reflexivity|].
  destruct it; try contradiction. simpl. now rewrite IH.
Qed.

(** C10: on a list of mappings the resolver succeeds, its result does not
    depend on the default namespace, and a mapping without a namespace key
    resolves to namespace [None] and its name, unless the name has a
    separator, in which case to the first segment and the rejoined rest. *)
Theorem mappings_ignore_default (l : list item) (default : option string) :
  Forall is_mapping l ->
  exists r,
    _unpack_list (OList l) default = Ok r
    /\ _unpack_list (OList l) None = Ok r
    /\ List.length r = List.length l
    /\ forall i d,
         nth_error l i = Some (IDict d) ->
         Py.get d "namespace" = None ->
         nth_error r i = Some (resolve_unqualified d).
Proof.
  intros Hl. eexists. unfold _unpack_list.
  rewrite (unpack_mappings l default Hl), (unpack_mappings l None Hl).
  repeat split; [now rewrite length_map|].
  intros i d Hi Hns. rewrite nth_error_map, Hi. simpl. f_equal.
  rewrite Hns. unfold resolve_unqualified.
  destruct (Py.get d "name") as [n|]; [|reflexivity].
  destruct (Py.has_sep n) eqn:Hn.
  - now apply split_name_no_default.
  - now apply split_name_no_sep.
Qed.

Lemma mappings_ignore_default_witness :
  _unpack_list
    (OList [IDict [("name", "price")]; IDict [("name", "demo/price")]])
    (Some "other")
  = Ok [(None, Some "price"); (Some "demo", Some "price")].
Proof.
  destruct (mappings_ignore_default
              [IDict [("name", "price")]; IDict [("name", "demo/price")]]
              (Some "other")) as (r & Hr & _ & Hlen & Hnth).
  - repeat constructor.
  - rewrite Hr. f_equal.
    pose proof (Hnth 0%nat _ eq_refl eq_refl) as H0.
    pose proof (Hnth 1%nat _ eq_refl eq_refl) as H1.
    destruct r as [|a [|b [|c r]]]; try discriminate Hlen.
    vm_compute in H0, H1. congruence.
Defined.

(** ** Keyword validator *)

Lemma mem_In (k : string) (l : list string) : Py.mem k l = true <-> In k l.
Proof.
  unfold Py.mem. rewrite existsb_exists. split.
  - intros (x & Hx & E). apply String.eqb_eq in E. now subst.
  - intros Hk. exists k. split; [assumption|apply String.eqb_refl].
Qed.

Lemma check_valid_ok (names valid : list string) :
  (forall k, In k names -> Py.mem k valid = true) ->
  check_valid names valid = Ok tt.
Proof.
  induction names as [|n names IH]; intros Hall; [reflexivity|].
  simpl. rewrite (Hall n (or_introl eq_refl)).
  apply IH. intros k Hk. apply Hall. now right.
Qed.

Lemma check_valid_bad (names valid : list string) :
  (exists k, In k names /\ Py.mem k valid = false) ->
  exists k, In k names /\ Py.mem k valid = false
            /\ check_valid names valid
               = Raise (ValueError ("Invalid argument: " ++ k)).
Proof.
  induction names as [|n names IH]; intros (k & Hk & Hbad).
  - destruct Hk.
  - simpl. destruct (Py.mem n valid) eqn:Hn.
    + destruct Hk as [->|Hk]; [congruence|].
      destruct IH as (k' & Hk' & Hbad' & E); [now exists k|].
      exists k'. auto.
    + exists n. auto.
Qed.

Lemma check_valid_cases (names valid : list string) :
  (check_valid names valid = Ok tt
   /\ forall k, In k names -> Py.mem k valid = true)
  \/ (exists k, In k names /\ Py.mem k valid = false
                /\ check_valid names valid
                   = Raise (ValueError ("Invalid argument: " ++ k))).
Proof.
  induction names as [|n names IH]; simpl.
  - left. split; [reflexivity|]. intros k [].
  - destruct (Py.mem n valid) eqn:Hn.
    + destruct IH as [[E Hall]|(k & Hk & Hbad & E)].
      * left. split; [assumption|]. intros k [->|Hk]; auto.
      * right. exists k. auto.
    + right. exists n. auto.
Qed.

(** ** Running catalog operations *)

Section CatalogFacts.

Variable re_search : string -> string -> bool.

Context {R : Type} `{Entity R}.

Lemma _list_run (namespace name regex : option string) (s : Store) :
  _list re_search namespace name regex s
  = (Ok (regex_filter re_search regex
           (filtered (fst (_split_name namespace name))
                     (snd (_split_name namespace name)) s)), s).
Proof.
  unfold _list. now destruct (_split_name namespace name).
Qed.

Lemma _exists_run (namespace name : option string) (s : Store) :
  _exists re_search namespace name s
  = (Ok (negb (match filtered (fst (_split_name namespace name))
                              (snd (_split_name namespace name)) s with
               | [] => true
               | _ => false
               end)), s).
Proof.
  unfold _exists, bind. now rewrite _list_run.
Qed.

End CatalogFacts.

(** ** Namespace life cycle *)

(** C7, as amended: an unrecognised keyword makes [create_namespace] fail
    with the invalid-argument error naming such a keyword, whether or not
    [url] is supplied; when every supplied keyword is recognised and [url]
    is absent it fails with the missing-argument error; in both cases the
    store is left as it was. *)
Theorem create_namespace_rejects (re_search : string -> string -> bool)
  (name : string) (kw : kwargs) (s : Store) :
  ((exists k, In k (Py.keys kw)
              /\ ~ In k ["description"; "url"; "storage_options"; "meta"]) ->
   exists k, In k (Py.keys kw)
             /\ ~ In k ["description"; "url"; "storage_options"; "meta"]
             /\ create_namespace re_search name kw s
                = (Raise (ValueError ("Invalid argument: " ++ k)), s))
  /\ ((forall k, In k (Py.keys kw) ->
                 In k ["description"; "url"; "storage_options"; "meta"]) ->
      ~ In "url" (Py.keys kw) ->
      create_namespace re_search name kw s
      = (Raise (ValueError "Missing mandatory argument: url"), s)).
Proof.
  unfold create_namespace, bind, lift, _validate_kwargs. split.
  - intros (k & Hk & Hbad).
    destruct (check_valid_bad (Py.keys kw)
                ["description"; "url"; "storage_options"; "meta"])
      as (k' & Hk' & Hbad' & E).
    + exists k. split; [assumption|].
      destruct (Py.mem k _) eqn:Hm; [|reflexivity].
      apply mem_In in Hm. contradiction.
    + exists k'. rewrite E. repeat split; auto.
      intros Hin. apply mem_In in Hin. congruence.
  - intros Hall Hurl. rewrite check_valid_ok.
    + simpl. destruct (Py.mem "url" (Py.keys kw)) eqn:Hm; [|reflexivity].
      apply mem_In in Hm. contradiction.
    + intros k Hk. apply mem_In. auto.
Qed.

Lemma create_namespace_rejects_witness :
  create_namespace (fun _ _ => true) "demo"
    [("description", VStr "prices")] (mkStore [] [] [])
  = (Raise (ValueError "Missing mandatory argument: url"), mkStore [] [] []).
Proof.
  apply (create_namespace_rejects (fun _ _ => true) "demo"
           [("description", VStr "prices")] (mkStore [] [] [])).
  - intros k [<-|[]]. simpl. auto.
  - simpl. intros [E|[]]. discriminate E.
Defined.

(** C7 as stated fails: without [url] but with an unrecognised keyword the
    error is the invalid-argument one, not the missing-argument one. *)
Lemma create_namespace_invalid_first :
  ~ (forall (re_search : string -> string -> bool) (name : string)
            (kw : kwargs) (s : Store),
       ~ In "url" (Py.keys kw) ->
       fst (create_namespace re_search name kw s)
       = Raise (ValueError "Missing mandatory argument: url")).
Proof.
  intros H.
  specialize (H (fun _ _ => true) "demo" [("colour", VStr "red")]
                (mkStore [] [] [])).
  simpl in H. discriminate H.
  intros [E|[]]. discriminate E.
Qed.

Lemma ns_set_keeps (payload : kwargs) (o : Namespace) :
  (forall k, In k (Py.keys payload) ->
             In k ["description"; "storage_options"; "meta"]) ->
  ns_name (fold_left ns_set payload o) = ns_name o
  /\ ns_url (fold_left ns_set payload o) = ns_url o.
Proof.
  revert o. induction payload as [|[k v] payload IH]; intros o Hall.
  - now split.
  - cbn [fold_left]. destruct (IH (ns_set o (k, v))) as [E1 E2].
    + intros k' Hk'. apply Hall. now right.
    + rewrite E1, E2.
      assert (Hk : In k ["description"; "storage_options"; "meta"])
        by (apply Hall; now left).
      simpl in Hk. destruct Hk as [<-|[<-|[<-|[]]]]; now split.
Qed.

(** C8: a call of [update_namespace] with a [url] keyword fails with the
    invalid-argument error and leaves the store as it was; and no call of
    [update_namespace] at all changes the name or the url of any namespace
    row. *)
Theorem update_namespace_keeps_url (name : string) (kw : kwargs) (s : Store) :
  (In "url" (Py.keys kw) ->
   exists k, In k (Py.keys kw)
             /\ ~ In k ["description"; "storage_options"; "meta"]
             /\ update_namespace name kw s
                = (Raise (ValueError ("Invalid argument: " ++ k)), s))
  /\ map (fun o => (ns_name o, ns_url o))
         (namespaces (snd (update_namespace name kw s)))
     = map (fun o => (ns_name o, ns_url o)) (namespaces s).
Proof.
  unfold update_namespace, bind, lift, _validate_kwargs.
  destruct (check_valid_cases (Py.keys kw)
              ["description"; "storage_options"; "meta"])
    as [[E Hall]|(k & Hk & Hbad & E)]; rewrite E.
  - split.
    + intros Hurl. apply Hall in Hurl. discriminate Hurl.
    + simpl. unfold _update.
      destruct (_split_name None (Some name)) as [ns n].
      unfold session_scope, bind, get_store, lift.
      destruct (one_or_none (filtered ns n s)) as [[o|]|e]; simpl;
        try reflexivity.
      rewrite map_map. apply map_ext. intros o'.
      destruct (matches ns n o'); [|reflexivity].
      destruct (ns_set_keeps kw o') as [-> ->]; [|reflexivity].
      intros k Hk. apply mem_In. auto.
  - split; [|reflexivity].
    intros _. exists k. repeat split; auto.
    intros Hin. apply mem_In in Hin. congruence.
Qed.

Lemma update_namespace_keeps_url_witness :
  exists k,
    update_namespace "demo" [("url", VStr "file:///elsewhere")]
      (mkStore [mkNamespace (Some "demo") VNone (VStr "file:///tmp/demo")
                            VNone VNone] [] [])
    = (Raise (ValueError ("Invalid argument: " ++ k)),
       mkStore [mkNamespace (Some "demo") VNone (VStr "file:///tmp/demo")
                            VNone VNone] [] []).
Proof.
  destruct (update_namespace_keeps_url "demo"
              [("url", VStr "file:///elsewhere")]
              (mkStore [mkNamespace (Some "demo") VNone
                                    (VStr "file:///tmp/demo") VNone VNone]
                       [] [])) as [H _].
  destruct H as (k & _ & _ & E); [simpl; auto|].
  exists k. exact E.
Defined.



(** ** Feature life cycle *)

(** The check that [_create] makes for a feature: when [create_feature]
    names a namespace other than the empty string (explicitly, or as the
    first segment of the name) that no namespace row carries, the call
    fails once the keywords have passed validation, with the error saying
    the namespace does not exist, and the store is left as it was. *)
Lemma create_feature_missing_namespace
  (re_search : string -> string -> bool) (name : string)
  (namespace : option string) (kw : kwargs) (s : Store) (ns : string) :
  fst (_split_name namespace (Some name)) = Some ns ->
  ns <> EmptyString ->
  (forall o, In o (namespaces s) -> ns_name o <> Some ns) ->
  create_feature re_search name namespace kw s
  = (Raise (match _validate_kwargs kw ["description"; "meta"; "partition"] []
            with
            | Raise e => e
            | Ok _ => ValueError (ns ++ " namespace does not exist")
            end), s).
Proof.
  intros Hsplit Hne Hmissing.
  unfold create_feature, bind, lift.
  destruct (_validate_kwargs kw _ _) as [[]|e]; [|reflexivity].
  unfold _create, bind. cbn [is_namespace Feature_Entity].
  destruct (_split_name namespace (Some name)) as [ns' n'].
  cbn [fst] in Hsplit. subst ns'.
  rewrite _exists_run, split_name_none. cbn [fst snd].
  unfold filtered.
  assert (Ht : Py.truthy (Some ns) = true)
    by (destruct ns; [contradiction|reflexivity]).
  rewrite Ht. cbn [Py.truthy rows Namespace_Entity attr_namespace].
  assert (E : filter (fun o => opt_eqb (ns_name o) (Some ns)) (namespaces s)
              = []).
  { induction (namespaces s) as [|o l IH]; [reflexivity|].
    simpl. destruct (ns_name o) as [x|] eqn:Ex; simpl.
    - destruct (String.eqb_spec x ns) as [->|Hx].
      + exfalso. apply (Hmissing o); [now left|assumption].
      + apply IH. intros o' Ho'. apply Hmissing. now right.
    - apply IH. intros o' Ho'. apply Hmissing. now right. }
  rewrite E. reflexivity.
Qed.

Example create_feature_absent_namespace :
  create_feature (fun _ _ => true) "absent/price" None []
    (mkStore [mkNamespace (Some "demo") VNone (VStr "file:///tmp/demo")
                          VNone VNone] [] [])
  = (Raise (ValueError "absent namespace does not exist"),
     mkStore [mkNamespace (Some "demo") VNone (VStr "file:///tmp/demo")
                          VNone VNone] [] []).
Proof.
  apply (create_feature_missing_namespace (fun _ _ => true) "absent/price"
           None [] _ "absent").
  - reflexivity.
  - discriminate.
  - intros o [<-|[]]. discriminate.
Qed.

(** C5 fails on the code: [_create] checks that the namespace exists
    through [_exists], and so through [_list], whose test [if namespace]
    drops the filter on the namespace for the empty string. Naming the
    empty namespace, which no namespace row carries, passes the check as
    soon as the catalog has any namespace: the error saying the namespace
    does not exist is not raised, the call returns normally and leaves a
    feature row whose namespace is the empty string. *)
Example create_feature_empty_namespace_inserts :
  create_feature (fun _ _ => true) "price" (Some EmptyString) []
    (mkStore [mkNamespace (Some "demo") VNone (VStr "file:///tmp/demo")
                          VNone VNone] [] [])
  = (Ok tt,
     mkStore [mkNamespace (Some "demo") VNone (VStr "file:///tmp/demo")
                          VNone VNone]
             [mkFeature (Some EmptyString) (Some "price") VNone (VStr "date")
                        VNone]
             []).
Proof. vm_compute. reflexivity. Qed.

(** ** Write path *)

Lemma difference_time_only (labels : list string) :
  (forall c, In c labels -> c = "time" \/ c = "created_time") ->
  Pd.difference labels ["time"; "created_time"] = [].
Proof.
  intros Hall. unfold Pd.difference.
  replace (filter _ labels) with (@nil string); [reflexivity|].
  induction labels as [|c labels IH]; [reflexivity|].
  simpl filter.
  destruct (Hall c (or_introl eq_refl)) as [-> | ->]; simpl;
    apply IH; intros c' Hc'; apply Hall; now right.
Qed.

(** C9: on a frame whose columns are all among [time] and [created_time],
    [save_dataframe] returns normally, whatever the catalog holds and
    whatever name and namespace are passed, and the store (the catalog and
    what the backend was handed) is left as it was. *)
Theorem save_dataframe_no_feature_columns
  (re_search : string -> string -> bool)
  (feature_save : Store -> Feature -> DataFrame -> result unit)
  (df : DataFrame) (name namespace : option string) (s : Store) :
  (forall c, In c (Pd.labels df) -> c = "time" \/ c = "created_time") ->
  save_dataframe re_search feature_save df name namespace s = (Ok tt, s).
Proof.
  intros Hall. unfold save_dataframe. cbn [save_dataframe_rec].
  now rewrite (difference_time_only _ Hall).
Qed.

Lemma save_dataframe_no_feature_columns_witness :
  save_dataframe (fun _ _ => true) accepting
    (mkFrame [0%Z; 1%Z] [("time", [Some 10%Z; Some 20%Z])]) None None
    (mkStore [] [] [])
  = (Ok tt, mkStore [] [] []).
Proof.
  apply (save_dataframe_no_feature_columns (fun _ _ => true)
           accepting).
  simpl. intros c [<-|[]]. now left.
Defined.

(** C1 fails on the code: the check before the writes asks for the [name]
    and [namespace] arguments, not for the column at hand. With neither
    passed it succeeds as soon as the catalog holds any feature, so on a
    frame with the columns [ns/a] (a feature of the catalog) and [ns/b] (not
    one) the frame of [ns/a] is handed to the backend before the call fails
    on [ns/b]. The backend here accepts every frame. *)
Example save_dataframe_writes_before_failing :
  let a := mkFeature (Some "ns") (Some "a") VNone (VStr "date") VNone in
  let s := mkStore [mkNamespace (Some "ns") VNone (VStr "file:///tmp/ns")
                                VNone VNone] [a] [] in
  save_dataframe (fun _ _ => true) accepting
    (mkFrame [0%Z; 1%Z]
       [("time", [Some 1%Z; Some 2%Z]);
        ("ns/a", [Some 10%Z; Some 20%Z]);
        ("ns/b", [Some 30%Z; Some 40%Z])]) None None s
  = (Raise (ValueError "Feature named ns/b does not exist in None"),
     mkStore (namespaces s) (features s)
       [(a, mkFrame [0%Z; 1%Z]
              [("time", [Some 1%Z; Some 2%Z]);
               ("value", [Some 10%Z; Some 20%Z])])]).
Proof. vm_compute. reflexivity. Qed.

(** ** Sorted unions of time indexes *)

Lemma insert_In (x y : Z) (l : list Z) :
  In y (Pd.insert Z.compare x l) <-> y = x \/ In y l.
Proof.
  induction l as [|a l IH]; simpl.
  - intuition.
  - destruct (Z.compare_spec x a) as [->|Hlt|Hgt]; simpl.
    + intuition.
    + intuition.
    + rewrite IH. intuition.
Qed.

Lemma sort_unique_In (x : Z) (l : list Z) :
  In x (Pd.sort_unique Z.compare l) <-> In x l.
Proof.
  induction l as [|a l IH]; simpl; [tauto|].
  rewrite insert_In, IH. intuition.
Qed.

Lemma increasing_tail (a : Z) (l : list Z) :
  increasing (a :: l) = true -> increasing l = true.
Proof.
  destruct l as [|b l]; [reflexivity|].
  cbn [increasing]. intros H. now apply andb_prop in H.
Qed.

Lemma increasing_head (a : Z) (l : list Z) :
  increasing (a :: l) = true -> forall x, In x l -> (a < x)%Z.
Proof.
  revert a. induction l as [|b l IH]; intros a H x Hx; [destruct Hx|].
  cbn [increasing] in H. apply andb_prop in H. destruct H as [Hab Hl].
  apply Z.ltb_lt in Hab. destruct Hx as [<-|Hx]; [assumption|].
  specialize (IH b Hl x Hx). lia.
Qed.

Lemma increasing_cons (a : Z) (l : list Z) :
  increasing l = true -> (forall x, In x l -> (a < x)%Z) ->
  increasing (a :: l) = true.
Proof.
  intros Hl Ha. destruct l as [|b l]; [reflexivity|].
  cbn [increasing]. apply andb_true_intro. split; [|assumption].
  apply Z.ltb_lt, Ha. now left.
Qed.

Lemma increasing_NoDup (l : list Z) : increasing l = true -> NoDup l.
Proof.
  induction l as [|a l IH]; intros H; constructor.
  - intros Ha. pose proof (increasing_head a l H a Ha). lia.
  - apply IH. eapply increasing_tail, H.
Qed.

Lemma insert_increasing (x : Z) (l : list Z) :
  increasing l = true -> increasing (Pd.insert Z.compare x l) = true.
Proof.
  induction l as [|a l IH]; intros H; [reflexivity|].
  simpl. destruct (Z.compare_spec x a) as [->|Hlt|Hgt].
  - assumption.
  - apply increasing_cons; [assumption|].
    intros y [<-|Hy]; [assumption|].
    pose proof (increasing_head a l H y Hy). lia.
  - apply increasing_cons.
    + apply IH. eapply increasing_tail, H.
    + intros y Hy. apply insert_In in Hy. destruct Hy as [->|Hy]; [lia|].
      exact (increasing_head a l H y Hy).
Qed.

Lemma sort_unique_increasing (l : list Z) :
  increasing (Pd.sort_unique Z.compare l) = true.
Proof.
  induction l as [|a l IH]; [reflexivity|].
  simpl. now apply insert_increasing.
Qed.

(** An increasing list is determined by its elements. *)
Lemma increasing_ext (l1 l2 : list Z) :
  increasing l1 = true -> increasing l2 = true ->
  (forall x, In x l1 <-> In x l2) -> l1 = l2.
Proof.
  revert l2. induction l1 as [|a1 r1 IH]; intros [|a2 r2] H1 H2 Hel.
  - reflexivity.
  - exfalso. apply (proj2 (Hel a2)). now left.
  - exfalso. apply (proj1 (Hel a1)). now left.
  - pose proof (increasing_head a1 r1 H1) as Hh1.
    pose proof (increasing_head a2 r2 H2) as Hh2.
    assert (a1 = a2) as <-.
    { destruct (proj1 (Hel a1) (or_introl eq_refl)) as [E|Hin]; [now auto|].
      destruct (proj2 (Hel a2) (or_introl eq_refl)) as [E|Hin']; [now auto|].
      specialize (Hh1 _ Hin'). specialize (Hh2 _ Hin). lia. }
    f_equal. apply IH.
    + eapply increasing_tail, H1.
    + eapply increasing_tail, H2.
    + intros x. split; intros Hx.
      * destruct (proj1 (Hel x) (or_intror Hx)) as [E|Hin]; [|assumption].
        specialize (Hh1 _ Hx). lia.
      * destruct (proj2 (Hel x) (or_intror Hx)) as [E|Hin]; [|assumption].
        specialize (Hh2 _ Hx). lia.
Qed.

Lemma sort_unique_ext (l1 l2 : list Z) :
  (forall x, In x l1 <-> In x l2) ->
  Pd.sort_unique Z.compare l1 = Pd.sort_unique Z.compare l2.
Proof.
  intros Hel. apply increasing_ext; auto using sort_unique_increasing.
  intros x. now rewrite !sort_unique_In.
Qed.

Lemma sort_unique_fixed (l : list Z) :
  increasing l = true -> Pd.sort_unique Z.compare l = l.
Proof.
  intros H. apply increasing_ext;
    auto using sort_unique_increasing, sort_unique_In.
Qed.

Lemma increasing_nth (l : list Z) (j k : nat) (a b : Z) :
  increasing l = true ->
  nth_error l j = Some a -> nth_error l k = Some b ->
  (j < k)%nat -> (a < b)%Z.
Proof.
  revert j k. induction l as [|x l IH]; intros j k Hl Hj Hk Hjk.
  - destruct j; discriminate Hj.
  - destruct k as [|k]; [lia|]. simpl in Hk.
    destruct j as [|j]; simpl in Hj.
    + injection Hj as ->. apply (increasing_head a l Hl).
      eapply nth_error_In, Hk.
    + apply (IH j k); auto; [eapply increasing_tail, Hl | lia].
Qed.

(** ** Alignment of columns *)

Lemma at_label_absent (idx : list Z) (col : list cell) (t : Z) :
  ~ In t idx -> Pd.at_label idx col t = None.
Proof.
  revert col. induction idx as [|u idx IH]; intros col Ht; [reflexivity|].
  destruct col as [|c col]; [reflexivity|]. simpl.
  destruct (Z.eqb_spec u t) as [->|Hne].
  - exfalso. apply Ht. now left.
  - apply IH. intros Hin. apply Ht. now right.
Qed.

Lemma existsb_In (t : Z) (idx : list Z) :
  existsb (Z.eqb t) idx = true <-> In t idx.
Proof.
  rewrite existsb_exists. split.
  - intros (x & Hx & E). apply Z.eqb_eq in E. now subst.
  - intros Ht. exists t. split; [assumption|apply Z.eqb_refl].
Qed.

Lemma at_label_own (idx : list Z) (col : list cell) :
  NoDup idx -> List.length col = List.length idx ->
  map (Pd.at_label idx col) idx = col.
Proof.
  revert col. induction idx as [|u idx IH]; intros [|c col] Hnd Hlen;
    try discriminate Hlen; [reflexivity|].
  inversion Hnd as [|? ? Hu Hnd']; subst.
  simpl. rewrite Z.eqb_refl. f_equal.
  transitivity (map (Pd.at_label idx col) idx);
    [|apply IH; [assumption|now injection Hlen]].
  apply map_ext_in. intros t Ht.
  destruct (Z.eqb_spec u t) as [->|Hne]; [contradiction|reflexivity].
Qed.

(** ** Outer joins *)

Lemma labels_reindex (df : DataFrame) (idx : list Z) :
  map fst (Pd.reindex df idx) = Pd.labels df.
Proof.
  unfold Pd.reindex, Pd.labels. rewrite map_map. reflexivity.
Qed.

Lemma labels_joined (dfs : list DataFrame) :
  Pd.labels (joined dfs) = flat_map Pd.labels dfs.
Proof.
  unfold joined, Pd.labels at 1. cbn [columns].
  generalize (Pd.union_all (map index dfs)) as idx. intros idx.
  induction dfs as [|df dfs IH]; [reflexivity|].
  cbn [flat_map]. rewrite map_app, IH, labels_reindex. reflexivity.
Qed.

Lemma introduces_own (own idx : list Z) :
  (forall t, In t idx -> In t own) -> Pd.introduces own idx = false.
Proof.
  intros Hsub. unfold Pd.introduces.
  apply not_true_iff_false. intros H. apply existsb_exists in H.
  destruct H as (t & Ht & Hn). apply negb_true_iff in Hn.
  apply Hsub, existsb_In in Ht. congruence.
Qed.

Lemma joined_single (df : DataFrame) : time_indexed df -> joined [df] = df.
Proof.
  intros [Hinc Hlen]. unfold joined, Pd.union_all.
  cbn [map List.concat flat_map]. rewrite !app_nil_r.
  rewrite (sort_unique_fixed _ Hinc).
  destruct df as [idx cols]. cbn [index columns] in *. f_equal.
  unfold Pd.reindex. cbn [index columns].
  rewrite (introduces_own idx idx (fun t Ht => Ht)).
  rewrite <- (map_id cols) at 2. apply map_ext_in. intros [n col] Hc.
  cbv zeta. cbn [fst snd]. apply f_equal. apply at_label_own.
  - now apply increasing_NoDup.
  - rewrite Forall_forall in Hlen. exact (Hlen _ Hc).
Qed.

(** ** Forward fill *)

Lemma ffill_col_length (last : cell) (col : list cell) :
  List.length (Pd.ffill_col last col) = List.length col.
Proof.
  revert last. induction col as [|c col IH]; intros last; [reflexivity|].
  simpl. now rewrite IH.
Qed.

(** Forward filling commutes with a conversion of the numbers. *)
Lemma ffill_col_map (g : Z -> Z) (last : cell) (col : list cell) :
  Pd.ffill_col (option_map g last) (map (option_map g) col)
  = map (option_map g) (Pd.ffill_col last col).
Proof.
  revert last. induction col as [|c col IH]; intros last; [reflexivity|].
  cbn [map Pd.ffill_col]. destruct c as [v|]; cbn [option_map].
  - f_equal. exact (IH (Some v)).
  - f_equal. exact (IH last).
Qed.

(** The cell of a forward-filled column at position [k]: the last cell at
    or before [k] that is not missing, or else the value carried in. *)
Lemma ffill_col_nth (col : list cell) (last : cell) (k : nat) :
  (k < List.length col)%nat ->
  exists c,
    nth_error (Pd.ffill_col last col) k = Some c
    /\ ((exists j v, (j <= k)%nat /\ c = Some v /\ nth_error col j = Some c
                     /\ forall j', (j < j' <= k)%nat ->
                                   nth_error col j' = Some None)
        \/ (c = last
            /\ forall j', (j' <= k)%nat -> nth_error col j' = Some None)).
Proof.
  revert last k. induction col as [|x col IH]; intros last k Hk;
    [simpl in Hk; lia|].
  destruct k as [|k].
  - simpl. destruct x as [v|].
    + exists (Some v). split; [reflexivity|]. left.
      exists 0%nat, v. repeat split; auto. intros j' Hj'. lia.
    + exists last. split; [reflexivity|]. right. split; [reflexivity|].
      intros j' Hj'. now replace j' with 0%nat by lia.
  - simpl in Hk.
    destruct (IH (match x with Some _ => x | None => last end) k)
      as (c & Hc & Hcase); [lia|].
    exists c. split; [exact Hc|].
    destruct Hcase as [(j & v & Hj & Ev & Hcj & Hgap)|[Ec Hgap]].
    + left. exists (S j), v.
      split; [lia|]. split; [assumption|]. split; [assumption|].
      intros [|j'] Hj'; [lia|]. apply Hgap. lia.
    + destruct x as [v|].
      * left. exists 0%nat, v.
        split; [lia|]. split; [assumption|]. split; [now subst c|].
        intros [|j'] Hj'; [lia|]. apply Hgap. lia.
      * right. split; [assumption|].
        intros [|j'] Hj'; [reflexivity|]. apply Hgap. lia.
Qed.

(** The cell a series has at a time of its own. *)
Lemma own_cell (ser : Series) (u : Z) (v : Z) :
  NoDup (map fst ser) ->
  Pd.at_label (map fst ser) (map snd ser) u = Some v <-> In (u, Some v) ser.
Proof.
  induction ser as [|[a c] ser IH]; intros Hnd; simpl.
  - split; [discriminate|tauto].
  - inversion Hnd as [|? ? Ha Hnd']; subst.
    destruct (Z.eqb_spec a u) as [->|Hne].
    + split.
      * intros ->. now left.
      * intros [E|Hin]; [now injection E|].
        exfalso. apply Ha. apply in_map_iff. now exists (u, Some v).
    + rewrite (IH Hnd'). split; [tauto|].
      intros [E|Hin]; [|assumption]. injection E as E _. contradiction.
Qed.

Lemma increasing_nth_le (l : list Z) (j k : nat) (a b : Z) :
  increasing l = true ->
  nth_error l j = Some a -> nth_error l k = Some b ->
  (j <= k)%nat -> (a <= b)%Z.
Proof.
  intros Hl Hj Hk Hjk. destruct (Nat.eq_dec j k) as [->|Hne].
  - assert (a = b) by congruence. lia.
  - pose proof (increasing_nth l j k a b Hl Hj Hk). lia.
Qed.

Lemma increasing_nth_pos (l : list Z) (j k : nat) (a b : Z) :
  increasing l = true ->
  nth_error l j = Some a -> nth_error l k = Some b ->
  (a <= b)%Z -> (j <= k)%nat.
Proof.
  intros Hl Hj Hk Hab. destruct (Nat.le_gt_cases j k) as [|Hgt]; [assumption|].
  pose proof (increasing_nth l k j b a Hl Hk Hj Hgt). lia.
Qed.

(** A series aligned on an index that holds all of its times, then forward
    filled: at each index time the column holds the value of the latest
    observation of the series that is not missing and not later. *)
Lemma ffill_last_value (ser : Series) (idx : list Z) (k : nat) (t : Z) :
  increasing (map fst ser) = true ->
  increasing idx = true ->
  (forall u, In u (map fst ser) -> In u idx) ->
  nth_error idx k = Some t ->
  exists c,
    nth_error
      (Pd.ffill_col None (map (Pd.at_label (map fst ser) (map snd ser)) idx)) k
    = Some c
    /\ forall v, c = Some v <-> last_value ser t v.
Proof.
  intros Hser Hidx Hsub Hk.
  pose proof (increasing_NoDup _ Hser) as Hnd.
  set (own := Pd.at_label (map fst ser) (map snd ser)).
  assert (Hklen : (k < List.length (map own idx))%nat).
  { rewrite length_map. apply nth_error_Some. congruence. }
  assert (Hpos : forall u' v', In (u', Some v') ser -> (u' <= t)%Z ->
            exists j', (j' <= k)%nat /\ nth_error idx j' = Some u'
                       /\ nth_error (map own idx) j' = Some (Some v')).
  { intros u' v' Hin Hle.
    assert (Hu' : In u' idx).
    { apply Hsub, in_map_iff. now exists (u', Some v'). }
    destruct (In_nth_error _ _ Hu') as (j' & Hj').
    exists j'. repeat split; auto.
    - exact (increasing_nth_pos idx j' k u' t Hidx Hj' Hk Hle).
    - rewrite nth_error_map, Hj'. simpl. f_equal.
      now apply own_cell. }
  destruct (ffill_col_nth (map own idx) None k Hklen)
    as (c & Hc & [(j & v0 & Hj & Ev & Hcj & Hgap)|[Ec Hgap]]).
  - exists c. split; [exact Hc|]. subst c.
    rewrite nth_error_map in Hcj.
    destruct (nth_error idx j) as [u|] eqn:Hu; [|discriminate Hcj].
    simpl in Hcj. injection Hcj as Hown.
    apply (own_cell ser u v0 Hnd) in Hown.
    pose proof (increasing_nth_le idx j k u t Hidx Hu Hk Hj) as Hut.
    assert (Hmax : forall u' v', In (u', Some v') ser -> (u' <= t)%Z ->
                                 (u' <= u)%Z).
    { intros u' v' Hin Hle.
      destruct (Hpos u' v' Hin Hle) as (j' & Hj'k & Hj' & Hcell).
      destruct (Nat.le_gt_cases j' j) as [Hjj|Hjj].
      - exact (increasing_nth_le idx j' j u' u Hidx Hj' Hu Hjj).
      - rewrite Hgap in Hcell by lia. discriminate Hcell. }
    intros v. split.
    + intros E. injection E as <-. exists u. auto.
    + intros (u1 & Hu1t & Hin1 & Hmax1).
      assert (u1 = u).
      { pose proof (Hmax u1 v Hin1 Hu1t). pose proof (Hmax1 u v0 Hown Hut).
        lia. }
      subst u1. apply (own_cell ser u v Hnd) in Hin1.
      apply (own_cell ser u v0 Hnd) in Hown. congruence.
  - exists c. split; [exact Hc|]. subst c.
    intros v. split; [discriminate|].
    intros (u1 & Hu1t & Hin1 & _).
    destruct (Hpos u1 v Hin1 Hu1t) as (j' & Hj'k & _ & Hcell).
    rewrite Hgap in Hcell by assumption. discriminate Hcell.
Qed.

(** ** Read path *)

Lemma store_eta (s : Store) :
  mkStore (namespaces s) (features s) (backend s) = s.
Proof. now destruct s. Qed.

Lemma flat_map_singleton {A B : Type} (h : A -> B) (l : list A) :
  flat_map (fun x => [h x]) l = map h l.
Proof. induction l as [|x l IH]; simpl; congruence. Qed.

Lemma Forall2_combine_fst {A B : Type} (P : A -> B -> Prop)
  (l1 : list A) (l2 : list B) :
  Forall2 P l1 l2 -> map fst (combine l1 l2) = l1.
Proof. induction 1; simpl; congruence. Qed.

Lemma Forall2_combine_snd {A B : Type} (P : A -> B -> Prop)
  (l1 : list A) (l2 : list B) :
  Forall2 P l1 l2 -> map snd (combine l1 l2) = l2.
Proof. induction 1; simpl; congruence. Qed.

Section LoadFacts.

Variable feature_load :
  Store -> Feature -> option Z -> option Z -> option string -> option Z ->
  string -> result Series.
Variables (from_date to_date : option Z) (freq : option string)
          (time_travel : option Z).

Local Abbreviation load_one' := (load_one feature_load from_date to_date freq
                                time_travel).
Local Abbreviation load_each' := (load_each feature_load from_date to_date freq
                                  time_travel).
Local Abbreviation loaded' := (loaded feature_load from_date to_date freq
                            time_travel).

Lemma load_one_state (mode : string) (f : option string * option string)
  (s : Store) :
  snd (load_one' mode f s) = s.
Proof.
  destruct f as [namespace name].
  unfold load_one, session_scope, bind, get_store, lift, raise, ret.
  destruct (one_or_none _) as [[feature|]|e]; cbn [snd];
    auto using store_eta.
  destruct (feature_load _ _ _ _ _ _ _); cbn [snd]; auto using store_eta.
Qed.

Lemma load_one_ok (mode : string) (f : option string * option string)
  (s s' : Store) (df : DataFrame) :
  load_one' mode f s = (Ok df, s') ->
  exists ser, loaded' mode s f ser /\ df = series_frame f ser.
Proof.
  destruct f as [namespace name].
  unfold load_one, session_scope, bind, get_store, lift, raise, ret, loaded.
  cbn [fst snd].
  destruct (one_or_none _) as [[feature|]|e]; try discriminate.
  destruct (feature_load _ _ _ _ _ _ _) as [ser|e] eqn:El;
    try discriminate.
  intros E. injection E as <- _. exists ser. split; [|reflexivity].
  exists feature. auto.
Qed.

Lemma load_one_found (mode : string) (f : option string * option string)
  (s : Store) (ser : Series) :
  loaded' mode s f ser ->
  load_one' mode f s = (Ok (series_frame f ser), s).
Proof.
  intros (feature & Hq & Hload). destruct f as [namespace name].
  cbn [fst snd] in Hq.
  unfold load_one, session_scope, bind, get_store, lift, ret.
  now rewrite Hq, Hload.
Qed.

Lemma load_each_found (mode : string)
  (fs : list (option string * option string)) (sers : list Series)
  (s : Store) :
  Forall2 (loaded' mode s) fs sers ->
  load_each' mode fs s
  = (Ok (map (fun p => series_frame (fst p) (snd p)) (combine fs sers)), s).
Proof.
  induction 1 as [|f ser fs sers Hf _ IH]; [reflexivity|].
  cbn [load_each]. unfold bind at 1. rewrite (load_one_found mode f s ser Hf).
  unfold bind. now rewrite IH.
Qed.

Lemma load_each_state (mode : string)
  (fs : list (option string * option string)) (s : Store) :
  snd (load_each' mode fs s) = s.
Proof.
  induction fs as [|f fs IH]; [reflexivity|].
  cbn [load_each]. unfold bind at 1.
  pose proof (load_one_state mode f s) as H1.
  destruct (load_one' mode f s) as [[df|e] s1]; cbn [snd] in H1; subst s1;
    [|reflexivity].
  unfold bind. destruct (load_each' mode fs s) as [[dfs|e] s2];
    cbn [snd] in IH; subst s2; reflexivity.
Qed.

Lemma load_each_ok (mode : string)
  (fs : list (option string * option string)) (s s' : Store)
  (dfs : list DataFrame) :
  load_each' mode fs s = (Ok dfs, s') ->
  exists sers,
    Forall2 (loaded' mode s) fs sers
    /\ dfs = map (fun p => series_frame (fst p) (snd p)) (combine fs sers).
Proof.
  revert dfs s'. induction fs as [|f fs IH]; intros dfs s'.
  - cbn. intros E. injection E as <- _. exists []. split; constructor.
  - cbn [load_each]. unfold bind at 1.
    pose proof (load_one_state mode f s) as H1.
    destruct (load_one' mode f s) as [[df|e] s1] eqn:E1; cbn [snd] in H1;
      subst s1; [|discriminate].
    unfold bind. destruct (load_each' mode fs s) as [[dfs'|e] s2] eqn:E2;
      [|discriminate].
    unfold ret. intros E. injection E as <- _.
    destruct (load_one_ok mode f s s df E1) as (ser & Hser & ->).
    destruct (IH dfs' s2 eq_refl) as (sers & Hsers & ->).
    exists (ser :: sers). split; [now constructor|reflexivity].
Qed.

Lemma series_frames_index
  (fs : list (option string * option string)) (sers : list Series)
  (P : option string * option string -> Series -> Prop) :
  Forall2 P fs sers ->
  map index (map (fun p => series_frame (fst p) (snd p)) (combine fs sers))
  = map (map fst) sers.
Proof. induction 1; simpl; congruence. Qed.

Lemma series_frames_labels
  (fs : list (option string * option string)) (sers : list Series)
  (P : option string * option string -> Series -> Prop) :
  Forall2 P fs sers ->
  flat_map Pd.labels
    (map (fun p => series_frame (fst p) (snd p)) (combine fs sers))
  = map label fs.
Proof. induction 1; simpl; congruence. Qed.

End LoadFacts.

Lemma series_frames_data
  (l : list (option string * option string * Series)) (idx : list Z) :
  map snd (flat_map (fun df => Pd.reindex df idx)
                    (map (fun p => series_frame (fst p) (snd p)) l))
  = map (fun p => aligned (snd p) idx) l.
Proof.
  induction l as [|p l IH]; [reflexivity|].
  cbn [map flat_map]. rewrite map_app, IH. reflexivity.
Qed.

(** A series aligned on an index that holds all of its times and forward
    filled, as pandas mode does: at each index time the column holds the
    latest observation of the series that is not missing and not later, as
    the joined column holds its numbers. *)
Lemma aligned_last_value (ser : Series) (idx : list Z) (k : nat) (t : Z) :
  increasing (map fst ser) = true ->
  increasing idx = true ->
  (forall u, In u (map fst ser) -> In u idx) ->
  nth_error idx k = Some t ->
  exists c,
    nth_error (Pd.ffill_col None (aligned ser idx)) k = Some c
    /\ forall v, c = Some v
                 <-> exists v0, last_value ser t v0 /\ v = held ser idx v0.
Proof.
  intros Hser Hidx Hsub Hk.
  destruct (ffill_last_value ser idx k t Hser Hidx Hsub Hk) as (c & Hc & Hv).
  unfold aligned, held.
  destruct (Pd.introduces (map fst ser) idx).
  - exists (option_map Pd.float64 c). split.
    + change (@None Z) with (option_map Pd.float64 None).
      rewrite ffill_col_map. exact (map_nth_error _ _ _ Hc).
    + intros v. destruct c as [v0|]; cbn [option_map].
      * split.
        -- intros E. injection E as <-. exists v0. split; [now apply Hv|auto].
        -- intros (v1 & H1 & ->). apply Hv in H1. now injection H1 as <-.
      * split; [discriminate|]. intros (v1 & H1 & _).
        apply Hv in H1. discriminate H1.
  - exists c. split; [exact Hc|]. intros v. rewrite Hv. split.
    + intros H. now exists v.
    + now intros (v0 & H & ->).
Qed.

Section LoadTheorems.

Variable feature_load :
  Store -> Feature -> option Z -> option Z -> option string -> option Z ->
  string -> result Series.
Variable dd_merge : DataFrame -> DataFrame -> DataFrame.
Variables (from_date to_date : option Z) (freq : option string)
          (time_travel : option Z).

Local Abbreviation load_dataframe' :=
  (load_dataframe feature_load dd_merge from_date to_date freq time_travel).
Local Abbreviation load_each' :=
  (load_each feature_load from_date to_date freq time_travel).
Local Abbreviation loaded' :=
  (loaded feature_load from_date to_date freq time_travel).

Lemma load_dataframe_pandas (features : ident) :
  load_dataframe' "pandas" features
  = (fs <- lift (_unpack_list features None) ;;
     dfs <- load_each' "pandas" fs ;;
     df <- lift (Pd.concat_outer dfs) ;;
     ret (Pd.ffill df)).
Proof. reflexivity. Qed.

Lemma load_dataframe_dask (features : ident) :
  load_dataframe' "dask" features
  = (fs <- lift (_unpack_list features None) ;;
     dfs <- load_each' "dask" fs ;;
     df <- lift (Pd.reduce dd_merge dfs) ;;
     ret (Pd.ffill df)).
Proof. reflexivity. Qed.

(** What dask mode returns once every feature has loaded: the forward fill
    of the pairwise merges, down the rows in the order the last merge
    returned them. Nothing between the merge and the fill puts the rows in
    time order. *)
Lemma load_dataframe_dask_found (features : ident)
  (fs : list (option string * option string)) (sers : list Series)
  (s : Store) :
  _unpack_list features None = Ok fs ->
  Forall2 (loaded' "dask" s) fs sers ->
  load_dataframe' "dask" features s
  = match map (fun p => series_frame (fst p) (snd p)) (combine fs sers) with
    | [] =>
        (Raise (TypeError "reduce() of empty iterable with no initial value"),
         s)
    | d :: rest => (Ok (Pd.ffill (fold_left dd_merge rest d)), s)
    end.
Proof.
  intros Hfs Hsers. rewrite load_dataframe_dask.
  unfold bind at 1, lift at 1. rewrite Hfs. unfold bind at 1.
  rewrite (load_each_found feature_load from_date to_date freq time_travel
             "dask" fs sers s Hsers).
  unfold bind, lift, ret, Pd.reduce.
  now destruct (map _ (combine fs sers)).
Qed.

(** What a successful [load_dataframe] did in pandas mode: it resolved the
    features, loaded a series for each, and forward filled the join of the
    series. *)
Lemma load_dataframe_pandas_ok (features : ident) (s s' : Store)
  (fr : DataFrame) :
  load_dataframe' "pandas" features s = (Ok fr, s') ->
  exists fs sers,
    _unpack_list features None = Ok fs
    /\ Forall2 (loaded' "pandas" s) fs sers
    /\ s' = s
    /\ fr = Pd.ffill (joined (map (fun p => series_frame (fst p) (snd p))
                                  (combine fs sers))).
Proof.
  rewrite load_dataframe_pandas. unfold bind, lift, ret.
  destruct (_unpack_list features None) as [fs|e]; [|discriminate].
  pose proof (load_each_state feature_load from_date to_date freq time_travel
                "pandas" fs s) as Hst.
  destruct (load_each' "pandas" fs s) as [[dfs|e] s1] eqn:Eeach;
    [|discriminate].
  cbn [snd] in Hst. subst s1.
  destruct (load_each_ok _ _ _ _ _ _ _ _ _ _ Eeach) as (sers & Hsers & ->).
  destruct (Pd.concat_outer _) as [df|e] eqn:Ecomb; [|discriminate].
  intros E. injection E as <- <-.
  exists fs, sers. do 3 (split; [reflexivity || exact Hsers|]).
  unfold Pd.concat_outer in Ecomb.
  destruct (map _ (combine fs sers)); [discriminate|].
  now injection Ecomb as <-.
Qed.

(** The pandas path: a successful [load_dataframe] in pandas mode, over a
    backend that returns each series in time order, returns a frame whose
    index is the sorted union of the times of all the series and whose
    columns are, in order, one per feature under its label; at each time [t]
    of the index the column of a feature holds its latest observation that
    is not missing and not after [t], as float64 when the join introduced
    missing cells into the column, and is missing when there is none. *)
Lemma load_pandas_outer_join_forward_fill (features : ident)
  (s s' : Store) (fr : DataFrame) :
  (forall st feature ser,
     feature_load st feature from_date to_date freq time_travel "pandas"
     = Ok ser ->
     increasing (map fst ser) = true) ->
  load_dataframe' "pandas" features s = (Ok fr, s') ->
  exists fs sers,
    _unpack_list features None = Ok fs
    /\ Forall2 (loaded' "pandas" s) fs sers
    /\ s' = s
    /\ increasing (index fr) = true
    /\ (forall t, In t (index fr)
                  <-> exists ser, In ser sers /\ In t (map fst ser))
    /\ map fst (columns fr) = map label fs
    /\ forall i ser,
         nth_error sers i = Some ser ->
         exists col,
           nth_error (map snd (columns fr)) i = Some col
           /\ List.length col = List.length (index fr)
           /\ forall k t,
                nth_error (index fr) k = Some t ->
                exists c,
                  nth_error col k = Some c
                  /\ forall v,
                       c = Some v
                       <-> exists v0, last_value ser t v0
                                      /\ v = held ser (index fr) v0.
Proof.
  intros Hsorted Hrun.
  destruct (load_dataframe_pandas_ok features s s' fr Hrun)
    as (fs & sers & Hfs & Hsers & -> & ->).
  exists fs, sers.
  set (frames := map (fun p => series_frame (fst p) (snd p))
                     (combine fs sers)).
  assert (Hindex : index (Pd.ffill (joined frames))
                   = Pd.union_all (map (map fst) sers)).
  { cbn [Pd.ffill index joined]. unfold frames.
    now rewrite (series_frames_index fs sers _ Hsers). }
  assert (Hcells : map snd (columns (Pd.ffill (joined frames)))
                   = map (fun ser =>
                            Pd.ffill_col None
                              (aligned ser
                                 (Pd.union_all (map (map fst) sers))))
                         sers).
  { cbn [Pd.ffill columns]. rewrite map_map. cbn [snd].
    rewrite <- (map_map snd (Pd.ffill_col None)).
    cbn [joined columns]. unfold frames.
    rewrite (series_frames_index fs sers _ Hsers), series_frames_data.
    generalize (Pd.union_all (map (map fst) sers)) as idx. intros idx.
    rewrite map_map.
    transitivity
      (map (fun ser => Pd.ffill_col None (aligned ser idx))
           (map snd (combine fs sers))).
    - now rewrite map_map.
    - now rewrite (Forall2_combine_snd _ _ _ Hsers). }
  rewrite Hindex.
  split; [exact Hfs|]. split; [exact Hsers|]. split; [reflexivity|].
  split; [apply sort_unique_increasing|].
  split.
  { intros t. unfold Pd.union_all. rewrite sort_unique_In, in_concat.
    split.
    - intros (l & Hl & Ht). apply in_map_iff in Hl.
      destruct Hl as (ser & <- & Hser). now exists ser.
    - intros (ser & Hser & Ht). exists (map fst ser).
      split; [now apply in_map|assumption]. }
  split.
  { cbn [Pd.ffill joined columns].
    rewrite map_map. cbn [fst].
    rewrite <- (map_map fst (fun x => x)), map_id.
    change (Pd.labels (joined frames) = map label fs).
    rewrite labels_joined.
    exact (series_frames_labels fs sers _ Hsers). }
  intros i ser Hi. rewrite Hcells.
  eexists. split; [exact (map_nth_error _ _ _ Hi)|].
  split.
  { rewrite ffill_col_length. unfold aligned.
    destruct (Pd.introduces _ _); now rewrite ?length_map. }
  intros k t Hk. apply aligned_last_value; auto.
  - assert (Hin : In ser sers) by (eapply nth_error_In, Hi).
    assert (Hl : exists f, loaded' "pandas" s f ser).
    { clear - Hsers Hin. induction Hsers as [|f0 ser0 fs sers H0 _ IH];
        [destruct Hin|].
      destruct Hin as [<-|Hin]; [now exists f0|auto]. }
    destruct Hl as (f & feature & _ & Hload). exact (Hsorted _ _ _ Hload).
  - apply sort_unique_increasing.
  - intros u Hu. unfold Pd.union_all. apply sort_unique_In, in_concat.
    exists (map fst ser). split; [|assumption].
    apply in_map. eapply nth_error_In, Hi.
Qed.

End LoadTheorems.

(** The two features of the example, once loaded in dask mode. *)
Lemma load_example_dask (dd_merge : DataFrame -> DataFrame -> DataFrame) :
  load_dataframe example_load dd_merge None None None None "dask"
    (OList [IStr "demo/daily"; IStr "demo/weekly"]) example_store
  = (Ok (Pd.ffill
           (dd_merge (series_frame (Some "demo", Some "daily") daily_series)
                     (series_frame (Some "demo", Some "weekly")
                                   weekly_series))),
     example_store).
Proof.
  rewrite (load_dataframe_dask_found example_load dd_merge None None None None
             (OList [IStr "demo/daily"; IStr "demo/weekly"])
             [(Some "demo", Some "daily"); (Some "demo", Some "weekly")]
             [daily_series; weekly_series] example_store).
  - reflexivity.
  - reflexivity.
  - repeat constructor; eexists; split; reflexivity.
Qed.

(** The scenario of the specification in pandas mode: a daily and a weekly
    feature loaded together; the rows are in time order and the weekly value
    is held between its own sample points. *)
Lemma load_example_pandas (dd_merge : DataFrame -> DataFrame -> DataFrame) :
  load_dataframe example_load dd_merge None None None None "pandas"
    (OList [IStr "demo/daily"; IStr "demo/weekly"]) example_store
  = (Ok (mkFrame [0; 1; 2; 3; 7; 8]%Z
           [("demo/daily",
             [None; Some 10; Some 11; Some 12; Some 12; Some 13]%Z);
            ("demo/weekly",
             [Some 100; Some 100; Some 100; Some 100; Some 200; Some 200]%Z)]),
     example_store).
Proof. reflexivity. Qed.

(** Up to [2^53] in magnitude the conversion to float64 changes nothing;
    beyond, it rounds to the nearest float64. *)
Lemma float64_small (z : Z) : (Z.abs z < 2 ^ 53)%Z -> Pd.float64 z = z.
Proof.
  intros Hz. unfold Pd.float64.
  destruct (Z.ltb_spec (Z.abs z) (2 ^ 53)) as [_|Hge]; [reflexivity|lia].
Qed.

Example float64_rounds :
  Pd.float64 (2 ^ 53 + 1) = (2 ^ 53)%Z
  /\ Pd.float64 (2 ^ 53 + 2) = (2 ^ 53 + 2)%Z
  /\ Pd.float64 (2 ^ 53 + 3) = (2 ^ 53 + 4)%Z
  /\ Pd.float64 (- (2 ^ 53 + 1)) = (- 2 ^ 53)%Z
  /\ Pd.float64 (2 ^ 63 - 1) = (2 ^ 63)%Z.
Proof. repeat split; vm_compute; reflexivity. Qed.

(** Pandas mode converts the numbers of an integer feature as soon as
    another feature has a time of its own: the value [2^53 + 1] comes back
    as [2^53]. Loaded alone, it comes back as it is. *)
Example load_pandas_converts_integers :
  let big_load :=
    fun (s : Store) (feature : Feature) (from_date to_date : option Z)
        (freq : option string) (time_travel : option Z) (mode : string) =>
      if opt_eqb (ft_name feature) (Some "daily")
      then Ok [(1, Some (2 ^ 53 + 1))]%Z
      else Ok [(0, Some 1)]%Z in
  load_dataframe big_load example_merge None None None None "pandas"
    (OList [IStr "demo/daily"; IStr "demo/weekly"]) example_store
  = (Ok (mkFrame [0; 1]%Z
           [("demo/daily", [None; Some (2 ^ 53)]%Z);
            ("demo/weekly", [Some 1; Some 1]%Z)]),
     example_store)
  /\ load_dataframe big_load example_merge None None None None "pandas"
       (OStr "demo/daily") example_store
     = (Ok (mkFrame [1]%Z [("demo/daily", [Some (2 ^ 53 + 1)]%Z)]),
        example_store).
Proof. split; vm_compute; reflexivity. Qed.

(** C3 fails on the code in dask mode: the rows of the outer join are
    forward filled in the order [dd.merge] returns them, and nothing puts
    them in time order first. When the merge of the daily and the weekly
    example series returns its rows in the order day 3, 0, 1, 2, 7, 8, the
    frame [load_dataframe] returns holds, at day 0, the daily value of day 3
    although the daily feature has no observation at or before day 0, and
    holds no weekly value at day 3 although the weekly feature was observed
    at day 0. *)
Theorem load_dask_fills_in_merge_order
  (dd_merge : DataFrame -> DataFrame -> DataFrame) :
  dd_merge (series_frame (Some "demo", Some "daily") daily_series)
           (series_frame (Some "demo", Some "weekly") weekly_series)
  = merged_out_of_order ->
  load_dataframe example_load dd_merge None None None None "dask"
    (OList [IStr "demo/daily"; IStr "demo/weekly"]) example_store
  = (Ok (mkFrame [3; 0; 1; 2; 7; 8]%Z
           [("demo/daily",
             [Some 12; Some 12; Some 10; Some 11; Some 11; Some 13]%Z);
            ("demo/weekly",
             [None; Some 100; Some 100; Some 100; Some 200; Some 200]%Z)]),
     example_store)
  /\ (forall v, ~ last_value daily_series 0 v)
  /\ last_value weekly_series 3 100.
Proof.
  intros Hmerge. split; [|split].
  - rewrite load_example_dask, Hmerge. reflexivity.
  - intros v (u & Hu & Hin & _). unfold daily_series in Hin.
    repeat (destruct Hin as [E|Hin]; [injection E as <- _; lia|]).
    destruct Hin.
  - exists 0%Z. split; [lia|]. split; [now left|].
    intros u' v' Hin Hle. unfold weekly_series in Hin.
    repeat (destruct Hin as [E|Hin]; [injection E as <- _; lia|]).
    destruct Hin.
Qed.

Lemma load_dask_fills_in_merge_order_witness :
  load_dataframe example_load example_merge
    None None None None "dask"
    (OList [IStr "demo/daily"; IStr "demo/weekly"]) example_store
  = (Ok (mkFrame [3; 0; 1; 2; 7; 8]%Z
           [("demo/daily",
             [Some 12; Some 12; Some 10; Some 11; Some 11; Some 13]%Z);
            ("demo/weekly",
             [None; Some 100; Some 100; Some 100; Some 200; Some 200]%Z)]),
     example_store).
Proof.
  exact (proj1 (load_dask_fills_in_merge_order
                  example_merge eq_refl)).
Defined.

(** C4 fails on the code: the two modes combine the same series
    differently. Pandas mode returns the rows in time order; dask mode
    returns them in the order of [dd.merge] and fills along that order, so
    when the merge of the daily and the weekly example series returns its
    rows in the order day 3, 0, 1, 2, 7, 8 the two results differ in their
    rows and in their values. *)
Theorem load_modes_differ_in_merge_order
  (dd_merge : DataFrame -> DataFrame -> DataFrame) :
  dd_merge (series_frame (Some "demo", Some "daily") daily_series)
           (series_frame (Some "demo", Some "weekly") weekly_series)
  = merged_out_of_order ->
  load_dataframe example_load dd_merge None None None None "pandas"
    (OList [IStr "demo/daily"; IStr "demo/weekly"]) example_store
  = (Ok (mkFrame [0; 1; 2; 3; 7; 8]%Z
           [("demo/daily",
             [None; Some 10; Some 11; Some 12; Some 12; Some 13]%Z);
            ("demo/weekly",
             [Some 100; Some 100; Some 100; Some 100; Some 200; Some 200]%Z)]),
     example_store)
  /\ load_dataframe example_load dd_merge None None None None "dask"
       (OList [IStr "demo/daily"; IStr "demo/weekly"]) example_store
     <> load_dataframe example_load dd_merge None None None None "pandas"
          (OList [IStr "demo/daily"; IStr "demo/weekly"]) example_store.
Proof.
  intros Hmerge. split; [apply load_example_pandas|].
  rewrite load_example_dask, Hmerge, load_example_pandas.
  vm_compute. discriminate.
Qed.

Lemma load_modes_differ_in_merge_order_witness :
  load_dataframe example_load example_merge None None None None "pandas"
    (OList [IStr "demo/daily"; IStr "demo/weekly"]) example_store
  = (Ok (mkFrame [0; 1; 2; 3; 7; 8]%Z
           [("demo/daily",
             [None; Some 10; Some 11; Some 12; Some 12; Some 13]%Z);
            ("demo/weekly",
             [Some 100; Some 100; Some 100; Some 100; Some 200; Some 200]%Z)]),
     example_store)
  /\ load_dataframe example_load example_merge None None None None "dask"
       (OList [IStr "demo/daily"; IStr "demo/weekly"]) example_store
     <> load_dataframe example_load example_merge None None None None
          "pandas" (OList [IStr "demo/daily"; IStr "demo/weekly"])
          example_store.
Proof.
  exact (load_modes_differ_in_merge_order example_merge eq_refl).
Defined.

(** ** Nesting of [save_dataframe] *)

Lemma str_compare_refl (x : string) : String.compare x x = Eq.
Proof.
  pose proof (String.compare_antisym x x) as H.
  destruct (String.compare x x); [reflexivity|discriminate H|discriminate H].
Qed.

Lemma str_insert_In (x y : string) (l : list string) :
  In y (Pd.insert String.compare x l) <-> y = x \/ In y l.
Proof.
  induction l as [|a l IH]; simpl.
  - intuition.
  - destruct (String.compare x a) eqn:E; simpl.
    + apply String.compare_eq_iff in E. subst. intuition.
    + intuition.
    + rewrite IH. intuition.
Qed.

Lemma str_sort_unique_In (x : string) (l : list string) :
  In x (Pd.sort_unique String.compare l) <-> In x l.
Proof.
  induction l as [|a l IH]; simpl; [tauto|].
  rewrite str_insert_In, IH. intuition.
Qed.

Lemma str_sort_unique_const (x : string) (l : list string) :
  l <> [] -> (forall y, In y l -> y = x) ->
  Pd.sort_unique String.compare l = [x].
Proof.
  induction l as [|a l IH]; intros Hne Hall; [contradiction|].
  assert (a = x) as -> by (apply Hall; now left).
  simpl. destruct l as [|b l]; [reflexivity|].
  rewrite IH; [|discriminate|intros y Hy; apply Hall; now right].
  simpl. now rewrite str_compare_refl.
Qed.

Lemma difference_In (x : string) (labels other : list string) :
  In x (Pd.difference labels other) <-> In x labels /\ ~ In x other.
Proof.
  unfold Pd.difference. rewrite str_sort_unique_In, filter_In.
  rewrite negb_true_iff, <- not_true_iff_false, mem_In. reflexivity.
Qed.

Lemma labels_select (df : DataFrame) (names : list string) (y : string) :
  In y (Pd.labels (Pd.select df names))
  <-> In y names /\ In y (Pd.labels df).
Proof.
  unfold Pd.labels, Pd.select. cbn [columns].
  rewrite in_map_iff. split.
  - intros (c & <- & Hc). apply in_flat_map in Hc.
    destruct Hc as (n & Hn & Hc). apply filter_In in Hc.
    destruct Hc as [Hc E]. apply String.eqb_eq in E. subst n.
    split; [assumption|now apply in_map].
  - intros [Hn Hy]. apply in_map_iff in Hy. destruct Hy as (c & <- & Hc).
    exists c. split; [reflexivity|]. apply in_flat_map.
    exists (fst c). split; [assumption|].
    apply filter_In. split; [assumption|apply String.eqb_refl].
Qed.

(** The frame cut out for one feature column has that column as its only
    feature column. *)
Lemma feature_columns_of_slice (df : DataFrame) (feature_name : string) :
  let feature_columns :=
    Pd.difference (Pd.labels df) ["time"; "created_time"] in
  In feature_name feature_columns ->
  Pd.difference
    (Pd.labels
       (Pd.select df (Pd.difference (Pd.labels df) feature_columns
                      ++ [feature_name])))
    ["time"; "created_time"]
  = [feature_name].
Proof.
  intros fc Hfn.
  pose proof (proj1 (difference_In _ _ _) Hfn) as [Hlab Hnot].
  unfold Pd.difference at 1. apply str_sort_unique_const.
  - intros E.
    assert (Hin : In feature_name
                     (filter (fun c => negb (Py.mem c ["time"; "created_time"]))
                        (Pd.labels
                           (Pd.select df
                              (Pd.difference (Pd.labels df) fc
                               ++ [feature_name]))))).
    { apply filter_In. split.
      - apply labels_select. split; [|assumption].
        apply in_or_app. right. now left.
      - apply negb_true_iff, not_true_iff_false. now rewrite mem_In. }
    rewrite E in Hin. destruct Hin.
  - intros y Hy. apply filter_In in Hy. destruct Hy as [Hy Hp].
    apply labels_select in Hy. destruct Hy as [Hnames Hy].
    apply in_app_or in Hnames. destruct Hnames as [Hd|[<-|[]]];
      [|reflexivity].
    apply difference_In in Hd. destruct Hd as [_ Hd]. exfalso. apply Hd.
    apply difference_In. split; [assumption|].
    apply negb_true_iff, not_true_iff_false in Hp. now rewrite mem_In in Hp.
Qed.

Lemma for_each_ext {A : Type} (l : list A) (f g : A -> M unit) (s : Store) :
  (forall x st, In x l -> f x st = g x st) ->
  for_each l f s = for_each l g s.
Proof.
  revert s. induction l as [|x l IH]; intros s Hfg; [reflexivity|].
  cbn [for_each]. unfold bind. rewrite (Hfg x s (or_introl eq_refl)).
  destruct (g x s) as [[[]|e] s1]; [|reflexivity].
  apply IH. intros y st Hy. apply Hfg. now right.
Qed.

(** A call of [save_dataframe] on a frame with a single feature column
    does not call itself. *)
Lemma save_single_depth (re_search : string -> string -> bool)
  (feature_save : Store -> Feature -> DataFrame -> result unit)
  (df : DataFrame) (c : string) (name namespace : option string)
  (n m : nat) (s : Store) :
  Pd.difference (Pd.labels df) ["time"; "created_time"] = [c] ->
  save_dataframe_rec re_search feature_save (S n) df name namespace s
  = save_dataframe_rec re_search feature_save (S m) df name namespace s.
Proof.
  intros E. cbn [save_dataframe_rec]. now rewrite E.
Qed.

(** X25: [save_dataframe] never nests deeper than two calls: any larger
    bound on the depth gives the same outcome. *)
Lemma save_dataframe_depth (re_search : string -> string -> bool)
  (feature_save : Store -> Feature -> DataFrame -> result unit)
  (n : nat) (df : DataFrame) (name namespace : option string) (s : Store) :
  save_dataframe_rec re_search feature_save (S (S n)) df name namespace s
  = save_dataframe re_search feature_save df name namespace s.
Proof.
  unfold save_dataframe.
  destruct (Pd.difference (Pd.labels df) ["time"; "created_time"])
    as [|c [|c' l]] eqn:E.
  - cbn [save_dataframe_rec]. now rewrite E.
  - now apply save_single_depth with (c := c).
  - assert (Hstep : forall d,
              save_dataframe_rec re_search feature_save (S d) df name
                namespace s
              = (for_each (c :: c' :: l) (fun _ =>
                   ex <- _exists (R := Feature) re_search namespace name ;;
                   if negb ex then raise (does_not_exist namespace name)
                   else ret tt) ;;;
                 for_each (c :: c' :: l) (fun feature_name =>
                   save_dataframe_rec re_search feature_save d
                     (Pd.select df
                        (Pd.difference (Pd.labels df) (c :: c' :: l)
                         ++ [feature_name])) None None)) s).
    { intros d. cbn [save_dataframe_rec]. now rewrite E. }
    rewrite (Hstep (S n)), (Hstep 1%nat). unfold bind.
    destruct (for_each (c :: c' :: l) _ s) as [[[]|e] s1]; [|reflexivity].
    apply for_each_ext. intros x st Hx.
    apply save_single_depth with (c := x).
    rewrite <- E in Hx. rewrite <- E.
    exact (feature_columns_of_slice df x Hx).
Qed.

(** * Further properties *)

(** ** Validator and resolver *)

Lemma check_mandatory_ok (mandatory names : list string) :
  check_mandatory mandatory names = Ok tt
  <-> forall m, In m mandatory -> In m names.
Proof.
  induction mandatory as [|m mandatory IH]; simpl.
  - split; [intros _ m []|reflexivity].
  - destruct (Py.mem m names) eqn:Hm.
    + rewrite IH. apply mem_In in Hm. split.
      * intros Hall k [<-|Hk]; auto.
      * intros Hall k Hk. apply Hall. now right.
    + split; [discriminate|].
      intros Hall. assert (Hin : In m names) by (apply Hall; now left).
      apply mem_In in Hin. congruence.
Qed.

Lemma validate_kwargs_ok {V : Type} (args : list (string * V))
  (valid mandatory : list string) :
  _validate_kwargs args valid mandatory = Ok tt
  <-> (forall k, In k (Py.keys args) -> In k valid)
      /\ (forall m, In m mandatory -> In m (Py.keys args)).
Proof.
  unfold _validate_kwargs.
  destruct (check_valid_cases (Py.keys args) valid)
    as [[E Hall]|(k & Hk & Hbad & E)]; rewrite E.
  - rewrite check_mandatory_ok. split.
    + intros Hm. split; [|exact Hm]. intros k Hk. apply mem_In. auto.
    + now intros [_ Hm].
  - split; [discriminate|]. intros [Hall _].
    apply Hall, mem_In in Hk. congruence.
Qed.

(** X1: [_validate_kwargs] accepts a keyword dictionary exactly when every
    key it holds is recognised and every mandatory key is among its keys. *)
Theorem validate_kwargs_accepts {V : Type} (args : list (string * V))
  (valid mandatory : list string) :
  _validate_kwargs args valid mandatory = Ok tt
  <-> (forall k, In k (Py.keys args) -> In k valid)
      /\ (forall m, In m mandatory -> In m (Py.keys args)).
Proof. exact (validate_kwargs_ok args valid mandatory). Qed.

Lemma unpack_items_other (l : list item) (default : option string) :
  In IOther l ->
  unpack_items l default
  = Raise (ValueError "List must contain strings or dicts").
Proof.
  induction l as [|it l IH]; intros Hin; [destruct Hin|].
  destruct it as [s|d|]; [| |reflexivity];
    (destruct Hin as [E|Hin]; [discriminate E|]);
    cbn [unpack_items]; now rewrite (IH Hin).
Qed.

Lemma unpack_items_length (l : list item) (default : option string) :
  ~ In IOther l ->
  exists r, unpack_items l default = Ok r /\ List.length r = List.length l.
Proof.
  induction l as [|it l IH]; intros Hno.
  - now exists [].
  - destruct IH as (r & Er & Hlen); [intros Hin; apply Hno; now right|].
    destruct it as [s|d|].
    + eexists. cbn [unpack_items]. rewrite Er. split; [reflexivity|].
      simpl. now rewrite Hlen.
    + eexists. cbn [unpack_items]. rewrite Er. split; [reflexivity|].
      simpl. now rewrite Hlen.
    + exfalso. apply Hno. now left.
Qed.

(** X2: on a list, [_unpack_list] raises the error about strings and dicts
    as soon as any element, wherever it stands, is neither; otherwise it
    returns one pair for each element. *)
Theorem unpack_list_elements (l : list item) (default : option string) :
  (In IOther l ->
   _unpack_list (OList l) default
   = Raise (ValueError "List must contain strings or dicts"))
  /\ (~ In IOther l ->
      exists r, _unpack_list (OList l) default = Ok r
                /\ List.length r = List.length l).
Proof.
  split; [apply unpack_items_other|apply unpack_items_length].
Qed.

Lemma unpack_list_elements_witness :
  _unpack_list (OList [IStr "demo/a"; IDict [("name", "b")]; IOther]) None
  = Raise (ValueError "List must contain strings or dicts")
  /\ exists r, _unpack_list (OList [IStr "demo/a"; IDict [("name", "b")]]) None
               = Ok r /\ List.length r = 2%nat.
Proof.
  split.
  - apply (unpack_list_elements
             [IStr "demo/a"; IDict [("name", "b")]; IOther] None).
    simpl. auto.
  - apply (unpack_list_elements [IStr "demo/a"; IDict [("name", "b")]] None).
    simpl. intros [E|[E|[]]]; discriminate E.
Defined.

Lemma str_length_append (a b : string) :
  String.length (a ++ b) = (String.length a + String.length b)%nat.
Proof. induction a as [|c a IH]; simpl; congruence. Qed.

(** X3: a one-row table holding the name [n] and a list holding the string
    [n] are resolved alike, and the table is resolved like the bare string
    [n] exactly when a non-empty default namespace is given or [n] has no
    separator: a name in a table is never split. *)
Theorem table_row_not_split (n : string) (default : option string) :
  _unpack_list (OList [IStr n]) default = _unpack_list (OStr n) default
  /\ (_unpack_list (OFrame (mkTable ["name"] [[("name", Some n)]])) default
      = _unpack_list (OStr n) default
      <-> Py.truthy default = true \/ Py.has_sep n = false).
Proof.
  split; [reflexivity|].
  unfold _unpack_list. cbn [Py.mem existsb t_columns t_rows map].
  change (Py.mem "name" ["name"]) with true. cbv iota.
  change (row_get [("name", Some n)] "namespace" default) with default.
  change (row_get [("name", Some n)] "name" None) with (Some n).
  split.
  - intros E. destruct (Py.truthy default) eqn:Hd; [now left|right].
    destruct (Py.has_sep n) eqn:Hn; [|reflexivity]. exfalso.
    rewrite (split_name_no_default default n Hd Hn) in E.
    injection E as _ E. pose proof (split_first_rest n Hn) as Hs.
    rewrite <- E in Hs. apply (f_equal String.length) in Hs.
    rewrite !str_length_append in Hs. simpl in Hs. lia.
  - intros [Hd|Hn].
    + now rewrite split_name_default.
    + now rewrite split_name_no_sep.
Qed.

(** ** Catalog rows *)

Lemma filter_filter {A : Type} (p q : A -> bool) (l : list A) :
  filter q (filter p l) = filter (fun x => p x && q x) l.
Proof.
  induction l as [|x l IH]; [reflexivity|].
  simpl. destruct (p x); simpl; [destruct (q x)|]; now rewrite IH.
Qed.

Lemma filter_true {A : Type} (l : list A) : filter (fun _ => true) l = l.
Proof. induction l as [|x l IH]; simpl; congruence. Qed.

Lemma filtered_matches {R : Type} `{Entity R}
  (namespace name : option string) (s : Store) :
  filtered namespace name s = filter (matches namespace name) (rows s).
Proof.
  unfold filtered, matches.
  destruct (Py.truthy namespace), (Py.truthy name); cbn [negb orb andb].
  - apply filter_filter.
  - apply filter_ext. intros o. now rewrite andb_true_r.
  - reflexivity.
  - symmetry. apply filter_true.
Qed.

Lemma filter_two {A : Type} (p : A -> bool) (l : list A) (a b : A) :
  In a l -> In b l -> a <> b -> p a = true -> p b = true ->
  exists x y r, filter p l = x :: y :: r.
Proof.
  intros Ha Hb Hab Hpa Hpb.
  assert (Ha' : In a (filter p l)) by (apply filter_In; auto).
  assert (Hb' : In b (filter p l)) by (apply filter_In; auto).
  destruct (filter p l) as [|x [|y r]].
  - destruct Ha'.
  - destruct Ha' as [<-|[]], Hb' as [<-|[]]. contradiction.
  - now eauto.
Qed.

Section RowFacts.

Context {R : Type} `{Entity R}.

Lemma delete_run (namespace name : option string) (s : Store) :
  _delete namespace name s
  = match one_or_none (filtered (fst (_split_name namespace name))
                                (snd (_split_name namespace name)) s) with
    | Raise e => (Raise e, s)
    | Ok None =>
        (Raise (no_existing (fst (_split_name namespace name))
                            (snd (_split_name namespace name))), s)
    | Ok (Some _) =>
        (Ok tt,
         set_rows (filter (fun o =>
                             negb (matches (fst (_split_name namespace name))
                                           (snd (_split_name namespace name))
                                           o))
                          (rows s)) s)
    end.
Proof.
  unfold _delete. destruct (_split_name namespace name) as [ns n].
  cbn [fst snd]. unfold session_scope, bind, get_store, lift, raise.
  destruct (one_or_none (filtered ns n s)) as [[o|]|e];
    now rewrite ?store_eta.
Qed.

Lemma update_run (namespace name : option string) (payload : kwargs)
  (s : Store) :
  _update namespace name payload s
  = match one_or_none (filtered (fst (_split_name namespace name))
                                (snd (_split_name namespace name)) s) with
    | Raise e => (Raise e, s)
    | Ok None =>
        (Raise (no_existing (fst (_split_name namespace name))
                            (snd (_split_name namespace name))), s)
    | Ok (Some _) =>
        (Ok tt,
         set_rows (map (fun o =>
                          if matches (fst (_split_name namespace name))
                                     (snd (_split_name namespace name)) o
                          then update_from_dict payload o else o)
                       (rows s)) s)
    end.
Proof.
  unfold _update. destruct (_split_name namespace name) as [ns n].
  cbn [fst snd]. unfold session_scope, bind, get_store, lift, raise.
  destruct (one_or_none (filtered ns n s)) as [[o|]|e];
    now rewrite ?store_eta.
Qed.

End RowFacts.

Lemma validate_no_mandatory {V : Type} (kw : list (string * V))
  (valid : list string) :
  _validate_kwargs kw valid [] = check_valid (Py.keys kw) valid.
Proof.
  unfold _validate_kwargs. now destruct (check_valid (Py.keys kw) valid) as [[]|e].
Qed.

(** X4: [delete_feature] and [update_feature] (with recognised keywords)
    on an identifier that no feature row matches raise the error naming
    the resolved name and namespace and leave the store as it was. *)
Theorem feature_not_found (name : string) (namespace : option string)
  (kw : kwargs) (s : Store) :
  (forall o, In o (features s) ->
             matches (fst (_split_name namespace (Some name)))
                     (snd (_split_name namespace (Some name))) o = false) ->
  delete_feature name namespace s
  = (Raise (RuntimeError
              ("No existing Feature named "
               ++ Py.fmt (snd (_split_name namespace (Some name)))
               ++ " in " ++ Py.fmt (fst (_split_name namespace (Some name))))),
     s)
  /\ ((forall k, In k (Py.keys kw) -> In k ["description"; "meta"]) ->
      update_feature name namespace kw s
      = (Raise (RuntimeError
                  ("No existing Feature named "
                   ++ Py.fmt (snd (_split_name namespace (Some name)))
                   ++ " in "
                   ++ Py.fmt (fst (_split_name namespace (Some name))))),
         s)).
Proof.
  intros Hnone.
  assert (E : filtered (R := Feature)
                (fst (_split_name namespace (Some name)))
                (snd (_split_name namespace (Some name))) s = []).
  { rewrite filtered_matches. cbn [rows Feature_Entity].
    induction (features s) as [|o l IH]; [reflexivity|].
    cbn [filter]. rewrite (Hnone o (or_introl eq_refl)).
    apply IH. intros o' Ho'. apply Hnone. now right. }
  split.
  - unfold delete_feature. rewrite delete_run, E. reflexivity.
  - intros Hkw. unfold update_feature, bind, lift.
    rewrite validate_no_mandatory, check_valid_ok
      by (intros k Hk; apply mem_In; auto).
    rewrite update_run, E. reflexivity.
Qed.

Lemma feature_not_found_witness :
  delete_feature "absent" (Some "demo") example_store
  = (Raise (RuntimeError "No existing Feature named absent in demo"),
     example_store).
Proof.
  refine (proj1 (feature_not_found "absent" (Some "demo") [] example_store
                   _)).
  intros o [<-|[<-|[]]]; reflexivity.
Defined.

(** X5: [delete_feature] and [update_feature] on an identifier that two
    different feature rows match (a bare name held in two namespaces, say)
    raise the error of a query with several results and leave the store as
    it was: neither row is picked. *)
Theorem feature_ambiguous (name : string) (namespace : option string)
  (kw : kwargs) (s : Store) (a b : Feature) :
  In a (features s) -> In b (features s) -> a <> b ->
  matches (fst (_split_name namespace (Some name)))
          (snd (_split_name namespace (Some name))) a = true ->
  matches (fst (_split_name namespace (Some name)))
          (snd (_split_name namespace (Some name))) b = true ->
  delete_feature name namespace s = (Raise MultipleResultsFound, s)
  /\ ((forall k, In k (Py.keys kw) -> In k ["description"; "meta"]) ->
      update_feature name namespace kw s = (Raise MultipleResultsFound, s)).
Proof.
  intros Ha Hb Hab Hma Hmb.
  destruct (filter_two _ (features s) a b Ha Hb Hab Hma Hmb)
    as (x & y & r & E).
  assert (E' : filtered (R := Feature)
                 (fst (_split_name namespace (Some name)))
                 (snd (_split_name namespace (Some name))) s = x :: y :: r)
    by (rewrite filtered_matches; exact E).
  split.
  - unfold delete_feature. rewrite delete_run, E'. reflexivity.
  - intros Hkw. unfold update_feature, bind, lift.
    rewrite validate_no_mandatory, check_valid_ok
      by (intros k Hk; apply mem_In; auto).
    rewrite update_run, E'. reflexivity.
Qed.

Lemma feature_ambiguous_witness :
  let a := mkFeature (Some "eu") (Some "price") VNone (VStr "date") VNone in
  let b := mkFeature (Some "us") (Some "price") VNone (VStr "date") VNone in
  delete_feature "price" None (mkStore [] [a; b] [])
  = (Raise MultipleResultsFound, mkStore [] [a; b] []).
Proof.
  intros a b.
  refine (proj1 (feature_ambiguous "price" None [] (mkStore [] [a; b] [])
                   a b _ _ _ _ _)).
  - now left.
  - right. now left.
  - discriminate.
  - reflexivity.
  - reflexivity.
Defined.

Lemma ft_set_keeps (payload : kwargs) (o : Feature) :
  (forall k, In k (Py.keys payload) -> In k ["description"; "meta"]) ->
  ft_namespace (fold_left ft_set payload o) = ft_namespace o
  /\ ft_name (fold_left ft_set payload o) = ft_name o
  /\ ft_partition (fold_left ft_set payload o) = ft_partition o.
Proof.
  revert o. induction payload as [|[k v] payload IH]; intros o Hall.
  - now repeat split.
  - cbn [fold_left]. destruct (IH (ft_set o (k, v))) as (E1 & E2 & E3).
    + intros k' Hk'. apply Hall. now right.
    + rewrite E1, E2, E3.
      assert (Hk : In k ["description"; "meta"]) by (apply Hall; now left).
      simpl in Hk. destruct Hk as [<-|[<-|[]]]; now repeat split.
Qed.

(** X6: whatever its arguments and whatever its outcome, [update_feature]
    leaves every feature row its namespace, name and partition, in the same
    order, and leaves the namespaces and the backend as they were: a feature
    cannot be renamed, moved or repartitioned through it. *)
Theorem update_feature_keeps_identity (name : string)
  (namespace : option string) (kw : kwargs) (s : Store) :
  map (fun o => (ft_namespace o, ft_name o, ft_partition o))
      (features (snd (update_feature name namespace kw s)))
  = map (fun o => (ft_namespace o, ft_name o, ft_partition o)) (features s)
  /\ namespaces (snd (update_feature name namespace kw s)) = namespaces s
  /\ backend (snd (update_feature name namespace kw s)) = backend s.
Proof.
  unfold update_feature, bind, lift. rewrite validate_no_mandatory.
  destruct (check_valid_cases (Py.keys kw) ["description"; "meta"])
    as [[E Hall]|(k & Hk & Hbad & E)]; rewrite E; [|now repeat split].
  rewrite update_run.
  destruct (one_or_none _) as [[o|]|e]; cbn [snd]; try now repeat split.
  cbn [set_rows Feature_Entity features namespaces backend rows].
  split; [|now split].
  rewrite map_map. apply map_ext. intros o'.
  destruct (matches _ _ o'); [|reflexivity].
  change (update_from_dict kw o') with (fold_left ft_set kw o').
  destruct (ft_set_keeps kw o') as (-> & -> & ->); [|reflexivity].
  intros k Hk. apply mem_In. auto.
Qed.

(** X7: a qualified name whose first segment is not empty can be given
    whole or in its two parts: [create_feature], [update_feature],
    [delete_feature] and [list_features] do the same with the whole string
    and no namespace as with the rejoined rest as name and the first segment
    as namespace. *)
Theorem qualified_name_in_parts (re_search : string -> string -> bool)
  (q : string) (kw : kwargs) (s : Store) :
  Py.has_sep q = true ->
  hd EmptyString (Py.split q) <> EmptyString ->
  create_feature re_search q None kw s
  = create_feature re_search (Py.join (tl (Py.split q)))
                   (Some (hd EmptyString (Py.split q))) kw s
  /\ update_feature q None kw s
     = update_feature (Py.join (tl (Py.split q)))
                      (Some (hd EmptyString (Py.split q))) kw s
  /\ delete_feature q None s
     = delete_feature (Py.join (tl (Py.split q)))
                      (Some (hd EmptyString (Py.split q))) s
  /\ list_features re_search [("name", VStr q)] s
     = list_features re_search
         [("namespace", VStr (hd EmptyString (Py.split q)));
          ("name", VStr (Py.join (tl (Py.split q))))] s.
Proof.
  intros Hq Hhd.
  assert (E1 : _split_name None (Some q)
               = (Some (hd EmptyString (Py.split q)),
                  Some (Py.join (tl (Py.split q)))))
    by (now apply split_name_no_default).
  assert (E2 : _split_name (Some (hd EmptyString (Py.split q)))
                           (Some (Py.join (tl (Py.split q))))
               = (Some (hd EmptyString (Py.split q)),
                  Some (Py.join (tl (Py.split q))))).
  { apply split_name_default.
    destruct (hd EmptyString (Py.split q)); [contradiction|reflexivity]. }
  repeat split.
  - unfold create_feature, bind, lift, _create.
    cbn [is_namespace Feature_Entity]. now rewrite E1, E2.
  - unfold update_feature, bind, lift. now rewrite !update_run, E1, E2.
  - unfold delete_feature. now rewrite !delete_run, E1, E2.
  - unfold list_features, bind, lift.
    change (_validate_kwargs [("name", VStr q)] _ _) with (Ok tt).
    change (_validate_kwargs
              [("namespace", VStr (hd EmptyString (Py.split q)));
               ("name", VStr (Py.join (tl (Py.split q))))] _ _)
      with (Ok tt).
    cbv iota. rewrite !_list_run.
    change (kw_get [("name", VStr q)] "namespace") with (@None string).
    change (kw_get [("name", VStr q)] "name") with (Some q).
    change (kw_get [("name", VStr q)] "regex") with (@None string).
    change (kw_get [("namespace", VStr (hd EmptyString (Py.split q)));
                    ("name", VStr (Py.join (tl (Py.split q))))] "namespace")
      with (Some (hd EmptyString (Py.split q))).
    change (kw_get [("namespace", VStr (hd EmptyString (Py.split q)));
                    ("name", VStr (Py.join (tl (Py.split q))))] "name")
      with (Some (Py.join (tl (Py.split q)))).
    change (kw_get [("namespace", VStr (hd EmptyString (Py.split q)));
                    ("name", VStr (Py.join (tl (Py.split q))))] "regex")
      with (@None string).
    now rewrite E1, E2.
Qed.

Lemma qualified_name_in_parts_witness :
  delete_feature "demo/daily" None example_store
  = delete_feature "daily" (Some "demo") example_store.
Proof.
  destruct (qualified_name_in_parts (fun _ _ => true) "demo/daily" []
              example_store eq_refl) as (_ & _ & H & _).
  - discriminate.
  - exact H.
Defined.

(** ** Creating, finding and deleting *)

Lemma update_fresh {V : Type} (d : list (string * V)) (k : string) (v : V) :
  ~ In k (Py.keys d) -> Py.update d k v = d ++ [(k, v)].
Proof.
  induction d as [|[k' v'] d IH]; intros Hk; [reflexivity|].
  simpl. destruct (String.eqb_spec k' k) as [->|Hne].
  - exfalso. apply Hk. now left.
  - rewrite IH; [reflexivity|]. intros Hin. apply Hk. now right.
Qed.

Lemma keys_app {V : Type} (d1 d2 : list (string * V)) :
  Py.keys (d1 ++ d2) = Py.keys d1 ++ Py.keys d2.
Proof. apply map_app. Qed.

Lemma as_str_of_str (o : option string) : as_str (of_str o) = o.
Proof. now destruct o. Qed.

Lemma feature_row_identity (namespace name : option string) (kw : kwargs) :
  (forall k, In k (Py.keys kw) -> In k ["description"; "meta"; "partition"]) ->
  ft_namespace (feature_row namespace name kw) = namespace
  /\ ft_name (feature_row namespace name kw) = name.
Proof.
  intros Hkw. unfold feature_row.
  assert (H1 : ~ In "name" (Py.keys kw)).
  { intros Hin. apply Hkw in Hin. simpl in Hin.
    destruct Hin as [E|[E|[E|[]]]]; discriminate E. }
  assert (H2 : ~ In "namespace" (Py.keys (kw ++ [("name", of_str name)]))).
  { rewrite keys_app, in_app_iff. intros [Hin|[E|[]]]; [|discriminate E].
    apply Hkw in Hin. simpl in Hin.
    destruct Hin as [E|[E|[E|[]]]]; discriminate E. }
  rewrite (update_fresh kw "name" _ H1), (update_fresh _ "namespace" _ H2).
  cbn [update_from_dict Feature_Entity]. rewrite !fold_left_app.
  cbn [fold_left]. generalize (fold_left ft_set kw blank) as o. intros o.
  cbn. now rewrite !as_str_of_str.
Qed.

Lemma namespace_row_name (name : option string) (kw : kwargs) :
  (forall k, In k (Py.keys kw) ->
             In k ["description"; "url"; "storage_options"; "meta"]) ->
  ns_name (namespace_row name kw) = name.
Proof.
  intros Hkw. unfold namespace_row.
  assert (H1 : ~ In "name" (Py.keys kw)).
  { intros Hin. apply Hkw in Hin. simpl in Hin.
    destruct Hin as [E|[E|[E|[E|[]]]]]; discriminate E. }
  rewrite (update_fresh kw "name" _ H1).
  cbn [update_from_dict Namespace_Entity]. rewrite fold_left_app.
  cbn [fold_left]. generalize (fold_left ns_set kw blank) as o. intros o.
  cbn. now rewrite as_str_of_str.
Qed.

Lemma create_feature_run (re_search : string -> string -> bool)
  (name : string) (namespace : option string) (kw : kwargs) (s : Store) :
  create_feature re_search name namespace kw s
  = match check_valid (Py.keys kw) ["description"; "meta"; "partition"] with
    | Raise e => (Raise e, s)
    | Ok _ =>
        match filtered (R := Namespace)
                (fst (_split_name namespace (Some name))) None s with
        | [] =>
            (Raise (ValueError
                      (Py.fmt (fst (_split_name namespace (Some name)))
                       ++ " namespace does not exist")), s)
        | _ :: _ =>
            if existsb (same_key
                          (feature_row
                             (fst (_split_name namespace (Some name)))
                             (snd (_split_name namespace (Some name))) kw))
                       (features s)
            then (Raise IntegrityError, s)
            else (Ok tt,
                  mkStore (namespaces s)
                    (features s
                     ++ [feature_row
                           (fst (_split_name namespace (Some name)))
                           (snd (_split_name namespace (Some name))) kw])
                    (backend s))
        end
    end.
Proof.
  unfold create_feature, bind, lift. rewrite validate_no_mandatory.
  destruct (check_valid _ _) as [[]|e]; [|reflexivity].
  unfold _create, bind. cbn [is_namespace Feature_Entity].
  destruct (_split_name namespace (Some name)) as [ns n]. cbn [fst snd].
  rewrite _exists_run, split_name_none. cbn [fst snd].
  destruct (filtered ns None s) as [|x l]; [reflexivity|].
  cbn [negb]. unfold ret, session_scope, session_add.
  change (update_from_dict
            (Py.update (Py.update kw "name" (of_str n)) "namespace"
                       (of_str ns)) blank)
    with (feature_row ns n kw).
  cbn [rows set_rows Feature_Entity].
  destruct (existsb _ (features s)); [now rewrite store_eta|reflexivity].
Qed.

Lemma opt_eqb_refl (o : option string) : opt_eqb o o = true.
Proof. destruct o; [apply String.eqb_refl|reflexivity]. Qed.

Lemma opt_eqb_sym (a b : option string) : opt_eqb a b = opt_eqb b a.
Proof. destruct a, b; try reflexivity. apply String.eqb_sym. Qed.

Lemma opt_eqb_eq (a b : option string) : opt_eqb a b = true <-> a = b.
Proof.
  destruct a, b; simpl; try (split; [discriminate|discriminate]);
    [|tauto].
  rewrite String.eqb_eq. split; congruence.
Qed.

Lemma filter_none {A : Type} (p : A -> bool) (l : list A) :
  (forall x, In x l -> p x = false) -> filter p l = [].
Proof.
  induction l as [|x l IH]; intros Hall; [reflexivity|].
  simpl. rewrite (Hall x (or_introl eq_refl)).
  apply IH. intros y Hy. apply Hall. now right.
Qed.

Lemma filter_all {A : Type} (p : A -> bool) (l : list A) :
  (forall x, In x l -> p x = true) -> filter p l = l.
Proof.
  induction l as [|x l IH]; intros Hall; [reflexivity|].
  simpl. rewrite (Hall x (or_introl eq_refl)). f_equal.
  apply IH. intros y Hy. apply Hall. now right.
Qed.

Lemma existsb_false_In {A : Type} (p : A -> bool) (l : list A) :
  existsb p l = false -> forall x, In x l -> p x = false.
Proof.
  intros H x Hx. destruct (p x) eqn:E; [|reflexivity].
  assert (existsb p l = true) by (apply existsb_exists; eauto). congruence.
Qed.

(** X8: after a successful [create_feature] the catalog holds the old rows
    and one new feature row, with the resolved namespace and name; the
    lookup that [load_dataframe], [save_dataframe] and [last] make for that
    pair finds this row and no other; and creating the same feature again
    fails on the uniqueness of the pair, leaving the store as it is. *)
Theorem create_feature_then_found (re_search : string -> string -> bool)
  (name : string) (namespace : option string) (kw : kwargs) (s s' : Store) :
  create_feature re_search name namespace kw s = (Ok tt, s') ->
  exists row,
    ft_namespace row = fst (_split_name namespace (Some name))
    /\ ft_name row = snd (_split_name namespace (Some name))
    /\ s' = mkStore (namespaces s) (features s ++ [row]) (backend s)
    /\ query_feature (fst (_split_name namespace (Some name)))
                     (snd (_split_name namespace (Some name))) s' = [row]
    /\ create_feature re_search name namespace kw s'
       = (Raise IntegrityError, s').
Proof.
  intros Hrun. pose proof Hrun as Hrun0. rewrite create_feature_run in Hrun.
  destruct (check_valid_cases (Py.keys kw) ["description"; "meta"; "partition"])
    as [[E Hall]|(k & Hk & Hbad & E)]; rewrite E in Hrun; [|discriminate].
  destruct (filtered (R := Namespace) _ None s) as [|x l] eqn:Ens;
    [discriminate|].
  set (ns := fst (_split_name namespace (Some name))) in *.
  set (n := snd (_split_name namespace (Some name))) in *.
  destruct (existsb _ (features s)) eqn:Efresh; [discriminate|].
  injection Hrun as <-.
  destruct (feature_row_identity ns n kw) as [Hrns Hrn].
  { intros k Hk. apply mem_In. auto. }
  exists (feature_row ns n kw).
  split; [exact Hrns|]. split; [exact Hrn|]. split; [reflexivity|].
  split.
  - unfold query_feature. cbn [features]. rewrite filter_app.
    rewrite filter_none.
    + cbn [filter app]. now rewrite Hrns, Hrn, !opt_eqb_refl.
    + intros o Ho. pose proof (existsb_false_In _ _ Efresh o Ho) as Hkey.
      cbn [same_key Feature_Entity] in Hkey. rewrite Hrns, Hrn in Hkey.
      rewrite andb_comm, (opt_eqb_sym (ft_namespace o)),
        (opt_eqb_sym (ft_name o)). exact Hkey.
  - rewrite create_feature_run, E. fold ns n.
    replace (filtered (R := Namespace) ns None
               (mkStore (namespaces s)
                        (features s ++ [feature_row ns n kw]) (backend s)))
      with (x :: l) by (rewrite <- Ens; reflexivity).
    cbn [features]. rewrite existsb_app. cbn [existsb].
    cbn [same_key Feature_Entity]. rewrite !opt_eqb_refl.
    cbn [andb orb]. now rewrite orb_true_r.
Qed.

Lemma create_feature_then_found_witness :
  let s' :=
    mkStore (namespaces example_store)
      (features example_store
       ++ [mkFeature (Some "demo") (Some "hourly") VNone (VStr "date") VNone])
      [] in
  create_feature (fun _ _ => true) "demo/hourly" None [] example_store
  = (Ok tt, s')
  /\ create_feature (fun _ _ => true) "demo/hourly" None [] s'
     = (Raise IntegrityError, s').
Proof.
  intros s'.
  assert (Hrun : create_feature (fun _ _ => true) "demo/hourly" None []
                   example_store = (Ok tt, s')) by (vm_compute; reflexivity).
  destruct (create_feature_then_found (fun _ _ => true) "demo/hourly" None []
              example_store s' Hrun)
    as (row & _ & _ & _ & _ & Hagain).
  split; [exact Hrun|exact Hagain].
Defined.

Lemma create_feature_inv (re_search : string -> string -> bool)
  (name : string) (namespace : option string) (kw : kwargs) (s s' : Store) :
  create_feature re_search name namespace kw s = (Ok tt, s') ->
  (forall k, In k (Py.keys kw) -> In k ["description"; "meta"; "partition"])
  /\ (forall o, In o (features s) ->
        same_key (feature_row (fst (_split_name namespace (Some name)))
                              (snd (_split_name namespace (Some name))) kw) o
        = false)
  /\ s' = mkStore (namespaces s)
            (features s
             ++ [feature_row (fst (_split_name namespace (Some name)))
                             (snd (_split_name namespace (Some name))) kw])
            (backend s).
Proof.
  intros Hrun. rewrite create_feature_run in Hrun.
  destruct (check_valid_cases (Py.keys kw) ["description"; "meta"; "partition"])
    as [[E Hall]|(k & Hk & Hbad & E)]; rewrite E in Hrun; [|discriminate].
  destruct (filtered (R := Namespace) _ None s) as [|x l]; [discriminate|].
  destruct (existsb _ (features s)) eqn:Efresh; [discriminate|].
  injection Hrun as <-. split; [|split; [|reflexivity]].
  - intros k Hk. apply mem_In. auto.
  - exact (existsb_false_In _ _ Efresh).
Qed.

Lemma truthy_some (o : option string) :
  Py.truthy o = true -> exists c r, o = Some (String c r).
Proof. destruct o as [[|c r]|]; try discriminate. now eauto. Qed.

(** X9: [delete_feature] undoes [create_feature]: when a feature was
    created under a non-empty namespace and a non-empty name, deleting it
    with the same arguments gives back the store from before the two
    calls. *)
Theorem create_then_delete_feature (re_search : string -> string -> bool)
  (name : string) (namespace : option string) (kw : kwargs) (s s' : Store) :
  create_feature re_search name namespace kw s = (Ok tt, s') ->
  Py.truthy (fst (_split_name namespace (Some name))) = true ->
  Py.truthy (snd (_split_name namespace (Some name))) = true ->
  delete_feature name namespace s' = (Ok tt, s).
Proof.
  intros Hrun Hns Hn.
  destruct (create_feature_inv _ _ _ _ _ _ Hrun) as (Hkw & Hfresh & ->).
  set (ns := fst (_split_name namespace (Some name))) in *.
  set (n := snd (_split_name namespace (Some name))) in *.
  destruct (feature_row_identity ns n kw Hkw) as [Hrns Hrn].
  assert (Hold : forall o, In o (features s) ->
            matches (R := Feature) ns n o = false).
  { intros o Ho. specialize (Hfresh o Ho).
    cbn [same_key Feature_Entity] in Hfresh. rewrite Hrns, Hrn in Hfresh.
    unfold matches. rewrite Hns, Hn. cbn [negb orb attr_namespace attr_name
                                            Feature_Entity].
    now rewrite (opt_eqb_sym (ft_namespace o)), (opt_eqb_sym (ft_name o)). }
  assert (Hnew : matches (R := Feature) ns n (feature_row ns n kw) = true).
  { unfold matches. cbn [attr_namespace attr_name Feature_Entity].
    now rewrite Hrns, Hrn, !opt_eqb_refl, !orb_true_r. }
  unfold delete_feature. rewrite delete_run. fold ns n.
  rewrite filtered_matches. cbn [rows set_rows Feature_Entity features].
  rewrite !filter_app, (filter_none _ _ Hold). cbn [filter app].
  rewrite Hnew. cbn [one_or_none negb namespaces backend].
  rewrite filter_all; [now rewrite app_nil_r, store_eta|].
  intros o Ho. now rewrite (Hold o Ho).
Qed.

Lemma create_then_delete_feature_witness :
  delete_feature "demo/hourly" None
    (mkStore (namespaces example_store)
       (features example_store
        ++ [mkFeature (Some "demo") (Some "hourly") VNone (VStr "date") VNone])
       [])
  = (Ok tt, example_store).
Proof.
  apply (create_then_delete_feature (fun _ _ => true) "demo/hourly" None []
           example_store).
  - vm_compute. reflexivity.
  - reflexivity.
  - reflexivity.
Defined.

Lemma create_namespace_run (re_search : string -> string -> bool)
  (name : string) (kw : kwargs) (s : Store) :
  create_namespace re_search name kw s
  = match _validate_kwargs kw
            ["description"; "url"; "storage_options"; "meta"] ["url"] with
    | Raise e => (Raise e, s)
    | Ok _ =>
        if existsb (same_key (namespace_row (Some name) kw)) (namespaces s)
        then (Raise IntegrityError, s)
        else (Ok tt,
              mkStore (namespaces s ++ [namespace_row (Some name) kw])
                      (features s) (backend s))
    end.
Proof.
  unfold create_namespace, bind, lift.
  destruct (_validate_kwargs kw _ _) as [[]|e]; [|reflexivity].
  unfold _create, bind. cbn [is_namespace Namespace_Entity].
  unfold ret, session_scope, session_add.
  change (update_from_dict (Py.update kw "name" (of_str (Some name))) blank)
    with (namespace_row (Some name) kw).
  cbn [rows set_rows Namespace_Entity].
  destruct (existsb _ (namespaces s)); [now rewrite store_eta|reflexivity].
Qed.

(** X10: [delete_namespace] undoes [create_namespace]: when a namespace
    was created under a non-empty name without separator and no feature
    refers to that name, deleting it gives back the store from before the
    two calls. *)
Theorem create_then_delete_namespace (re_search : string -> string -> bool)
  (name : string) (kw : kwargs) (s s' : Store) :
  create_namespace re_search name kw s = (Ok tt, s') ->
  name <> EmptyString ->
  Py.has_sep name = false ->
  (forall f, In f (features s) -> ft_namespace f <> Some name) ->
  delete_namespace re_search name s' = (Ok tt, s).
Proof.
  intros Hrun Hne Hsep Hfree. rewrite create_namespace_run in Hrun.
  destruct (_validate_kwargs kw _ _) as [[]|e] eqn:Ev; [|discriminate].
  destruct (existsb _ (namespaces s)) eqn:Efresh; [discriminate|].
  injection Hrun as <-.
  apply validate_kwargs_ok in Ev. destruct Ev as [Hkw _].
  pose proof (namespace_row_name (Some name) kw Hkw) as Hrow.
  assert (Ht : Py.truthy (Some name) = true)
    by (destruct name; [contradiction|reflexivity]).
  unfold delete_namespace, list_features, bind, lift.
  change (_validate_kwargs [("namespace", VStr name)]
            ["name"; "namespace"; "regex"] []) with (Ok tt).
  change (kw_get [("namespace", VStr name)] "namespace") with (Some name).
  change (kw_get [("namespace", VStr name)] "name") with (@None string).
  change (kw_get [("namespace", VStr name)] "regex") with (@None string).
  rewrite _list_run, split_name_none. cbn [fst snd regex_filter].
  rewrite filtered_matches. cbn [rows Feature_Entity features].
  rewrite filter_none.
  - rewrite delete_run, (split_name_no_sep None name Hsep). cbn [fst snd].
    rewrite filtered_matches. cbn [rows set_rows Namespace_Entity namespaces].
    assert (Hold : forall o, In o (namespaces s) ->
              matches (R := Namespace) None (Some name) o = false).
    { intros o Ho. pose proof (existsb_false_In _ _ Efresh o Ho) as Hkey.
      cbn [same_key Namespace_Entity] in Hkey. rewrite Hrow in Hkey.
      unfold matches. rewrite Ht.
      cbn [Py.truthy negb orb andb attr_name Namespace_Entity].
      now rewrite opt_eqb_sym. }
    assert (Hnew : matches (R := Namespace) None (Some name)
                     (namespace_row (Some name) kw) = true).
    { unfold matches. rewrite Ht.
      cbn [Py.truthy negb orb andb attr_name Namespace_Entity].
      now rewrite Hrow, opt_eqb_refl. }
    rewrite !filter_app, (filter_none _ _ Hold). cbn [filter app].
    rewrite Hnew. cbn [one_or_none negb features backend].
    rewrite filter_all; [now rewrite app_nil_r, store_eta|].
    intros o Ho. now rewrite (Hold o Ho).
  - intros f Hf. unfold matches. rewrite Ht.
    cbn [Py.truthy negb orb andb attr_namespace Feature_Entity].
    rewrite andb_true_r. destruct (opt_eqb _ _) eqn:E; [|reflexivity].
    apply opt_eqb_eq in E. exfalso. exact (Hfree f Hf E).
Qed.

Lemma create_then_delete_namespace_witness :
  delete_namespace (fun _ _ => true) "lab"
    (mkStore
       (namespaces example_store
        ++ [mkNamespace (Some "lab") VNone (VStr "file:///tmp/lab")
                        VNone VNone])
       (features example_store) [])
  = (Ok tt, example_store).
Proof.
  apply (create_then_delete_namespace (fun _ _ => true) "lab"
           [("url", VStr "file:///tmp/lab")] example_store).
  - vm_compute. reflexivity.
  - discriminate.
  - reflexivity.
  - intros f [<-|[<-|[]]]; discriminate.
Defined.

(** ** Saving frames *)

Lemma extends_refl (s : Store) : extends s s.
Proof. repeat split. exists []. now rewrite app_nil_r. Qed.

Lemma extends_trans (s1 s2 s3 : Store) :
  extends s1 s2 -> extends s2 s3 -> extends s1 s3.
Proof.
  intros (Hn1 & Hf1 & w1 & Hb1) (Hn2 & Hf2 & w2 & Hb2).
  repeat split; [congruence|congruence|].
  exists (w1 ++ w2). now rewrite Hb2, Hb1, app_assoc.
Qed.

Lemma for_each_extends {A : Type} (l : list A) (body : A -> M unit)
  (s : Store) :
  (forall x st, In x l -> extends st (snd (body x st))) ->
  extends s (snd (for_each l body s)).
Proof.
  revert s. induction l as [|x l IH]; intros s Hbody; [apply extends_refl|].
  cbn [for_each]. unfold bind.
  pose proof (Hbody x s (or_introl eq_refl)) as Hx.
  destruct (body x s) as [[[]|e] s1]; cbn [snd] in *; [|exact Hx].
  eapply extends_trans; [exact Hx|].
  apply IH. intros y st Hy. apply Hbody. now right.
Qed.

(** What [save_dataframe] does on a frame with the single feature column
    [c], at any depth of nesting: its own checks, then one call of the
    backend, whose outcome is the outcome of the call. *)
Lemma save_single_run (re_search : string -> string -> bool)
  (feature_save : Store -> Feature -> DataFrame -> result unit) (d : nat)
  (df : DataFrame) (c : string) (name namespace : option string)
  (s : Store) :
  Pd.difference (Pd.labels df) ["time"; "created_time"] = [c] ->
  save_dataframe_rec re_search feature_save (S d) df name namespace s
  = match single_target c name df with
    | Raise e => (Raise e, s)
    | Ok (name', df') =>
        match filtered (R := Feature)
                (fst (_split_name namespace name'))
                (snd (_split_name namespace name')) s with
        | [] => (Raise (does_not_exist namespace name'), s)
        | _ :: _ =>
            match one (query_feature (fst (_split_name namespace name'))
                                     (snd (_split_name namespace name')) s)
            with
            | Raise e => (Raise e, s)
            | Ok feature =>
                (feature_save s feature df',
                 mkStore (namespaces s) (features s)
                         (backend s ++ [(feature, df')]))
            end
        end
    end.
Proof.
  intros E. cbn [save_dataframe_rec]. rewrite E.
  unfold single_target, bind.
  assert (Hgo : forall name' df',
    (ex <- _exists (R := Feature) re_search namespace name' ;;
     if negb ex then raise (does_not_exist namespace name')
     else
       let '(namespace0, name0) := _split_name namespace name' in
       session_scope (
         s0 <- get_store ;;
         feature <- lift (one (query_feature namespace0 name0 s0)) ;;
         call_save feature_save feature df')) s
    = match filtered (R := Feature)
              (fst (_split_name namespace name'))
              (snd (_split_name namespace name')) s with
      | [] => (Raise (does_not_exist namespace name'), s)
      | _ :: _ =>
          match one (query_feature (fst (_split_name namespace name'))
                                   (snd (_split_name namespace name')) s)
          with
          | Raise e => (Raise e, s)
          | Ok feature =>
              (feature_save s feature df',
               mkStore (namespaces s) (features s)
                       (backend s ++ [(feature, df')]))
          end
      end).
  { intros name' df'. unfold bind. rewrite _exists_run.
    destruct (filtered _ _ s) as [|x l]; [reflexivity|]. cbn [negb].
    destruct (_split_name namespace name') as [ns n]. cbn [fst snd].
    unfold session_scope, get_store, lift, call_save.
    destruct (one (query_feature ns n s)) as [feature|e];
      [|now rewrite store_eta].
    now destruct (feature_save s feature df') as [[]|e]. }
  unfold bind in Hgo.
  destruct (String.eqb c "value").
  - destruct (negb (Py.truthy name)); [reflexivity|]. apply Hgo.
  - apply Hgo.
Qed.

Lemma save_single_extends (re_search : string -> string -> bool)
  (feature_save : Store -> Feature -> DataFrame -> result unit) (d : nat)
  (df : DataFrame) (c : string) (name namespace : option string)
  (s : Store) :
  Pd.difference (Pd.labels df) ["time"; "created_time"] = [c] ->
  extends s
    (snd (save_dataframe_rec re_search feature_save (S d) df name namespace
            s)).
Proof.
  intros E.
  rewrite (save_single_run re_search feature_save d df c name namespace s E).
  destruct (single_target c name df) as [[name' df']|e];
    [|apply extends_refl].
  destruct (filtered _ _ s); [apply extends_refl|].
  destruct (one _) as [feature|e]; [|apply extends_refl].
  cbn [snd]. repeat split. now exists [(feature, df')].
Qed.

Lemma exists_check_state (re_search : string -> string -> bool)
  (namespace name : option string) (s : Store) :
  snd ((ex <- _exists (R := Feature) re_search namespace name ;;
        if negb ex then raise (does_not_exist namespace name) else ret tt) s)
  = s.
Proof.
  unfold bind. rewrite _exists_run.
  now destruct (negb (negb _)).
Qed.

Lemma save_many_run (re_search : string -> string -> bool)
  (feature_save : Store -> Feature -> DataFrame -> result unit) (d : nat)
  (df : DataFrame) (name namespace : option string) (s : Store)
  (c c' : string) (l : list string) :
  Pd.difference (Pd.labels df) ["time"; "created_time"] = c :: c' :: l ->
  save_dataframe_rec re_search feature_save (S d) df name namespace s
  = (for_each (c :: c' :: l) (fun _ =>
       ex <- _exists (R := Feature) re_search namespace name ;;
       if negb ex then raise (does_not_exist namespace name) else ret tt) ;;;
     for_each (c :: c' :: l) (fun feature_name =>
       save_dataframe_rec re_search feature_save d
         (Pd.select df
            (Pd.difference (Pd.labels df) (c :: c' :: l) ++ [feature_name]))
         None None)) s.
Proof.
  intros E. cbn [save_dataframe_rec]. now rewrite E.
Qed.

(** X11: whatever the frame and the arguments, and whether it returns or
    raises, [save_dataframe] leaves the namespace and feature rows as they
    were and only adds frames to what the backend was handed: it never
    creates a feature and never takes back a frame already written. *)
Theorem save_dataframe_extends (re_search : string -> string -> bool)
  (feature_save : Store -> Feature -> DataFrame -> result unit)
  (df : DataFrame) (name namespace : option string) (s : Store) :
  extends s (snd (save_dataframe re_search feature_save df name namespace s)).
Proof.
  unfold save_dataframe.
  destruct (Pd.difference (Pd.labels df) ["time"; "created_time"])
    as [|c [|c' l]] eqn:E.
  - cbn [save_dataframe_rec]. rewrite E. apply extends_refl.
  - now apply save_single_extends with (c := c).
  - rewrite (save_many_run re_search feature_save 1 df name namespace s c c' l
               E).
    unfold bind at 1.
    pose proof (for_each_extends (c :: c' :: l)
                  (fun _ =>
                     ex <- _exists (R := Feature) re_search namespace name ;;
                     if negb ex then raise (does_not_exist namespace name)
                     else ret tt) s) as H1.
    destruct (for_each (c :: c' :: l) _ s) as [[[]|e] s1] eqn:E1;
      cbn [snd] in *.
    + eapply extends_trans.
      * apply H1. intros x st _. rewrite exists_check_state.
        apply extends_refl.
      * apply for_each_extends. intros x st Hx.
        apply save_single_extends with (c := x).
        rewrite <- E in Hx. rewrite <- E.
        exact (feature_columns_of_slice df x Hx).
    + apply H1. intros x st _. rewrite exists_check_state.
      apply extends_refl.
Qed.

Lemma one_inv {R : Type} (l : list R) (o : R) : one l = Ok o -> l = [o].
Proof.
  destruct l as [|x [|y r]]; try discriminate. intros E. now injection E as ->.
Qed.

Lemma query_feature_matches (namespace name : option string) (s : Store)
  (feature : Feature) :
  In feature (query_feature namespace name s) ->
  In feature (features s)
  /\ matches (R := Feature) namespace name feature = true.
Proof.
  unfold query_feature. rewrite filter_In. intros [Hin Hm].
  split; [exact Hin|]. apply andb_prop in Hm. destruct Hm as [Hn Hns].
  unfold matches. cbn [attr_namespace attr_name Feature_Entity].
  now rewrite Hn, Hns, !orb_true_r.
Qed.

Lemma filtered_nonempty (namespace name : option string) (s : Store)
  (feature : Feature) :
  In feature (features s) ->
  matches (R := Feature) namespace name feature = true ->
  exists x l, filtered (R := Feature) namespace name s = x :: l.
Proof.
  intros Hin Hm.
  assert (H : In feature (filtered (R := Feature) namespace name s)).
  { rewrite filtered_matches. apply filter_In. now split. }
  destruct (filtered namespace name s) as [|x l]; [destruct H|now eauto].
Qed.

(** X12: on a frame with exactly one feature column, [save_dataframe]
    makes its own checks before it calls the backend, and calls it at most
    once: either it raises with the store as it was, [feature.save] not
    having been called, or it hands exactly one frame to [feature.save], for
    a feature row of the catalog, and returns or raises as [feature.save]
    does. The catalog is as it was either way. *)
Theorem save_single_one_call (re_search : string -> string -> bool)
  (feature_save : Store -> Feature -> DataFrame -> result unit)
  (df : DataFrame) (c : string) (name namespace : option string)
  (s s' : Store) (r : result unit) :
  Pd.difference (Pd.labels df) ["time"; "created_time"] = [c] ->
  save_dataframe re_search feature_save df name namespace s = (r, s') ->
  (exists e, r = Raise e /\ s' = s)
  \/ (exists feature df',
        In feature (features s)
        /\ s' = mkStore (namespaces s) (features s)
                        (backend s ++ [(feature, df')])
        /\ r = feature_save s feature df').
Proof.
  intros E. unfold save_dataframe.
  rewrite (save_single_run re_search feature_save 1 df c name namespace s E).
  destruct (single_target c name df) as [[name' df']|e];
    [|intros H; injection H as <- <-; left; now exists e].
  destruct (filtered _ _ s);
    [intros H; injection H as <- <-; left; now eexists|].
  destruct (one _) as [feature|e] eqn:Eone;
    [|intros H; injection H as <- <-; left; now exists e].
  intros H. injection H as <- <-. right. exists feature, df'.
  split; [|split; reflexivity].
  apply one_inv in Eone.
  eapply query_feature_matches. rewrite Eone. now left.
Qed.

Lemma save_single_one_call_witness :
  let weekly :=
    mkFeature (Some "demo") (Some "weekly") VNone (VStr "date") VNone in
  let handed :=
    mkFrame [0%Z] [("time", [Some 1%Z]); ("value", [Some 5%Z])] in
  save_dataframe (fun _ _ => true) rejecting_weekly
    (mkFrame [0%Z] [("time", [Some 1%Z]); ("demo/weekly", [Some 5%Z])])
    None None example_store
  = (Raise (RuntimeError "write failed"),
     mkStore (namespaces example_store) (features example_store)
       [(weekly, handed)])
  /\ ((exists e, @Raise unit (RuntimeError "write failed") = Raise e
                 /\ mkStore (namespaces example_store)
                      (features example_store) [(weekly, handed)]
                    = example_store)
      \/ (exists feature df',
            In feature (features example_store)
            /\ mkStore (namespaces example_store) (features example_store)
                 [(weekly, handed)]
               = mkStore (namespaces example_store) (features example_store)
                   (backend example_store ++ [(feature, df')])
            /\ Raise (RuntimeError "write failed")
               = rejecting_weekly example_store feature df')).
Proof.
  intros weekly handed.
  assert (Hrun :
    save_dataframe (fun _ _ => true) rejecting_weekly
      (mkFrame [0%Z] [("time", [Some 1%Z]); ("demo/weekly", [Some 5%Z])])
      None None example_store
    = (Raise (RuntimeError "write failed"),
       mkStore (namespaces example_store) (features example_store)
         [(weekly, handed)])) by (vm_compute; reflexivity).
  split; [exact Hrun|].
  exact (save_single_one_call (fun _ _ => true) rejecting_weekly
           (mkFrame [0%Z] [("time", [Some 1%Z]); ("demo/weekly", [Some 5%Z])])
           "demo/weekly" None None example_store _ _ eq_refl Hrun).
Defined.

Lemma save_single_found (re_search : string -> string -> bool)
  (feature_save : Store -> Feature -> DataFrame -> result unit)
  (df : DataFrame) (c : string) (name namespace : option string)
  (s : Store) (feature : Feature) :
  Pd.difference (Pd.labels df) ["time"; "created_time"] = [c] ->
  (c <> "value" ->
   query_feature (fst (_split_name namespace (Some c)))
                 (snd (_split_name namespace (Some c))) s = [feature] ->
   save_dataframe re_search feature_save df name namespace s
   = (feature_save s feature (Pd.rename df c "value"),
      mkStore (namespaces s) (features s)
              (backend s ++ [(feature, Pd.rename df c "value")])))
  /\ (c = "value" -> Py.truthy name = true ->
      query_feature (fst (_split_name namespace name))
                    (snd (_split_name namespace name)) s = [feature] ->
      save_dataframe re_search feature_save df name namespace s
      = (feature_save s feature df,
         mkStore (namespaces s) (features s)
                 (backend s ++ [(feature, df)]))).
Proof.
  intros E. unfold save_dataframe.
  rewrite (save_single_run re_search feature_save 1 df c name namespace s E).
  unfold single_target.
  assert (Hgo : forall n,
            query_feature (fst (_split_name namespace n))
                          (snd (_split_name namespace n)) s = [feature] ->
            exists x l, filtered (R := Feature)
                          (fst (_split_name namespace n))
                          (snd (_split_name namespace n)) s = x :: l).
  { intros n Hq.
    destruct (query_feature_matches (fst (_split_name namespace n))
                (snd (_split_name namespace n)) s feature) as [Hin Hm];
      [rewrite Hq; now left|].
    now apply filtered_nonempty with (feature := feature). }
  split.
  - intros Hc Hq. apply String.eqb_neq in Hc. rewrite Hc.
    destruct (Hgo _ Hq) as (x & l & ->). now rewrite Hq.
  - intros -> Hname Hq. cbn [String.eqb Ascii.eqb Bool.eqb andb].
    change (String.eqb "value" "value") with true. cbv iota.
    rewrite Hname. cbn [negb].
    destruct (Hgo _ Hq) as (x & l & ->). now rewrite Hq.
Qed.

(** X13: on a frame whose single feature column is [c], when the lookup
    finds exactly one feature, [save_dataframe] hands the backend one frame
    for that feature and returns or raises as [feature.save] does on it: for
    a column other than [value] the lookup is for the namespace argument and
    [c] (split when no namespace is passed) and the frame has [c] renamed to
    [value]; for the column [value] the lookup is for the namespace and name
    arguments and the frame is handed over as it is. So the call returns
    when the backend accepts the frame, and raises the error of the backend
    when it does not. *)
Theorem save_single_hands_over (re_search : string -> string -> bool)
  (feature_save : Store -> Feature -> DataFrame -> result unit)
  (df : DataFrame) (c : string) (name namespace : option string)
  (s : Store) (feature : Feature) :
  Pd.difference (Pd.labels df) ["time"; "created_time"] = [c] ->
  (c <> "value" ->
   query_feature (fst (_split_name namespace (Some c)))
                 (snd (_split_name namespace (Some c))) s = [feature] ->
   save_dataframe re_search feature_save df name namespace s
   = (feature_save s feature (Pd.rename df c "value"),
      mkStore (namespaces s) (features s)
              (backend s ++ [(feature, Pd.rename df c "value")])))
  /\ (c = "value" -> Py.truthy name = true ->
      query_feature (fst (_split_name namespace name))
                    (snd (_split_name namespace name)) s = [feature] ->
      save_dataframe re_search feature_save df name namespace s
      = (feature_save s feature df,
         mkStore (namespaces s) (features s)
                 (backend s ++ [(feature, df)]))).
Proof.
  exact (save_single_found re_search feature_save df c name namespace s
           feature).
Qed.

Lemma save_single_hands_over_witness :
  save_dataframe (fun _ _ => true) accepting
    (mkFrame [0%Z] [("time", [Some 1%Z]); ("daily", [Some 5%Z])])
    None (Some "demo") example_store
  = (Ok tt,
     mkStore (namespaces example_store) (features example_store)
       [(mkFeature (Some "demo") (Some "daily") VNone (VStr "date") VNone,
         mkFrame [0%Z] [("time", [Some 1%Z]); ("value", [Some 5%Z])])]).
Proof.
  refine (proj1 (save_single_hands_over (fun _ _ => true) accepting
                   (mkFrame [0%Z] [("time", [Some 1%Z]); ("daily", [Some 5%Z])])
                   "daily" None (Some "demo") example_store _ eq_refl)
                _ eq_refl).
  discriminate.
Defined.

(** X14: a frame whose single feature column is a bare name, saved without
    a namespace argument while every feature of the catalog has a
    namespace and one of them has that name: the existence check passes (it
    looks for the name in any namespace), the lookup for the name with no
    namespace finds nothing, and the call raises the error of a query
    without result, not the error saying the feature does not exist;
    nothing is written. *)
Theorem save_bare_column_no_result (re_search : string -> string -> bool)
  (feature_save : Store -> Feature -> DataFrame -> result unit)
  (df : DataFrame) (c : string) (name : option string) (s : Store) :
  Pd.difference (Pd.labels df) ["time"; "created_time"] = [c] ->
  c <> "value" ->
  Py.has_sep c = false ->
  (exists f, In f (features s) /\ ft_name f = Some c) ->
  (forall f, In f (features s) -> ft_namespace f <> None) ->
  save_dataframe re_search feature_save df name None s
  = (Raise NoResultFound, s).
Proof.
  intros E Hc Hsep (f & Hf & Hfn) Hns. unfold save_dataframe.
  rewrite (save_single_run re_search feature_save 1 df c name None s E).
  unfold single_target. apply String.eqb_neq in Hc. rewrite Hc.
  rewrite (split_name_no_sep None c Hsep). cbn [fst snd].
  destruct (filtered_nonempty None (Some c) s f Hf) as (x & l & ->).
  { unfold matches. cbn [Py.truthy negb orb attr_name Feature_Entity].
    rewrite Hfn. cbn [opt_eqb]. now rewrite String.eqb_refl, orb_true_r. }
  unfold query_feature. rewrite filter_none; [reflexivity|].
  intros o Ho. specialize (Hns o Ho).
  destruct (ft_namespace o); [|contradiction].
  cbn [opt_eqb]. apply andb_false_r.
Qed.

Lemma save_bare_column_no_result_witness :
  save_dataframe (fun _ _ => true) accepting
    (mkFrame [0%Z] [("time", [Some 1%Z]); ("daily", [Some 5%Z])])
    None None example_store
  = (Raise NoResultFound, example_store).
Proof.
  apply (save_bare_column_no_result (fun _ _ => true) accepting
           (mkFrame [0%Z] [("time", [Some 1%Z]); ("daily", [Some 5%Z])])
           "daily" None example_store).
  - reflexivity.
  - discriminate.
  - reflexivity.
  - eexists. split; [left; reflexivity|reflexivity].
  - intros f [<-|[<-|[]]]; discriminate.
Defined.

Lemma for_each_const {A : Type} (l : list A) (body : A -> M unit)
  (s : Store) :
  (forall x, In x l -> body x s = (Ok tt, s)) ->
  for_each l body s = (Ok tt, s).
Proof.
  induction l as [|x l IH]; intros Hbody; [reflexivity|].
  cbn [for_each]. unfold bind. rewrite (Hbody x (or_introl eq_refl)).
  apply IH. intros y Hy. apply Hbody. now right.
Qed.

(** X15: on a frame with two or more feature columns, the check that
    [save_dataframe] makes before writing looks only at its [name] and
    [namespace] arguments: when no feature row matches them the call raises
    the error naming those arguments and writes nothing, whatever the
    columns are and even if each names a feature of the catalog. *)
Theorem save_many_checks_arguments (re_search : string -> string -> bool)
  (feature_save : Store -> Feature -> DataFrame -> result unit)
  (df : DataFrame) (name namespace : option string) (s : Store)
  (c c' : string) (l : list string) :
  Pd.difference (Pd.labels df) ["time"; "created_time"] = c :: c' :: l ->
  (forall o, In o (features s) ->
             matches (fst (_split_name namespace name))
                     (snd (_split_name namespace name)) o = false) ->
  save_dataframe re_search feature_save df name namespace s
  = (Raise (ValueError ("Feature named " ++ Py.fmt name
                        ++ " does not exist in " ++ Py.fmt namespace)), s).
Proof.
  intros E Hnone. unfold save_dataframe.
  rewrite (save_many_run re_search feature_save 1 df name namespace s c c' l E).
  assert (E0 : filtered (R := Feature) (fst (_split_name namespace name))
                 (snd (_split_name namespace name)) s = [])
    by (rewrite filtered_matches; exact (filter_none _ _ Hnone)).
  unfold bind at 1. cbn [for_each]. unfold bind at 1 2.
  rewrite _exists_run, E0. reflexivity.
Qed.

Lemma save_many_checks_arguments_witness :
  save_dataframe (fun _ _ => true) accepting
    (mkFrame [0%Z]
       [("time", [Some 1%Z]); ("demo/daily", [Some 5%Z]);
        ("demo/weekly", [Some 6%Z])])
    (Some "monthly") None example_store
  = (Raise (ValueError "Feature named monthly does not exist in None"),
     example_store).
Proof.
  apply (save_many_checks_arguments (fun _ _ => true) accepting
           (mkFrame [0%Z]
              [("time", [Some 1%Z]); ("demo/daily", [Some 5%Z]);
               ("demo/weekly", [Some 6%Z])])
           (Some "monthly") None example_store "demo/daily" "demo/weekly" []).
  - reflexivity.
  - intros o [<-|[<-|[]]]; reflexivity.
Defined.

Lemma for_each_app {A : Type} (l1 l2 : list A) (body : A -> M unit)
  (s : Store) :
  for_each (l1 ++ l2) body s = (for_each l1 body ;;; for_each l2 body) s.
Proof.
  revert s. induction l1 as [|x l1 IH]; intros s; [reflexivity|].
  cbn [app for_each]. unfold bind.
  destruct (body x s) as [[[]|e] s1]; [|reflexivity].
  rewrite IH. reflexivity.
Qed.

(** The call of the second loop of [save_dataframe] for the column [x]: one
    frame handed to the backend, with the outcome of the backend. *)
Lemma save_column_run (re_search : string -> string -> bool)
  (feature_save : Store -> Feature -> DataFrame -> result unit)
  (df : DataFrame) (fc : list string) (x : string) (s st : Store)
  (feature : Feature) :
  Pd.difference (Pd.labels df) ["time"; "created_time"] = fc ->
  In x fc -> x <> "value" -> column_feature s x feature -> extends s st ->
  save_dataframe_rec re_search feature_save 1
    (Pd.select df (Pd.difference (Pd.labels df) fc ++ [x])) None None st
  = (feature_save st feature (column_frame df fc x),
     mkStore (namespaces st) (features st)
             (backend st ++ [(feature, column_frame df fc x)])).
Proof.
  intros E Hx Hval Hq Hst.
  assert (Hq' : query_feature (fst (_split_name None (Some x)))
                              (snd (_split_name None (Some x))) st
                = [feature]).
  { unfold column_feature, query_feature in *.
    destruct Hst as (_ & -> & _). exact Hq. }
  assert (Eslice : Pd.difference
                     (Pd.labels
                        (Pd.select df
                           (Pd.difference (Pd.labels df) fc ++ [x])))
                     ["time"; "created_time"] = [x]).
  { subst fc. exact (feature_columns_of_slice df x Hx). }
  pose proof (save_single_found re_search feature_save _ x None None st
                feature Eslice) as [Hw _].
  specialize (Hw Hval Hq'). unfold save_dataframe in Hw.
  rewrite (save_single_depth re_search feature_save _ x None None 0 1 st
             Eslice).
  exact Hw.
Qed.

(** The second loop of [save_dataframe] over columns whose frames the
    backend accepts: one frame handed over per column, in order. *)
Lemma save_each_accepted (re_search : string -> string -> bool)
  (feature_save : Store -> Feature -> DataFrame -> result unit)
  (df : DataFrame) (fc cols : list string) (s : Store) :
  Pd.difference (Pd.labels df) ["time"; "created_time"] = fc ->
  (forall x, In x cols ->
     In x fc /\ x <> "value" /\ exists feature, column_feature s x feature) ->
  (forall x feature st,
     In x cols -> column_feature s x feature -> extends s st ->
     feature_save st feature (column_frame df fc x) = Ok tt) ->
  forall st, extends s st ->
  exists written,
    for_each cols (fun feature_name =>
      save_dataframe_rec re_search feature_save 1
        (Pd.select df (Pd.difference (Pd.labels df) fc ++ [feature_name]))
        None None) st
    = (Ok tt, mkStore (namespaces st) (features st) (backend st ++ written))
    /\ Forall2 (fun x w => column_feature s x (fst w)
                           /\ snd w = column_frame df fc x)
               cols written.
Proof.
  intros E. induction cols as [|x cols IH]; intros Hcols Hacc st Hst.
  - exists []. split; [|constructor].
    cbn [for_each]. unfold ret. now rewrite app_nil_r, store_eta.
  - destruct (Hcols x (or_introl eq_refl)) as (Hx & Hval & feature & Hq).
    cbn [for_each]. unfold bind.
    rewrite (save_column_run re_search feature_save df fc x s st feature
               E Hx Hval Hq Hst).
    rewrite (Hacc x feature st (or_introl eq_refl) Hq Hst).
    destruct (IH (fun y Hy => Hcols y (or_intror Hy))
                 (fun y f st' Hy => Hacc y f st' (or_intror Hy))
                 (mkStore (namespaces st) (features st)
                    (backend st ++ [(feature, column_frame df fc x)])))
      as (written & Hrun & Hall).
    { eapply extends_trans; [exact Hst|].
      repeat split. cbn [backend]. now eexists. }
    eexists (_ :: written). split.
    + rewrite Hrun. cbn [namespaces features backend].
      now rewrite <- app_assoc.
    + constructor; [|exact Hall]. now split.
Qed.

(** The second loop of [save_dataframe] when the backend accepts the
    frames of the columns [pre] and raises on the frame of the next column
    [x]: the loop stops there with the error of the backend; the frames of
    [pre] stay handed over and the columns after [x] are not reached. *)
Lemma save_each_failure (re_search : string -> string -> bool)
  (feature_save : Store -> Feature -> DataFrame -> result unit)
  (df : DataFrame) (fc pre post : list string) (x : string) (e : exn)
  (s : Store) :
  Pd.difference (Pd.labels df) ["time"; "created_time"] = fc ->
  (forall y, In y (pre ++ [x]) ->
     In y fc /\ y <> "value" /\ exists feature, column_feature s y feature) ->
  (forall y feature st,
     In y pre -> column_feature s y feature -> extends s st ->
     feature_save st feature (column_frame df fc y) = Ok tt) ->
  (forall feature st,
     column_feature s x feature -> extends s st ->
     feature_save st feature (column_frame df fc x) = Raise e) ->
  forall st, extends s st ->
  exists written,
    for_each (pre ++ x :: post) (fun feature_name =>
      save_dataframe_rec re_search feature_save 1
        (Pd.select df (Pd.difference (Pd.labels df) fc ++ [feature_name]))
        None None) st
    = (Raise e, mkStore (namespaces st) (features st) (backend st ++ written))
    /\ Forall2 (fun y w => column_feature s y (fst w)
                           /\ snd w = column_frame df fc y)
               (pre ++ [x]) written.
Proof.
  intros E Hcols Hacc Hfail st Hst.
  destruct (save_each_accepted re_search feature_save df fc pre s E
              (fun y Hy => Hcols y (in_or_app _ _ _ (or_introl Hy)))
              Hacc st Hst) as (written & Hrun & Hall).
  assert (Hxin : In x (pre ++ [x])) by (apply in_or_app; right; now left).
  destruct (Hcols x Hxin) as (Hx & Hval & feature & Hq).
  set (st1 := mkStore (namespaces st) (features st) (backend st ++ written))
    in *.
  assert (Hst1 : extends s st1).
  { eapply extends_trans; [exact Hst|].
    repeat split. cbn [backend st1]. now eexists. }
  exists (written ++ [(feature, column_frame df fc x)]). split.
  - rewrite for_each_app. unfold bind at 1. rewrite Hrun.
    cbn [for_each]. unfold bind at 1.
    rewrite (save_column_run re_search feature_save df fc x s st1 feature
               E Hx Hval Hq Hst1).
    rewrite (Hfail feature st1 Hq Hst1).
    cbn [st1 namespaces features backend]. now rewrite <- app_assoc.
  - apply Forall2_app; [exact Hall|].
    constructor; [now split|constructor].
Qed.

Lemma save_many_checks_pass (re_search : string -> string -> bool)
  (cols : list string) (s : Store) (feature : Feature) :
  In feature (features s) ->
  for_each cols (fun _ : string =>
    ex <- _exists (R := Feature) re_search None None ;;
    if negb ex then raise (does_not_exist None None) else ret tt) s
  = (Ok tt, s).
Proof.
  intros Hin. apply for_each_const. intros x _.
  unfold bind. rewrite _exists_run, split_name_none. cbn [fst snd].
  destruct (filtered_nonempty None None s feature Hin eq_refl)
    as (y & r & ->).
  reflexivity.
Qed.

(** X16: on a frame with two or more feature columns, saved without name
    and namespace arguments, when no column is called [value] and the
    lookup finds exactly one feature for each column label, [save_dataframe]
    hands the backend one frame per feature column, in the sorted order of
    the labels, for as long as the backend accepts them: the frame of a
    column holds the time columns and that column, renamed to [value], and
    goes to the feature its label names. When the backend accepts every
    frame the call returns. When it raises on the frame of a column the
    call raises that error: the frames of the columns before stay handed
    over, and the columns after are not reached. *)
Theorem save_many_hands_over (re_search : string -> string -> bool)
  (feature_save : Store -> Feature -> DataFrame -> result unit)
  (df : DataFrame) (s : Store) (c c' : string) (l : list string) :
  Pd.difference (Pd.labels df) ["time"; "created_time"] = c :: c' :: l ->
  (forall x, In x (c :: c' :: l) ->
     x <> "value" /\ exists feature, column_feature s x feature) ->
  ((forall x feature st,
      In x (c :: c' :: l) -> column_feature s x feature -> extends s st ->
      feature_save st feature (column_frame df (c :: c' :: l) x) = Ok tt) ->
   exists written,
     save_dataframe re_search feature_save df None None s
     = (Ok tt, mkStore (namespaces s) (features s) (backend s ++ written))
     /\ Forall2 (fun x w => column_feature s x (fst w)
                            /\ snd w = column_frame df (c :: c' :: l) x)
                (c :: c' :: l) written)
  /\ (forall pre x post e,
        c :: c' :: l = pre ++ x :: post ->
        (forall y feature st,
           In y pre -> column_feature s y feature -> extends s st ->
           feature_save st feature (column_frame df (c :: c' :: l) y)
           = Ok tt) ->
        (forall feature st,
           column_feature s x feature -> extends s st ->
           feature_save st feature (column_frame df (c :: c' :: l) x)
           = Raise e) ->
        exists written,
          save_dataframe re_search feature_save df None None s
          = (Raise e,
             mkStore (namespaces s) (features s) (backend s ++ written))
          /\ Forall2 (fun y w => column_feature s y (fst w)
                                 /\ snd w = column_frame df (c :: c' :: l) y)
                     (pre ++ [x]) written).
Proof.
  intros E Hcols.
  assert (Hin : exists feature, In feature (features s)).
  { destruct (Hcols c (or_introl eq_refl)) as (_ & feature & Hq).
    exists feature.
    destruct (query_feature_matches (fst (_split_name None (Some c)))
                (snd (_split_name None (Some c))) s feature) as [Hin _];
      [unfold column_feature in Hq; rewrite Hq; now left|assumption]. }
  destruct Hin as (feature0 & Hin).
  split.
  - intros Hacc. unfold save_dataframe.
    rewrite (save_many_run re_search feature_save 1 df None None s c c' l E).
    unfold bind at 1.
    rewrite (save_many_checks_pass re_search (c :: c' :: l) s feature0 Hin).
    apply (save_each_accepted re_search feature_save df (c :: c' :: l)
             (c :: c' :: l) s E).
    + intros x Hx. destruct (Hcols x Hx) as [Hv Hq]. auto.
    + exact Hacc.
    + apply extends_refl.
  - intros pre x post e Hsplit Hacc Hfail. unfold save_dataframe.
    rewrite (save_many_run re_search feature_save 1 df None None s c c' l E).
    unfold bind at 1.
    rewrite (save_many_checks_pass re_search (c :: c' :: l) s feature0 Hin).
    assert (Hpre : forall y, In y (pre ++ [x]) ->
              In y (c :: c' :: l) /\ y <> "value"
              /\ exists feature, column_feature s y feature).
    { intros y Hy.
      assert (Hy' : In y (c :: c' :: l)).
      { rewrite Hsplit. apply in_app_or in Hy. apply in_or_app.
        destruct Hy as [Hy|[<-|[]]]; [now left|right; now left]. }
      destruct (Hcols y Hy') as [Hv Hq]. auto. }
    pose proof (save_each_failure re_search feature_save df (c :: c' :: l)
                  pre post x e s E Hpre Hacc Hfail s (extends_refl s))
      as Hres.
    rewrite <- Hsplit in Hres. exact Hres.
Qed.

Lemma save_many_hands_over_witness :
  exists written,
    save_dataframe (fun _ _ => true) rejecting_weekly
      (mkFrame [0%Z]
         [("time", [Some 1%Z]); ("demo/weekly", [Some 6%Z]);
          ("demo/daily", [Some 5%Z])])
      None None example_store
    = (Raise (RuntimeError "write failed"),
       mkStore (namespaces example_store) (features example_store)
               (backend example_store ++ written))
    /\ List.length written = 2%nat.
Proof.
  destruct (save_many_hands_over (fun _ _ => true) rejecting_weekly
              (mkFrame [0%Z]
                 [("time", [Some 1%Z]); ("demo/weekly", [Some 6%Z]);
                  ("demo/daily", [Some 5%Z])])
              example_store "demo/daily" "demo/weekly" [] eq_refl)
    as [_ Hfail].
  - intros x [<-|[<-|[]]]; (split; [discriminate|eexists; reflexivity]).
  - destruct (Hfail ["demo/daily"] "demo/weekly" []
                (RuntimeError "write failed") eq_refl)
      as (written & Hrun & Hall).
    + intros y feature st [<-|[]] Hq _.
      vm_compute in Hq. injection Hq as <-. reflexivity.
    + intros feature st Hq _.
      vm_compute in Hq. injection Hq as <-. reflexivity.
    + exists written. split; [exact Hrun|].
      symmetry. exact (Forall2_length Hall).
Defined.

(** ** Loading one feature, and features that are missing *)

Lemma ffill_col_full (last : cell) (col : list cell) :
  (forall c, In c col -> c <> None) -> Pd.ffill_col last col = col.
Proof.
  revert last. induction col as [|c col IH]; intros last Hall; [reflexivity|].
  simpl. destruct c as [v|].
  - f_equal. apply IH. intros c Hc. apply Hall. now right.
  - exfalso. apply (Hall None); [now left|reflexivity].
Qed.

Section MoreLoadFacts.

Variable feature_load :
  Store -> Feature -> option Z -> option Z -> option string -> option Z ->
  string -> result Series.
Variables (from_date to_date : option Z) (freq : option string)
          (time_travel : option Z).

Local Abbreviation load_each' :=
  (load_each feature_load from_date to_date freq time_travel).
Local Abbreviation load_one' :=
  (load_one feature_load from_date to_date freq time_travel).
Local Abbreviation loaded' :=
  (loaded feature_load from_date to_date freq time_travel).

Lemma load_one_missing (mode : string) (f : option string * option string)
  (s : Store) :
  query_feature (fst f) (snd f) s = [] ->
  load_one' mode f s = (Raise (no_feature_named f), s).
Proof.
  intros Hq. destruct f as [namespace name]. cbn [fst snd] in Hq.
  unfold load_one, session_scope, bind, get_store, lift, raise.
  rewrite Hq. cbn [one_or_none]. now rewrite store_eta.
Qed.

Lemma load_each_missing (mode : string)
  (pre post : list (option string * option string))
  (f : option string * option string) (s : Store) :
  Forall (fun p => exists ser, loaded' mode s p ser) pre ->
  query_feature (fst f) (snd f) s = [] ->
  load_each' mode (pre ++ f :: post) s = (Raise (no_feature_named f), s).
Proof.
  intros Hpre Hq. induction Hpre as [|p pre (ser & Hp) _ IH].
  - cbn [app load_each]. unfold bind. now rewrite (load_one_missing mode f s Hq).
  - cbn [app load_each]. unfold bind at 1.
    rewrite (load_one_found feature_load from_date to_date freq time_travel
               mode p s ser Hp).
    unfold bind. now rewrite IH.
Qed.

End MoreLoadFacts.

Section MoreLoadTheorems.

Variable feature_load :
  Store -> Feature -> option Z -> option Z -> option string -> option Z ->
  string -> result Series.
Variable dd_merge : DataFrame -> DataFrame -> DataFrame.
Variables (from_date to_date : option Z) (freq : option string)
          (time_travel : option Z).

Local Abbreviation load_dataframe' :=
  (load_dataframe feature_load dd_merge from_date to_date freq time_travel).
Local Abbreviation load_each' :=
  (load_each feature_load from_date to_date freq time_travel).
Local Abbreviation loaded' :=
  (loaded feature_load from_date to_date freq time_travel).

Lemma load_dataframe_run (mode : string) (features : ident) (s : Store) :
  mode = "pandas" \/ mode = "dask" ->
  load_dataframe' mode features s
  = (fs <- lift (_unpack_list features None) ;;
     dfs <- load_each' mode fs ;;
     df <- lift (if String.eqb mode "pandas" then Pd.concat_outer dfs
                 else Pd.reduce dd_merge dfs) ;;
     ret (Pd.ffill df)) s.
Proof. intros [-> | ->]; reflexivity. Qed.

(** X17: [load_dataframe], in pandas or in dask mode, of one qualified
    name [q] for which the lookup finds exactly one feature and the backend
    returns a series in time order: the result is the series itself, its
    times as index and its values forward filled in a single column
    labelled [q]; the store is as it was. When no value of the series is
    missing the column is the values as they are. *)
Theorem load_single_series (mode : string) (q : string) (s : Store)
  (feature : Feature) (ser : Series) :
  mode = "pandas" \/ mode = "dask" ->
  Py.has_sep q = true ->
  query_feature (Some (hd EmptyString (Py.split q)))
                (Some (Py.join (tl (Py.split q)))) s = [feature] ->
  feature_load s feature from_date to_date freq time_travel mode = Ok ser ->
  increasing (map fst ser) = true ->
  load_dataframe' mode (OStr q) s
  = (Ok (mkFrame (map fst ser) [(q, Pd.ffill_col None (map snd ser))]), s)
  /\ ((forall c, In c (map snd ser) -> c <> None) ->
      Pd.ffill_col None (map snd ser) = map snd ser).
Proof.
  intros Hmode Hq Hfound Hload Hinc.
  split; [|apply ffill_col_full].
  rewrite (load_dataframe_run mode (OStr q) s Hmode).
  unfold _unpack_list. rewrite (split_name_no_default None q eq_refl Hq).
  set (f := (Some (hd EmptyString (Py.split q)),
             Some (Py.join (tl (Py.split q))))).
  assert (Hl : loaded' mode s f ser).
  { exists feature. cbn [fst snd f]. now rewrite Hfound. }
  unfold bind at 1, lift at 1. unfold bind at 1. cbn [load_each].
  unfold bind at 1.
  rewrite (load_one_found feature_load from_date to_date freq time_travel
             mode f s ser Hl).
  unfold bind, ret, lift.
  assert (Hd : time_indexed (series_frame f ser)).
  { split; [exact Hinc|]. cbn. constructor; [|constructor].
    cbn. now rewrite !length_map. }
  assert (Hlabel : label f = q).
  { unfold label, f. cbn [fst snd Py.fmt]. symmetry.
    now apply split_first_rest. }
  assert (Hcomb : (if String.eqb mode "pandas"
                   then Pd.concat_outer [series_frame f ser]
                   else Pd.reduce dd_merge [series_frame f ser])
                  = Ok (series_frame f ser)).
  { destruct (String.eqb mode "pandas").
    - unfold Pd.concat_outer. f_equal.
      exact (joined_single (series_frame f ser) Hd).
    - reflexivity. }
  rewrite Hcomb. unfold Pd.ffill, series_frame. cbn [index columns map fst snd].
  now rewrite Hlabel.
Qed.

(** X18: [load_dataframe], in pandas or in dask mode, resolves a bare name
    to that name with no namespace and looks for a feature row without
    namespace: when every feature of the catalog has a namespace, loading a
    name without separator raises the error saying no such feature exists
    in [None], also when a feature of that name exists in some namespace;
    the store is as it was. *)
Theorem load_bare_name_fails (mode : string) (n : string) (s : Store) :
  mode = "pandas" \/ mode = "dask" ->
  Py.has_sep n = false ->
  (forall f, In f (features s) -> ft_namespace f <> None) ->
  load_dataframe' mode (OStr n) s
  = (Raise (ValueError ("No feature named " ++ n ++ " exists in None")), s).
Proof.
  intros Hmode Hn Hns.
  rewrite (load_dataframe_run mode (OStr n) s Hmode).
  unfold _unpack_list. rewrite (split_name_no_sep None n Hn).
  assert (Hq : query_feature None (Some n) s = []).
  { unfold query_feature. apply filter_none. intros o Ho.
    specialize (Hns o Ho). destruct (ft_namespace o); [|contradiction].
    cbn [opt_eqb]. apply andb_false_r. }
  pose proof (load_each_missing feature_load from_date to_date freq
                time_travel mode [] [] (None, Some n) s (Forall_nil _) Hq)
    as Heach.
  cbn [app] in Heach.
  unfold bind at 1, lift at 1. unfold bind at 1.
  now rewrite Heach.
Qed.

(** X19: [load_dataframe], in pandas or in dask mode, stops at the first
    identifier for which the lookup finds no feature row: when the
    identifiers before it all load, the call raises the error naming that
    identifier, whatever comes after it, and the store is as it was. *)
Theorem load_first_missing (mode : string) (features : ident)
  (pre post : list (option string * option string))
  (f : option string * option string) (s : Store) :
  mode = "pandas" \/ mode = "dask" ->
  _unpack_list features None = Ok (pre ++ f :: post) ->
  Forall (fun p => exists ser, loaded' mode s p ser) pre ->
  query_feature (fst f) (snd f) s = [] ->
  load_dataframe' mode features s
  = (Raise (ValueError ("No feature named " ++ Py.fmt (snd f)
                        ++ " exists in " ++ Py.fmt (fst f))), s).
Proof.
  intros Hmode Hfs Hpre Hq.
  rewrite (load_dataframe_run mode features s Hmode), Hfs.
  unfold bind at 1, lift at 1. unfold bind at 1.
  now rewrite (load_each_missing feature_load from_date to_date freq
                 time_travel mode pre post f s Hpre Hq).
Qed.

End MoreLoadTheorems.

Lemma load_single_series_witness :
  load_dataframe example_load example_merge None None None None "dask"
    (OStr "demo/weekly") example_store
  = (Ok (mkFrame [0; 7]%Z [("demo/weekly", [Some 100; Some 200]%Z)]),
     example_store).
Proof.
  exact (proj1 (load_single_series example_load example_merge None None None
                  None "dask"
                  "demo/weekly" example_store
                  (mkFeature (Some "demo") (Some "weekly") VNone (VStr "date")
                             VNone)
                  [(0, Some 100); (7, Some 200)]%Z
                  (or_intror eq_refl) eq_refl eq_refl eq_refl eq_refl)).
Defined.

Lemma load_bare_name_fails_witness :
  load_dataframe example_load example_merge None None None None "pandas"
    (OStr "daily") example_store
  = (Raise (ValueError "No feature named daily exists in None"),
     example_store).
Proof.
  apply (load_bare_name_fails example_load example_merge None None None None
           "pandas"
           "daily" example_store).
  - now left.
  - reflexivity.
  - intros f [<-|[<-|[]]]; discriminate.
Defined.

Lemma load_first_missing_witness :
  load_dataframe example_load example_merge None None None None "pandas"
    (OList [IStr "demo/daily"; IStr "demo/absent"; IStr "demo/weekly"])
    example_store
  = (Raise (ValueError "No feature named absent exists in demo"),
     example_store).
Proof.
  apply (load_first_missing example_load example_merge None None None None
           "pandas"
           (OList [IStr "demo/daily"; IStr "demo/absent"; IStr "demo/weekly"])
           [(Some "demo", Some "daily")] [(Some "demo", Some "weekly")]
           (Some "demo", Some "absent") example_store).
  - now left.
  - reflexivity.
  - constructor; [|constructor]. eexists. eexists. split; reflexivity.
  - reflexivity.
Defined.

(** ** Last values *)

Section LastTheorems.

Variable feature_last : Store -> Feature -> result cell.

Lemma last_one_found (f : option string * option string) (s : Store)
  (v : cell) :
  (exists feature,
     one_or_none (query_feature (fst f) (snd f) s) = Ok (Some feature)
     /\ feature_last s feature = Ok v) ->
  last_one feature_last f s = (Ok v, s).
Proof.
  intros (feature & Hq & Hlast). destruct f as [namespace name].
  cbn [fst snd] in Hq.
  unfold last_one, session_scope, bind, get_store, lift.
  now rewrite Hq, Hlast.
Qed.

Lemma last_one_missing (f : option string * option string) (s : Store) :
  query_feature (fst f) (snd f) s = [] ->
  last_one feature_last f s = (Raise (no_feature_named f), s).
Proof.
  intros Hq. destruct f as [namespace name]. cbn [fst snd] in Hq.
  unfold last_one, session_scope, bind, get_store, lift, raise.
  rewrite Hq. cbn [one_or_none]. now rewrite store_eta.
Qed.

Lemma last_each_values (fs : list (option string * option string))
  (vs : list cell) (s : Store) :
  Forall2 (fun f v =>
             exists feature,
               one_or_none (query_feature (fst f) (snd f) s)
               = Ok (Some feature)
               /\ feature_last s feature = Ok v) fs vs ->
  NoDup (map label fs) ->
  forall acc,
    (forall f, In f fs -> ~ In (label f) (Py.keys acc)) ->
    last_each feature_last fs acc s
    = (Ok (acc ++ combine (map label fs) vs), s).
Proof.
  induction 1 as [|f v fs vs Hf _ IH]; intros Hnd acc Hacc.
  - cbn. unfold ret. now rewrite app_nil_r.
  - cbn [last_each map combine]. unfold bind.
    rewrite (last_one_found f s v Hf).
    inversion Hnd as [|? ? Hnew Hnd']; subst.
    rewrite (update_fresh acc (label f) v (Hacc f (or_introl eq_refl))).
    rewrite IH; [now rewrite <- app_assoc|exact Hnd'|].
    intros f' Hf'. rewrite keys_app, in_app_iff.
    intros [Hin|[E|[]]].
    + exact (Hacc f' (or_intror Hf') Hin).
    + apply Hnew. cbn in E. rewrite E. now apply in_map.
Qed.

Lemma last_each_missing
  (pre post : list (option string * option string))
  (f : option string * option string) (s : Store) :
  Forall (fun p => exists feature v,
            one_or_none (query_feature (fst p) (snd p) s) = Ok (Some feature)
            /\ feature_last s feature = Ok v) pre ->
  query_feature (fst f) (snd f) s = [] ->
  forall acc,
    last_each feature_last (pre ++ f :: post) acc s
    = (Raise (no_feature_named f), s).
Proof.
  intros Hpre Hq. induction Hpre as [|p pre (feature & v & Hp) _ IH];
    intros acc.
  - cbn [app last_each]. unfold bind. now rewrite (last_one_missing f s Hq).
  - cbn [app last_each]. unfold bind.
    rewrite (last_one_found p s v); [apply IH|now exists feature].
Qed.

(** X20: when the lookup finds exactly one feature for each identifier,
    the backend has a last value for each, and the labels of the
    identifiers are pairwise distinct, [last] returns the dictionary that
    maps, in the order asked, the label [namespace/name] of each identifier
    to the last value of its feature; the store is as it was. On an empty
    list this is the empty dictionary. *)
Theorem last_values (features : ident)
  (fs : list (option string * option string)) (vs : list cell) (s : Store) :
  _unpack_list features None = Ok fs ->
  Forall2 (fun f v =>
             exists feature,
               one_or_none (query_feature (fst f) (snd f) s)
               = Ok (Some feature)
               /\ feature_last s feature = Ok v) fs vs ->
  NoDup (map label fs) ->
  last feature_last features s = (Ok (combine (map label fs) vs), s).
Proof.
  intros Hfs Hall Hnd. unfold last, bind, lift. rewrite Hfs.
  now rewrite (last_each_values fs vs s Hall Hnd []).
Qed.

(** X21: [last] stops at the first identifier for which the lookup finds
    no feature row: when the identifiers before it all have a feature and a
    last value, the call raises the error naming that identifier, the one
    [load_dataframe] raises for it, and returns no dictionary; the store is
    as it was. *)
Theorem last_first_missing (features : ident)
  (pre post : list (option string * option string))
  (f : option string * option string) (s : Store) :
  _unpack_list features None = Ok (pre ++ f :: post) ->
  Forall (fun p => exists feature v,
            one_or_none (query_feature (fst p) (snd p) s) = Ok (Some feature)
            /\ feature_last s feature = Ok v) pre ->
  query_feature (fst f) (snd f) s = [] ->
  last feature_last features s
  = (Raise (ValueError ("No feature named " ++ Py.fmt (snd f)
                        ++ " exists in " ++ Py.fmt (fst f))), s).
Proof.
  intros Hfs Hpre Hq. unfold last, bind, lift. rewrite Hfs.
  exact (last_each_missing pre post f s Hpre Hq []).
Qed.

End LastTheorems.

Lemma last_values_witness :
  last (fun _ feature =>
          if opt_eqb (ft_name feature) (Some "daily")
          then Ok (Some 13%Z) else Ok (Some 200%Z))
       (OList [IStr "demo/weekly"; IStr "demo/daily"]) example_store
  = (Ok [("demo/weekly", Some 200%Z); ("demo/daily", Some 13%Z)],
     example_store).
Proof.
  apply (last_values _ (OList [IStr "demo/weekly"; IStr "demo/daily"])
           [(Some "demo", Some "weekly"); (Some "demo", Some "daily")]
           [Some 200%Z; Some 13%Z] example_store).
  - reflexivity.
  - repeat constructor; eexists; split; reflexivity.
  - repeat constructor; simpl; intuition discriminate.
Defined.

Lemma last_first_missing_witness :
  last (fun _ _ => Ok (Some 1%Z))
       (OList [IStr "demo/daily"; IStr "demo/absent"]) example_store
  = (Raise (ValueError "No feature named absent exists in demo"),
     example_store).
Proof.
  apply (last_first_missing _ (OList [IStr "demo/daily"; IStr "demo/absent"])
           [(Some "demo", Some "daily")] [] (Some "demo", Some "absent")
           example_store).
  - reflexivity.
  - constructor; [|constructor]. eexists. eexists. split; reflexivity.
  - reflexivity.
Defined.

(** ** Namespaces *)

Lemma list_features_by_namespace (re_search : string -> string -> bool)
  (name : string) (s : Store) :
  list_features re_search [("namespace", VStr name)] s
  = (Ok (filtered (R := Feature) (Some name) None s), s).
Proof.
  unfold list_features, bind, lift.
  change (_validate_kwargs [("namespace", VStr name)]
            ["name"; "namespace"; "regex"] []) with (Ok tt).
  change (kw_get [("namespace", VStr name)] "namespace") with (Some name).
  change (kw_get [("namespace", VStr name)] "name") with (@None string).
  change (kw_get [("namespace", VStr name)] "regex") with (@None string).
  now rewrite _list_run, split_name_none.
Qed.

Lemma namespace_by_name (name : string) (l : list Namespace) :
  name <> EmptyString ->
  filter (matches (R := Namespace) None (Some name)) l
  = filter (fun o => opt_eqb (ns_name o) (Some name)) l.
Proof.
  intros Hne. apply filter_ext. intros o. unfold matches.
  destruct name; [contradiction|]. reflexivity.
Qed.

(** X22: [delete_namespace] on a non-empty name without separator that no
    feature refers to and no namespace row carries raises the error saying
    there is no such namespace and leaves the store as it was. *)
Theorem delete_namespace_not_found (re_search : string -> string -> bool)
  (name : string) (s : Store) :
  name <> EmptyString ->
  Py.has_sep name = false ->
  (forall f, In f (features s) -> ft_namespace f <> Some name) ->
  (forall o, In o (namespaces s) -> ns_name o <> Some name) ->
  delete_namespace re_search name s
  = (Raise (RuntimeError ("No existing Namespace named " ++ name ++ " in None")),
     s).
Proof.
  intros Hne Hsep Hfree Hmissing.
  unfold delete_namespace, bind. rewrite list_features_by_namespace.
  rewrite filtered_matches. cbn [rows Feature_Entity].
  rewrite filter_none.
  - rewrite delete_run, (split_name_no_sep None name Hsep). cbn [fst snd].
    rewrite filtered_matches. cbn [rows Namespace_Entity].
    rewrite (namespace_by_name name _ Hne), filter_none; [reflexivity|].
    intros o Ho. destruct (opt_eqb _ _) eqn:E; [|reflexivity].
    apply opt_eqb_eq in E. exfalso. exact (Hmissing o Ho E).
  - intros f Hf. unfold matches.
    assert (Ht : Py.truthy (Some name) = true)
      by (destruct name; [contradiction|reflexivity]).
    rewrite Ht. cbn [Py.truthy negb orb andb attr_namespace Feature_Entity].
    rewrite andb_true_r. destruct (opt_eqb _ _) eqn:E; [|reflexivity].
    apply opt_eqb_eq in E. exfalso. exact (Hfree f Hf E).
Qed.

Lemma delete_namespace_not_found_witness :
  delete_namespace (fun _ _ => true) "lab" example_store
  = (Raise (RuntimeError "No existing Namespace named lab in None"),
     example_store).
Proof.
  apply (delete_namespace_not_found (fun _ _ => true) "lab" example_store).
  - discriminate.
  - reflexivity.
  - intros f [<-|[<-|[]]]; discriminate.
  - intros o [<-|[]]; discriminate.
Defined.

Lemma create_namespace_inv (re_search : string -> string -> bool)
  (name : string) (kw : kwargs) (s s' : Store) :
  create_namespace re_search name kw s = (Ok tt, s') ->
  ns_name (namespace_row (Some name) kw) = Some name
  /\ (forall o, In o (namespaces s) -> ns_name o <> Some name)
  /\ s' = mkStore (namespaces s ++ [namespace_row (Some name) kw])
                  (features s) (backend s).
Proof.
  intros Hrun. rewrite create_namespace_run in Hrun.
  destruct (_validate_kwargs kw _ _) as [[]|e] eqn:Ev; [|discriminate].
  destruct (existsb _ (namespaces s)) eqn:Efresh; [discriminate|].
  injection Hrun as <-.
  apply validate_kwargs_ok in Ev. destruct Ev as [Hkw _].
  pose proof (namespace_row_name (Some name) kw Hkw) as Hrow.
  split; [exact Hrow|]. split; [|reflexivity].
  intros o Ho E. pose proof (existsb_false_In _ _ Efresh o Ho) as Hkey.
  cbn [same_key Namespace_Entity] in Hkey.
  rewrite Hrow, E, opt_eqb_refl in Hkey. discriminate Hkey.
Qed.

(** X23: after a successful [create_namespace] under a non-empty name
    without separator, [list_namespaces] asked for that name, through its
    [name] keyword or through its [namespace] keyword, returns the new row
    and no other; and creating the namespace again fails on the uniqueness
    of the name, leaving the store as it is. *)
Theorem create_namespace_then_listed (re_search : string -> string -> bool)
  (name : string) (kw : kwargs) (s s' : Store) :
  create_namespace re_search name kw s = (Ok tt, s') ->
  name <> EmptyString ->
  Py.has_sep name = false ->
  exists row,
    ns_name row = Some name
    /\ s' = mkStore (namespaces s ++ [row]) (features s) (backend s)
    /\ list_namespaces re_search [("name", VStr name)] s' = (Ok [row], s')
    /\ list_namespaces re_search [("namespace", VStr name)] s'
       = (Ok [row], s')
    /\ create_namespace re_search name kw s' = (Raise IntegrityError, s').
Proof.
  intros Hrun Hne Hsep.
  pose proof Hrun as Hrun0. rewrite create_namespace_run in Hrun0.
  destruct (_validate_kwargs kw _ _) as [[]|e] eqn:Ev; [|discriminate].
  destruct (create_namespace_inv _ _ _ _ _ Hrun) as (Hrow & Hold & ->).
  exists (namespace_row (Some name) kw).
  split; [exact Hrow|]. split; [reflexivity|].
  assert (Hlist : forall kwl,
            kwl = [("name", VStr name)] \/ kwl = [("namespace", VStr name)] ->
            list_namespaces re_search kwl
              (mkStore (namespaces s ++ [namespace_row (Some name) kw])
                       (features s) (backend s))
            = (Ok [namespace_row (Some name) kw],
               mkStore (namespaces s ++ [namespace_row (Some name) kw])
                       (features s) (backend s))).
  { intros kwl Hkwl. unfold list_namespaces, bind, lift.
    assert (Ev' : _validate_kwargs kwl ["name"; "namespace"; "regex"] []
                  = Ok tt) by (destruct Hkwl as [-> | ->]; reflexivity).
    assert (En : match Py.get kwl "name" with
                 | Some v => as_str v
                 | None => kw_get kwl "namespace"
                 end = Some name)
      by (destruct Hkwl as [-> | ->]; reflexivity).
    assert (Er : kw_get kwl "regex" = None)
      by (destruct Hkwl as [-> | ->]; reflexivity).
    rewrite Ev', En, Er, _list_run, (split_name_no_sep None name Hsep).
    cbn [fst snd regex_filter]. rewrite filtered_matches.
    cbn [rows Namespace_Entity namespaces].
    rewrite (namespace_by_name name _ Hne), filter_app, filter_none.
    - cbn [filter app]. now rewrite Hrow, opt_eqb_refl.
    - intros o Ho. destruct (opt_eqb _ _) eqn:E; [|reflexivity].
      apply opt_eqb_eq in E. exfalso. exact (Hold o Ho E). }
  split; [apply Hlist; now left|]. split; [apply Hlist; now right|].
  rewrite create_namespace_run, Ev. cbn [namespaces].
  rewrite existsb_app. cbn [existsb same_key Namespace_Entity].
  now rewrite opt_eqb_refl, orb_true_r.
Qed.

Lemma create_namespace_then_listed_witness :
  let row := mkNamespace (Some "lab") VNone (VStr "file:///tmp/lab")
                         VNone VNone in
  let s' := mkStore (namespaces example_store ++ [row])
                    (features example_store) [] in
  list_namespaces (fun _ _ => true) [("namespace", VStr "lab")] s'
  = (Ok [row], s').
Proof.
  intros row s'.
  destruct (create_namespace_then_listed (fun _ _ => true) "lab"
              [("url", VStr "file:///tmp/lab")] example_store s')
    as (row' & _ & Hs' & _ & Hlist & _).
  - vm_compute. reflexivity.
  - discriminate.
  - reflexivity.
  - assert (row' = row).
    { unfold s' in Hs'. injection Hs' as Hs'. now symmetry. }
    subst row'. exact Hlist.
Defined.

(** X24: a feature can be created in a namespace right after the
    namespace was: after a successful [create_namespace] under a non-empty
    name, [create_feature] with that namespace, recognised keywords and a
    name the namespace does not hold yet returns and adds one feature row
    with that namespace and name. *)
Theorem create_namespace_then_feature (re_search : string -> string -> bool)
  (name : string) (kwn : kwargs) (s s1 : Store) (fname : string)
  (kwf : kwargs) :
  create_namespace re_search name kwn s = (Ok tt, s1) ->
  name <> EmptyString ->
  (forall k, In k (Py.keys kwf) -> In k ["description"; "meta"; "partition"]) ->
  (forall o, In o (features s) ->
             ~ (ft_namespace o = Some name /\ ft_name o = Some fname)) ->
  exists row,
    ft_namespace row = Some name
    /\ ft_name row = Some fname
    /\ create_feature re_search fname (Some name) kwf s1
       = (Ok tt, mkStore (namespaces s1) (features s1 ++ [row]) (backend s1)).
Proof.
  intros Hrun Hne Hkw Hfresh.
  destruct (create_namespace_inv _ _ _ _ _ Hrun) as (Hrow & _ & ->).
  assert (Ht : Py.truthy (Some name) = true)
    by (destruct name; [contradiction|reflexivity]).
  destruct (feature_row_identity (Some name) (Some fname) kwf Hkw)
    as [Hrns Hrn].
  exists (feature_row (Some name) (Some fname) kwf).
  split; [exact Hrns|]. split; [exact Hrn|].
  rewrite create_feature_run, check_valid_ok
    by (intros k Hk; apply mem_In; auto).
  rewrite (split_name_default (Some name) (Some fname) Ht). cbn [fst snd].
  assert (Hin : In (namespace_row (Some name) kwn)
                   (filtered (R := Namespace) (Some name) None
                      (mkStore (namespaces s ++ [namespace_row (Some name) kwn])
                               (features s) (backend s)))).
  { rewrite filtered_matches. apply filter_In. split.
    - cbn [rows Namespace_Entity namespaces]. apply in_or_app. right.
      now left.
    - unfold matches. rewrite Ht.
      cbn [Py.truthy negb orb andb attr_namespace Namespace_Entity].
      now rewrite Hrow, opt_eqb_refl. }
  destruct (filtered _ None _) as [|x l]; [destruct Hin|].
  cbn [features namespaces backend].
  destruct (existsb _ (features s)) eqn:Hex; [exfalso|reflexivity].
  apply existsb_exists in Hex. destruct Hex as (o & Ho & Hkey).
  cbn [same_key Feature_Entity] in Hkey. rewrite Hrns, Hrn in Hkey.
  apply andb_prop in Hkey. destruct Hkey as [K1 K2].
  apply opt_eqb_eq in K1, K2. apply (Hfresh o Ho). now split.
Qed.

Lemma create_namespace_then_feature_witness :
  exists row,
    create_feature (fun _ _ => true) "price" (Some "lab") []
      (mkStore
         (namespaces example_store
          ++ [mkNamespace (Some "lab") VNone (VStr "file:///tmp/lab")
                          VNone VNone])
         (features example_store) [])
    = (Ok tt,
       mkStore
         (namespaces example_store
          ++ [mkNamespace (Some "lab") VNone (VStr "file:///tmp/lab")
                          VNone VNone])
         (features example_store ++ [row]) []).
Proof.
  destruct (create_namespace_then_feature (fun _ _ => true) "lab"
              [("url", VStr "file:///tmp/lab")] example_store
              (mkStore
                 (namespaces example_store
                  ++ [mkNamespace (Some "lab") VNone (VStr "file:///tmp/lab")
                                  VNone VNone])
                 (features example_store) [])
              "price" [])
    as (row & _ & _ & Hrun).
  - vm_compute. reflexivity.
  - discriminate.
  - intros k [].
  - intros o [<-|[<-|[]]] [E _]; discriminate E.
  - exists row. exact Hrun.
Defined.
